(** * NestTask: the in-memory cache utility and the task synchronisation hook

    A shallow embedding of two pieces of the client:

    - [Cache]: the module-level key/value store of [src/utils/cache.ts],
      the block that starts at [const memoryCache] ([setCache],
      [getCache], [isCacheValid], [invalidateCache], [clearCacheByPrefix],
      [clearAllCache], [getCachedData], [updateCachedField]);
    - [UseTasks]: the [useTasks] hook ([loadTasks] with its throttle,
      cache-first display, timeout race, retry back-off and cancellation
      token, and the three mutations [handleCreateTask],
      [handleUpdateTask], [handleDeleteTask]).

    Conventions.  Wall-clock instants ([Date.now()]) and durations are
    integers of milliseconds in [Z]; the clock is an explicit argument of
    every operation that reads it.  JavaScript strings are [string].  A
    [Map<string, ...>] is a finite map.  The memory cache is a plain
    object used as a map: it is modelled with its own properties and its
    prototype, so that keys such as [constructor] or [__proto__] behave as
    they do in the code.  [Math.random] is an explicit argument. *)

From Stdlib Require Import ZArith String List Bool Lia.
From stdpp Require Import base gmap strings list fin_maps pretty.

Set Warnings "-register-all".

Open Scope Z_scope.

(* ===================================================================== *)
(** * The memory cache ([src/utils/cache.ts])                            *)
(* ===================================================================== *)

Module Cache.

(** JavaScript values that can be cached ([any]).  Objects are finite maps
    of their own enumerable string-keyed properties. *)
Inductive JsValue : Type :=
| JUndefined
| JNull
| JBool (b : bool)
| JNum (n : Z)
| JStr (s : string)
| JArr (elems : list JsValue)
| JObj (props : gmap string JsValue).

(** Truthiness, as tested by [if (cached)] and [if (!cached)]. *)
Definition truthy (v : JsValue) : bool :=
  match v with
  | JUndefined | JNull => false
  | JBool b => b
  | JNum n => negb (n =? 0)
  | JStr s => negb (String.eqb s EmptyString)
  | JArr _ | JObj _ => true
  end.

(** Index-keyed properties of an array or of a string, ["0"], ["1"], ... *)
Definition indexed (vs : list JsValue) : gmap string JsValue :=
  list_to_map (imap (fun (i : nat) v => (pretty i, v)) vs).

Definition chars (s : string) : list JsValue :=
  List.map (fun c => JStr (String c EmptyString)) (list_ascii_of_string s).

(** The own enumerable properties copied by an object spread [{...v}]. *)
Definition spread (v : JsValue) : gmap string JsValue :=
  match v with
  | JObj props => props
  | JArr elems => indexed elems
  | JStr s => indexed (chars s)
  | JUndefined | JNull | JBool _ | JNum _ => ∅
  end.

(** An entry [{ data, timestamp }]. *)
Record Entry : Type := mkEntry { data : JsValue; timestamp : Z }.

(** [const memoryCache: Record<string, any> = {}]: a plain object.  [own]
    holds its own properties, the entries written by [setCache].  Its
    prototype is [Object.prototype] ([proto = None]) until an assignment
    under the key [__proto__] replaces it: that assignment runs the setter
    inherited from [Object.prototype], which makes the assigned entry object
    the prototype ([proto = Some entry]) and creates no own property. *)
Record Store : Type := mkStore {
  own : gmap string Entry;
  proto : option Entry
}.

Definition emptyCache : Store := mkStore ∅ None.

(** The property names of [Object.prototype]: under these keys a plain
    object inherits a method, and under [__proto__] its prototype. *)
Definition OBJECT_PROTOTYPE : list string :=
  ["constructor"; "__defineGetter__"; "__defineSetter__"; "hasOwnProperty";
   "__lookupGetter__"; "__lookupSetter__"; "isPrototypeOf";
   "propertyIsEnumerable"; "toString"; "valueOf"; "__proto__";
   "toLocaleString"]%string.

(** What the expression [memoryCache[key]] can evaluate to. *)
Inductive Property : Type :=
| EntryObject (e : Entry)   (* an entry: an own property, or the replaced
                               prototype itself, read under [__proto__] *)
| PlainValue (v : JsValue)  (* [undefined]; or a field of the replaced
                               prototype, read under [data] or [timestamp] *)
| Builtin.                  (* a method of [Object.prototype], or
                               [Object.prototype] itself under [__proto__] *)

(** Lookup in [Object.prototype]. *)
Definition inherited (key : string) : Property :=
  if bool_decide (key ∈ OBJECT_PROTOTYPE) then Builtin else PlainValue JUndefined.

(** Lookup along the prototype chain, for a key that is not an own
    property: the replaced prototype (an entry object, whose own properties
    are [data] and [timestamp]) comes before [Object.prototype]; the getter
    of [__proto__] answers with the prototype. *)
Definition fromPrototype (key : string) (m : Store) : Property :=
  match proto m with
  | Some p =>
      if String.eqb key "__proto__" then EntryObject p
      else if String.eqb key "data" then PlainValue (data p)
      else if String.eqb key "timestamp" then PlainValue (JNum (timestamp p))
      else inherited key
  | None => inherited key
  end.

(** [memoryCache[key]]. *)
Definition property (key : string) (m : Store) : Property :=
  match own m !! key with
  | Some e => EntryObject e
  | None => fromPrototype key m
  end.

(** [if (cached)]: objects and functions are truthy. *)
Definition found (cached : Property) : bool :=
  match cached with
  | EntryObject _ | Builtin => true
  | PlainValue v => truthy v
  end.

(** [cached.data].  Neither a function nor a string, a number, a boolean or
    an array has a property of that name. *)
Definition dataField (cached : Property) : JsValue :=
  match cached with
  | EntryObject e => data e
  | PlainValue (JObj props) => default JUndefined (props !! "data"%string)
  | PlainValue _ | Builtin => JUndefined
  end.

(** The number that [Date.now() - x] subtracts; [None] is [NaN].  A string,
    an array or an object is converted through its text by JavaScript: that
    conversion is not modelled, such a value counts as [NaN] here. *)
Definition toNumber (x : JsValue) : option Z :=
  match x with
  | JNum n => Some n
  | JNull => Some 0
  | JBool b => Some (if b then 1 else 0)
  | JUndefined | JStr _ | JArr _ | JObj _ => None
  end.

(** [cached.timestamp], as a number. *)
Definition timestampField (cached : Property) : option Z :=
  match cached with
  | EntryObject e => Some (timestamp e)
  | PlainValue (JObj props) =>
      toNumber (default JUndefined (props !! "timestamp"%string))
  | PlainValue _ | Builtin => None
  end.

(** [memoryCache[key] = entry].  An own property is created or overwritten,
    except under [__proto__], where (no own property of that name existing)
    the inherited setter replaces the prototype. *)
Definition assign (key : string) (entry : Entry) (m : Store) : Store :=
  if String.eqb key "__proto__" && bool_decide (own m !! key = None)
  then mkStore (own m) (Some entry)
  else mkStore (<[key := entry]> (own m)) (proto m).

(** [delete memoryCache[key]]: removes an own property, never an inherited
    one. *)
Definition deleteProperty (key : string) (m : Store) : Store :=
  mkStore (delete key (own m)) (proto m).

(** [setCache(key, data)]: [memoryCache[key] = { data, timestamp: Date.now() }]. *)
Definition setCache (now : Z) (key : string) (d : JsValue) (m : Store) : Store :=
  assign key (mkEntry d now) m.

(** [getCache(key)]: [null] when [memoryCache[key]] is falsy, else its
    [data]. *)
Definition getCache (key : string) (m : Store) : JsValue :=
  let cached := property key m in
  if negb (found cached) then JNull else dataField cached.

(** The test [if (maxAge)] on an optional number: omitted and [0] are falsy. *)
Definition maxAge_given (maxAge : option Z) : bool :=
  match maxAge with
  | None => false
  | Some a => negb (a =? 0)
  end.

(** [isCacheValid(key, maxAge?)]. *)
Definition isCacheValid (now : Z) (key : string) (maxAge : option Z) (m : Store) : bool :=
  let cached := property key m in
  if negb (found cached) then false
  else
    match maxAge with
    | Some a =>
        if negb (a =? 0) then
          match timestampField cached with
          | Some t =>
              let age := now - t in
              age <? a
          | None => false
          end
        else true
    | None => true
    end.

(** [invalidateCache(key)]: [delete memoryCache[key]]. *)
Definition invalidateCache (key : string) (m : Store) : Store :=
  deleteProperty key m.

(** [Object.keys(memoryCache)]: the own keys. *)
Definition keys (m : Store) : list string := (map_to_list (own m)).*1.



(** [getCachedData(prefix)]: the own properties of the object it returns.
    The keys it copies are own keys of the store, which an assignment never
    makes [__proto__]. *)
Definition getCachedData (prefix : string) (m : Store) : gmap string JsValue :=
  fold_left
    (fun result key =>
       if String.prefix prefix key then
         <[key := dataField (property key m)]> result
       else result)
    (keys m) ∅.

(** [updateCachedField(key, field, value)]. *)
Definition updateCachedField (now : Z) (key field : string) (value : JsValue)
    (m : Store) : Store :=
  let cached := getCache key m in
  if truthy cached then
    let updated := JObj (<[field := value]> (spread cached)) in
    setCache now key updated m
  else m.

End Cache.

(* ===================================================================== *)
(** * The task synchronisation hook ([useTasks])                         *)
(* ===================================================================== *)

Module UseTasks.
Import Cache.

(** ** Constants *)

Definition CACHE_TTL : Z := 5 * 60 * 1000.
Definition TASK_FETCH_TIMEOUT : Z := 45000.
Definition MAX_RETRIES_TIMEOUT : nat := 5.
Definition MAX_RETRIES_OTHER : nat := 3.

(** ** Data *)

(** A [Task] is an object; only its [id] property is inspected. *)
Abbreviation Task := (gmap string JsValue).

(** [task.id === taskId]. *)
Definition hasId (taskId : string) (task : Task) : bool :=
  match task !! "id"%string with
  | Some (JStr s) => String.eqb s taskId
  | _ => false
  end.

(** [{ ...task, ...updatedTask }]: the properties of [updatedTask] win. *)
Definition mergeTask (task updatedTask : Task) : Task := updatedTask ∪ task.

(** An entry of [tasksCache]: [{ tasks, timestamp }]. *)
Record CachedData : Type :=
  mkCachedData { cachedTasks : list Task; cachedTimestamp : Z }.

(** What a [catch (err: any)] sees of the thrown value: [err.message]
    ([None] when the property is undefined). *)
Abbreviation ErrorValue := (option string).

(** [err.message || dflt]. *)
Definition messageOr (err : ErrorValue) (dflt : string) : string :=
  match err with
  | Some m => if String.eqb m EmptyString then dflt else m
  | None => dflt
  end.

(** [err.message === 'Task fetch timeout']. *)
Definition isTimeout (err : ErrorValue) : bool :=
  match err with
  | Some m => String.eqb m "Task fetch timeout"
  | None => false
  end.

(** How an awaited promise settles. *)
Inductive Settled (A : Type) : Type :=
| Fulfilled (value : A)
| Rejected (err : ErrorValue).
Arguments Fulfilled {A} value.
Arguments Rejected {A} err.

(** The timer of the [Promise.race] winning:
    [reject(new Error('Task fetch timeout'))]. *)
Definition timedOut {A : Type} : Settled A :=
  Rejected (Some "Task fetch timeout"%string).

(** Callbacks handed to [setTimeout]. *)
Inductive TimerAction : Type :=
| ClearLoadingRef   (* [loadingRef.current = false], after 100 ms *)
| BumpRetryCount.   (* [setRetryCount(prev => prev + 1)], after the back-off *)

(** Calls that leave the hook for the external data source, in the order
    they were issued (a ghost log). *)
Inductive RemoteCall : Type :=
| GetUser
| TestConnection
| GetSession
| FetchTasks (userId : string) (signal : nat)
| CreateTask (userId : string) (newTask : Task) (sectionId : option string)
| UpdateTask (taskId : string) (updates : Task)
| DeleteTask (taskId : string).

(** The hook instance: React state ([tasks], [loading], [error],
    [retryCount]), the refs, the heap of [AbortController]s (one [aborted]
    flag per controller, addressed by allocation index), the module-level
    [tasksCache], the pending [setTimeout] callbacks with their delays, and
    two ghost fields: the log of remote calls and whether
    [window.location.reload()] was requested. *)
Record State : Type := mkState {
  tasks : list Task;
  loading : bool;
  error : option string;
  retryCount : nat;
  loadingRef : bool;
  lastLoadTimeRef : Z;
  isMountedRef : bool;
  abortControllerRef : option nat;
  tabSwitchRecoveryRef : bool;
  controllers : list bool;
  tasksCache : gmap string CachedData;
  timers : list (Z * TimerAction);
  remoteCalls : list RemoteCall;
  reloaded : bool
}.

(** The state of a freshly mounted hook. *)
Definition initialState (cache : gmap string CachedData) : State :=
  mkState [] true None 0%nat false 0 true None false [] cache [] [] false.

Definition setTasks (v : list Task) (s : State) : State :=
  mkState
    v (loading s) (error s) (retryCount s) (loadingRef s)
    (lastLoadTimeRef s) (isMountedRef s) (abortControllerRef s)
    (tabSwitchRecoveryRef s) (controllers s) (tasksCache s) (timers s)
    (remoteCalls s) (reloaded s).

Definition setLoading (v : bool) (s : State) : State :=
  mkState
    (tasks s) v (error s) (retryCount s) (loadingRef s) (lastLoadTimeRef s)
    (isMountedRef s) (abortControllerRef s) (tabSwitchRecoveryRef s)
    (controllers s) (tasksCache s) (timers s) (remoteCalls s) (reloaded s).

Definition setError (v : option string) (s : State) : State :=
  mkState
    (tasks s) (loading s) v (retryCount s) (loadingRef s)
    (lastLoadTimeRef s) (isMountedRef s) (abortControllerRef s)
    (tabSwitchRecoveryRef s) (controllers s) (tasksCache s) (timers s)
    (remoteCalls s) (reloaded s).

Definition setRetryCount (v : nat) (s : State) : State :=
  mkState
    (tasks s) (loading s) (error s) v (loadingRef s) (lastLoadTimeRef s)
    (isMountedRef s) (abortControllerRef s) (tabSwitchRecoveryRef s)
    (controllers s) (tasksCache s) (timers s) (remoteCalls s) (reloaded s).

Definition set_loadingRef (v : bool) (s : State) : State :=
  mkState
    (tasks s) (loading s) (error s) (retryCount s) v (lastLoadTimeRef s)
    (isMountedRef s) (abortControllerRef s) (tabSwitchRecoveryRef s)
    (controllers s) (tasksCache s) (timers s) (remoteCalls s) (reloaded s).

Definition set_lastLoadTimeRef (v : Z) (s : State) : State :=
  mkState
    (tasks s) (loading s) (error s) (retryCount s) (loadingRef s) v
    (isMountedRef s) (abortControllerRef s) (tabSwitchRecoveryRef s)
    (controllers s) (tasksCache s) (timers s) (remoteCalls s) (reloaded s).

Definition set_isMountedRef (v : bool) (s : State) : State :=
  mkState
    (tasks s) (loading s) (error s) (retryCount s) (loadingRef s)
    (lastLoadTimeRef s) v (abortControllerRef s) (tabSwitchRecoveryRef s)
    (controllers s) (tasksCache s) (timers s) (remoteCalls s) (reloaded s).

Definition set_abortControllerRef (v : option nat) (s : State) : State :=
  mkState
    (tasks s) (loading s) (error s) (retryCount s) (loadingRef s)
    (lastLoadTimeRef s) (isMountedRef s) v (tabSwitchRecoveryRef s)
    (controllers s) (tasksCache s) (timers s) (remoteCalls s) (reloaded s).

Definition set_tabSwitchRecoveryRef (v : bool) (s : State) : State :=
  mkState
    (tasks s) (loading s) (error s) (retryCount s) (loadingRef s)
    (lastLoadTimeRef s) (isMountedRef s) (abortControllerRef s) v
    (controllers s) (tasksCache s) (timers s) (remoteCalls s) (reloaded s).

Definition set_controllers (v : list bool) (s : State) : State :=
  mkState
    (tasks s) (loading s) (error s) (retryCount s) (loadingRef s)
    (lastLoadTimeRef s) (isMountedRef s) (abortControllerRef s)
    (tabSwitchRecoveryRef s) v (tasksCache s) (timers s) (remoteCalls s)
    (reloaded s).

Definition set_tasksCache (v : gmap string CachedData) (s : State) : State :=
  mkState
    (tasks s) (loading s) (error s) (retryCount s) (loadingRef s)
    (lastLoadTimeRef s) (isMountedRef s) (abortControllerRef s)
    (tabSwitchRecoveryRef s) (controllers s) v (timers s) (remoteCalls s)
    (reloaded s).

Definition set_timers (v : list (Z * TimerAction)) (s : State) : State :=
  mkState
    (tasks s) (loading s) (error s) (retryCount s) (loadingRef s)
    (lastLoadTimeRef s) (isMountedRef s) (abortControllerRef s)
    (tabSwitchRecoveryRef s) (controllers s) (tasksCache s) v
    (remoteCalls s) (reloaded s).

Definition set_remoteCalls (v : list RemoteCall) (s : State) : State :=
  mkState
    (tasks s) (loading s) (error s) (retryCount s) (loadingRef s)
    (lastLoadTimeRef s) (isMountedRef s) (abortControllerRef s)
    (tabSwitchRecoveryRef s) (controllers s) (tasksCache s) (timers s) v
    (reloaded s).

Definition set_reloaded (v : bool) (s : State) : State :=
  mkState
    (tasks s) (loading s) (error s) (retryCount s) (loadingRef s)
    (lastLoadTimeRef s) (isMountedRef s) (abortControllerRef s)
    (tabSwitchRecoveryRef s) (controllers s) (tasksCache s) (timers s)
    (remoteCalls s) v.

(** What a render closes over: [userId], [retryCount], [isOffline], and the
    build constant [process.env.NODE_ENV === 'development']. *)
Record Env : Type := mkEnv {
  userId : option string;
  closureRetryCount : nat;
  isOffline : bool;
  development : bool
}.

(** [if (!userId)]: undefined and the empty string are falsy. *)
Definition truthyUserId (env : Env) : option string :=
  match userId env with
  | Some u => if String.eqb u EmptyString then None else Some u
  | None => None
  end.

(** ** Small steps shared by the handlers *)

(** [if (isMountedRef.current) { ... }]. *)
Definition whenMounted (f : State -> State) (s : State) : State :=
  if isMountedRef s then f s else s.

Definition logCall (c : RemoteCall) (s : State) : State :=
  set_remoteCalls (remoteCalls s ++ [c]) s.

Definition addTimer (delay : Z) (a : TimerAction) (s : State) : State :=
  set_timers (timers s ++ [(delay, a)]) s.

(** [signal.aborted] of controller [c]. *)
Definition aborted (c : nat) (s : State) : bool :=
  default false (controllers s !! c).

(** [abortControllerRef.current.abort()] when there is a current controller. *)
Definition abortCurrent (s : State) : State :=
  match abortControllerRef s with
  | Some c => set_controllers (<[c := true]> (controllers s)) s
  | None => s
  end.

(** [abortControllerRef.current = new AbortController()]; returns its signal. *)
Definition newAbortController (s : State) : State * nat :=
  let c := length (controllers s) in
  (set_abortControllerRef (Some c) (set_controllers (controllers s ++ [false]) s), c).

(** [!abortControllerRef.current || !abortControllerRef.current.signal.aborted]. *)
Definition currentNotAborted (s : State) : bool :=
  match abortControllerRef s with
  | None => true
  | Some c => negb (aborted c s)
  end.

(** [tasksCache.has(userId)]. *)
Definition cacheHas (uid : string) (s : State) : bool :=
  match tasksCache s !! uid with
  | Some _ => true
  | None => false
  end.

(** [tasksCache.set(userId, { tasks, timestamp: Date.now() })]. *)
Definition cacheSet (uid : string) (ts : list Task) (now : Z) (s : State) : State :=
  set_tasksCache (<[uid := mkCachedData ts now]> (tasksCache s)) s.

(** ** [loadTasks] *)

(** [Math.min(1000 * Math.pow(2, retryCount) + randomOffset, 15000)], where
    [randomOffset] is the value of [Math.floor(Math.random() * 1000)]. *)
Definition retryDelay (retryCount : nat) (randomOffset : Z) : Z :=
  Z.min (1000 * 2 ^ Z.of_nat retryCount + randomOffset) 15000.

(** [err.message === 'Task fetch timeout' ? MAX_RETRIES_TIMEOUT : MAX_RETRIES_OTHER]. *)
Definition maxRetries (err : ErrorValue) : nat :=
  if isTimeout err then MAX_RETRIES_TIMEOUT else MAX_RETRIES_OTHER.

(** The message shown when the fetch failed and cached data is displayed. *)
Definition staleMessage (err : ErrorValue) : string :=
  if isTimeout err then
    ("Using cached data. Failed to refresh: Task fetch timeout after "
       +:+ pretty (TASK_FETCH_TIMEOUT / 1000)
       +:+ "s. Network may be slow or server overloaded.")%string
  else
    ("Using cached data. Failed to refresh: " +:+ messageOr err "Unknown error")%string.

(** The [catch (err)] block of [loadTasks]. *)
Definition catchBlock (env : Env) (uid : string) (err : ErrorValue)
    (randomOffset : Z) (s : State) : State :=
  if isMountedRef s && currentNotAborted s then
    match tasksCache s !! uid with
    | Some cachedData =>
        setError (Some (staleMessage err)) (setTasks (cachedTasks cachedData) s)
    | None =>
        let s := setError (Some (messageOr err "Failed to load tasks")) s in
        if negb (isOffline env) && (closureRetryCount env <? maxRetries err)%nat then
          let timeout := retryDelay (closureRetryCount env) randomOffset in
          addTimer timeout BumpRetryCount s
        else if (maxRetries err <=? closureRetryCount env)%nat then
          set_tabSwitchRecoveryRef true s
        else s
    end
  else s.

(** The [finally] block of [loadTasks]. *)
Definition finallyBlock (s : State) : State :=
  addTimer 100 ClearLoadingRef (whenMounted (setLoading false) s).

(** Where a running [loadTasks] call is suspended. *)
Inductive Stage : Type :=
| AwaitGetUser
| AwaitTestConnection
| AwaitGetSession
| AwaitRace.

(** A suspended [loadTasks] call: its closure, the (truthy) user id, the
    [signal] it captured, and the [await] it is parked at. *)
Record Pending : Type := mkPending {
  penv : Env;
  puid : string;
  psignal : nat;
  pstage : Stage
}.

(** From [if (signal.aborted)] to the [await Promise.race(...)]:
    [fetchTasks(userId, signal)] is called unless the token was aborted. *)
Definition startFetch (env : Env) (uid : string) (signal : nat) (s : State)
    : State * option Pending :=
  if aborted signal s then (finallyBlock s, None)
  else (logCall (FetchTasks uid signal) s, Some (mkPending env uid signal AwaitRace)).

(** The body of the [try] up to its first [await]. *)
Definition enterTry (env : Env) (uid : string) (force : bool) (signal : nat)
    (s : State) : State * option Pending :=
  let s :=
    if (negb (cacheHas uid s) || force) && isMountedRef s
    then setLoading true s else s in
  let s := set_loadingRef true s in
  let s := whenMounted (setError None) s in
  if development env then startFetch env uid signal s
  else (logCall GetUser s, Some (mkPending env uid signal AwaitGetUser)).

(** [loadTasks({ force })] from its entry to its first suspension or
    return; [now] is the value read by [Date.now()]. *)
Definition loadTasks (env : Env) (force : bool) (now : Z) (s : State)
    : State * option Pending :=
  match truthyUserId env with
  | None => (s, None)
  | Some uid =>
      let s := abortCurrent s in
      let '(s, signal) := newAbortController s in
      let s :=
        if force then
          whenMounted (setRetryCount 0%nat) (set_tabSwitchRecoveryRef true s)
        else s in
      if loadingRef s && negb force then (s, None)
      else
        let throttleTime := if tabSwitchRecoveryRef s then 1000 else 3000 in
        if negb force && (now - lastLoadTimeRef s <? throttleTime) then (s, None)
        else
          match (if force then None else tasksCache s !! uid) with
          | Some cachedData =>
              if now - cachedTimestamp cachedData <? CACHE_TTL then
                (whenMounted
                   (fun s => setError None
                               (setLoading false
                                  (setTasks (cachedTasks cachedData) s))) s,
                 None)
              else
                enterTry env uid force signal
                  (whenMounted (setTasks (cachedTasks cachedData)) s)
          | None => enterTry env uid force signal s
          end
  end.

(** Resumption after [await supabase.auth.getUser()]. *)
Definition afterGetUser (p : Pending) (r : Settled unit) (randomOffset : Z)
    (s : State) : State * option Pending :=
  match r with
  | Rejected err =>
      (finallyBlock (catchBlock (penv p) (puid p) err randomOffset s), None)
  | Fulfilled _ =>
      if isOffline (penv p) then
        match tasksCache s !! puid p with
        | Some cachedData =>
            (finallyBlock
               (whenMounted
                  (fun s => setError (Some "Using cached tasks while offline"%string)
                              (setLoading false
                                 (setTasks (cachedTasks cachedData) s))) s),
             None)
        | None =>
            (finallyBlock
               (whenMounted
                  (fun s => setError (Some "Cannot fetch tasks while offline"%string)
                              (setTasks [] s)) s),
             None)
        end
      else
        (logCall TestConnection s,
         Some (mkPending (penv p) (puid p) (psignal p) AwaitTestConnection))
  end.

(** Resumption after [await testConnection()]. *)
Definition afterTestConnection (p : Pending) (r : Settled bool)
    (randomOffset : Z) (s : State) : State * option Pending :=
  match r with
  | Rejected err =>
      (finallyBlock (catchBlock (penv p) (puid p) err randomOffset s), None)
  | Fulfilled false =>
      (finallyBlock
         (catchBlock (penv p) (puid p)
            (Some "Unable to connect to database"%string) randomOffset s),
       None)
  | Fulfilled true =>
      (logCall GetSession s,
       Some (mkPending (penv p) (puid p) (psignal p) AwaitGetSession))
  end.

(** Resumption after [await supabase.auth.getSession()]; the value says
    whether [session.session] is present. *)
Definition afterGetSession (p : Pending) (r : Settled bool)
    (randomOffset : Z) (s : State) : State * option Pending :=
  match r with
  | Rejected err =>
      (finallyBlock (catchBlock (penv p) (puid p) err randomOffset s), None)
  | Fulfilled false => (finallyBlock (set_reloaded true s), None)
  | Fulfilled true => startFetch (penv p) (puid p) (psignal p) s
  end.

(** Resumption after [await Promise.race([processTasks(), timeoutPromise])].
    The two [Date.now()] reads of the success branch happen in one
    synchronous block and are one clock sample [now]. *)
Definition afterRace (p : Pending) (r : Settled (list Task))
    (now randomOffset : Z) (s : State) : State :=
  match r with
  | Fulfilled data =>
      let s :=
        if isMountedRef s && negb (aborted (psignal p) s) then
          let s := setTasks data s in
          let s := cacheSet (puid p) data now s in
          let s := setError None s in
          let s := set_lastLoadTimeRef now s in
          let s := setRetryCount 0%nat s in
          set_tabSwitchRecoveryRef false s
        else s in
      finallyBlock s
  | Rejected err =>
      finallyBlock (catchBlock (penv p) (puid p) err randomOffset s)
  end.

(** A [setTimeout] callback runs. *)
Definition fire (a : TimerAction) (s : State) : State :=
  match a with
  | ClearLoadingRef => set_loadingRef false s
  | BumpRetryCount => whenMounted (fun s => setRetryCount (S (retryCount s)) s) s
  end.

(** The effect's cleanup (unmount, or re-run of the effect). *)
Definition cleanup (s : State) : State :=
  abortCurrent (set_isMountedRef false s).

(** ** Mutations *)

(** A mutation either throws before contacting the remote, or is parked at
    its [await]. *)
Inductive Started : Type :=
| Threw (err : ErrorValue)
| Awaiting.

(** [handleCreateTask(newTask, sectionId)] up to [await createTask(...)]. *)
Definition handleCreateTask (env : Env) (newTask : Task)
    (sectionId : option string) (s : State) : State * Started :=
  if isOffline env then
    (s, Threw (Some "Cannot create tasks while offline"%string))
  else
    match truthyUserId env with
    | None => (s, Threw (Some "User ID is required"%string))
    | Some uid => (logCall (CreateTask uid newTask sectionId) s, Awaiting)
    end.

(** Resumption of [handleCreateTask] when [createTask] settles; [uid] is the
    closure's user id, which the entry check found truthy. *)
Definition createTaskSettled (uid : string) (r : Settled Task) (now : Z)
    (s : State) : State * Settled Task :=
  match r with
  | Fulfilled createdTask =>
      (whenMounted
         (fun s =>
            let s := setTasks (tasks s ++ [createdTask]) s in
            match tasksCache s !! uid with
            | Some cachedData =>
                cacheSet uid (cachedTasks cachedData ++ [createdTask]) now s
            | None => s
            end) s,
       Fulfilled createdTask)
  | Rejected err => (s, Rejected err)
  end.

(** [handleUpdateTask(taskId, updates)] up to [await updateTask(...)]. *)
Definition handleUpdateTask (env : Env) (taskId : string) (updates : Task)
    (s : State) : State * Started :=
  if isOffline env then
    (s, Threw (Some "Cannot update tasks while offline"%string))
  else (logCall (UpdateTask taskId updates) s, Awaiting).

(** [prev.map(task => task.id === taskId ? { ...task, ...updatedTask } : task)]. *)
Definition patchTasks (taskId : string) (updatedTask : Task) (ts : list Task)
    : list Task :=
  List.map (fun task => if hasId taskId task then mergeTask task updatedTask else task) ts.

Definition updateTaskSettled (env : Env) (taskId : string) (r : Settled Task)
    (now : Z) (s : State) : State * Settled Task :=
  match r with
  | Fulfilled updatedTask =>
      (whenMounted
         (fun s =>
            let s := setTasks (patchTasks taskId updatedTask (tasks s)) s in
            match truthyUserId env with
            | Some uid =>
                match tasksCache s !! uid with
                | Some cachedData =>
                    cacheSet uid
                      (patchTasks taskId updatedTask (cachedTasks cachedData)) now s
                | None => s
                end
            | None => s
            end) s,
       Fulfilled updatedTask)
  | Rejected err => (s, Rejected err)
  end.

(** [handleDeleteTask(taskId)] up to [await deleteTask(taskId)]. *)
Definition handleDeleteTask (env : Env) (taskId : string) (s : State)
    : State * Started :=
  if isOffline env then
    (s, Threw (Some "Cannot delete tasks while offline"%string))
  else (logCall (DeleteTask taskId) s, Awaiting).

(** [prev.filter(task => task.id !== taskId)]. *)
Definition dropTask (taskId : string) (ts : list Task) : list Task :=
  List.filter (fun task => negb (hasId taskId task)) ts.

Definition deleteTaskSettled (env : Env) (taskId : string) (r : Settled unit)
    (now : Z) (s : State) : State * Settled bool :=
  match r with
  | Fulfilled _ =>
      (whenMounted
         (fun s =>
            let s := setTasks (dropTask taskId (tasks s)) s in
            match truthyUserId env with
            | Some uid =>
                match tasksCache s !! uid with
                | Some cachedData =>
                    cacheSet uid (dropTask taskId (cachedTasks cachedData)) now s
                | None => s
                end
            | None => s
            end) s,
       Fulfilled true)
  | Rejected err => (s, Rejected err)
  end.

(** ** The event loop

    The hook together with its suspended [loadTasks] calls.  An event is a
    call of [loadTasks], the settling of the promise one suspended call is
    waiting for, a timer callback, or the effect's cleanup. *)

Record World : Type := mkWorld { hook : State; inflight : list Pending }.

Inductive Event : Type :=
| LoadTasks (env : Env) (force : bool) (now : Z)
| GetUserSettled (i : nat) (r : Settled unit) (randomOffset : Z)
| TestConnectionSettled (i : nat) (r : Settled bool) (randomOffset : Z)
| GetSessionSettled (i : nat) (r : Settled bool) (randomOffset : Z)
| RaceSettled (i : nat) (r : Settled (list Task)) (now randomOffset : Z)
| TimerFired (i : nat)
| Cleanup.

Definition stage_eqb (a b : Stage) : bool :=
  match a, b with
  | AwaitGetUser, AwaitGetUser
  | AwaitTestConnection, AwaitTestConnection
  | AwaitGetSession, AwaitGetSession
  | AwaitRace, AwaitRace => true
  | _, _ => false
  end.

(** Resume the [i]-th suspended call if it is parked at [expected]. *)
Definition resume (expected : Stage) (i : nat)
    (k : Pending -> State -> State * option Pending) (w : World) : World :=
  match inflight w !! i with
  | Some p =>
      if stage_eqb (pstage p) expected then
        let '(s, next) := k p (hook w) in
        mkWorld s (delete i (inflight w) ++ option_list next)
      else w
  | None => w
  end.

Definition step (e : Event) (w : World) : World :=
  match e with
  | LoadTasks env force now =>
      let '(s, next) := loadTasks env force now (hook w) in
      mkWorld s (inflight w ++ option_list next)
  | GetUserSettled i r rnd =>
      resume AwaitGetUser i (fun p => afterGetUser p r rnd) w
  | TestConnectionSettled i r rnd =>
      resume AwaitTestConnection i (fun p => afterTestConnection p r rnd) w
  | GetSessionSettled i r rnd =>
      resume AwaitGetSession i (fun p => afterGetSession p r rnd) w
  | RaceSettled i r now rnd =>
      resume AwaitRace i (fun p s => (afterRace p r now rnd s, None)) w
  | TimerFired i =>
      match timers (hook w) !! i with
      | Some (_, a) =>
          mkWorld (fire a (set_timers (delete i (timers (hook w))) (hook w)))
                  (inflight w)
      | None => w
      end
  | Cleanup => mkWorld (cleanup (hook w)) (inflight w)
  end.

Definition run (es : list Event) (w : World) : World :=
  fold_left (fun w e => step e w) es w.

(** ** Ghost observations *)

Definition isFetch (c : RemoteCall) : bool :=
  match c with
  | FetchTasks _ _ => true
  | _ => false
  end.

(** Number of [fetchTasks] calls that reached the data source. *)
Definition fetchCount (s : State) : nat :=
  length (List.filter isFetch (remoteCalls s)).

(** Suspended calls that have not reached [fetchTasks] yet. *)
Definition beforeFetch (p : Pending) : bool := negb (stage_eqb (pstage p) AwaitRace).

Definition fetchesToCome (w : World) : nat :=
  length (List.filter beforeFetch (inflight w)).






(** ** A chain of failed attempts

    The hook re-renders after [setRetryCount]: the next [loadTasks] closes
    over the new [retryCount]. *)
Definition rerender (env : Env) (s : State) : Env :=
  mkEnv (userId env) (retryCount s) (isOffline env) (development env).

(** The timers scheduled between two states. *)
Definition newTimers (before after : State) : list (Z * TimerAction) :=
  drop (length (timers before)) (timers after).

(** Successive attempts that all fail: attempt [k] rejects with
    [fst (failures !! k)] and draws the random offset
    [snd (failures !! k)].  After each failure the [catch] block runs; if it
    scheduled the back-off timer, the timer fires, the hook re-renders and
    the next attempt starts.  The result is the sequence of back-off delays
    that were scheduled. *)
Fixpoint retryChain (failures : list (ErrorValue * Z)) (env : Env)
    (uid : string) (s : State) : list Z :=
  match failures with
  | [] => []
  | (err, randomOffset) :: rest =>
      let s1 := catchBlock env uid err randomOffset s in
      match newTimers s s1 with
      | (delay, BumpRetryCount) :: _ =>
          let s2 := fire BumpRetryCount (set_timers (timers s) s1) in
          delay :: retryChain rest (rerender env s2) uid s2
      | _ => []
      end
  end.

End UseTasks.

(* ===================================================================== *)
(** * The hook's effect, recovery handlers and full event loop          *)
(* ===================================================================== *)

Module Lifecycle.
Import Cache UseTasks.

(** The callback of the effect's 100 ms timer and of the realtime
    subscription: [if (isMountedRef.current) { loadTasks(); }]. *)
Definition loadIfMounted (env : Env) (now : Z) (s : State)
    : State * option Pending :=
  if isMountedRef s then loadTasks env false now s else (s, None).

(** [refreshTasks(force = false)]: [loadTasks({ force })]. *)
Definition refreshTasks (env : Env) (force : option bool) (now : Z) (s : State)
    : State * option Pending :=
  loadTasks env (default false force) now s.

(** What one run of the effect leaves behind: the [loadTasks] call it
    started, whether it scheduled the 100 ms background refresh, and whether
    it registered the subscription, the visibility handler, the poll and the
    cleanup (only when not offline). *)
Record Mounted : Type := mkMounted {
  started : option Pending;
  deferred : bool;
  registered : bool
}.

(** The body of the effect on [userId, loadTasks, isOffline]. *)
Definition effectBody (env : Env) (now : Z) (s : State) : State * Mounted :=
  match truthyUserId env with
  | None => (setLoading false (setTasks [] s), mkMounted None false false)
  | Some uid =>
      let s := set_isMountedRef true s in
      match tasksCache s !! uid with
      | Some cachedData =>
          (setLoading false (setTasks (cachedTasks cachedData) s),
           mkMounted None true (negb (isOffline env)))
      | None =>
          let '(s, next) := loadTasks env false now s in
          (s, mkMounted next false (negb (isOffline env)))
      end
  end.

(** [handleVisibilityChange]; [uid] is the (truthy) user id of the effect
    that registered the handler, [visible] is
    [document.visibilityState === 'visible'].  The clock reads of the
    handler and of the [loadTasks] call it makes are one sample. *)
Definition handleVisibilityChange (env : Env) (uid : string) (visible : bool)
    (now : Z) (s : State) : State * option Pending :=
  if visible then
    let s := if loadingRef s then set_loadingRef false s else s in
    let isStuck := 20000 <? now - lastLoadTimeRef s in
    if isStuck || tabSwitchRecoveryRef s then loadTasks env true now s
    else
      match tasksCache s !! uid with
      | Some cachedData =>
          if CACHE_TTL <? now - cachedTimestamp cachedData
          then loadTasks env false now s
          else (s, None)
      | None => loadTasks env false now s
      end
  else (s, None).

(** The callback of the 5 s [setInterval]. *)
Definition pollCheck (now : Z) (s : State) : State :=
  if loadingRef s && (TASK_FETCH_TIMEOUT + 5000 <? now - lastLoadTimeRef s) then
    let s := set_loadingRef false s in
    whenMounted (fun s => set_tabSwitchRecoveryRef true (setLoading false s)) s
  else s.

(** Everything that can happen to a hook instance: the events of
    [UseTasks.step], a run of the effect, the deferred or realtime-driven
    load, a visibility change, a poll tick, and the calls and settlements
    of the three mutations. *)
Inductive HookEvent : Type :=
| Core (e : Event)
| EffectRun (env : Env) (now : Z)
| CallbackLoad (env : Env) (now : Z)
| VisibilityChange (env : Env) (uid : string) (visible : bool) (now : Z)
| PollTick (now : Z)
| CreateCalled (env : Env) (newTask : Task) (sectionId : option string)
| CreateSettled (uid : string) (r : Settled Task) (now : Z)
| UpdateCalled (env : Env) (taskId : string) (updates : Task)
| UpdateSettled (env : Env) (taskId : string) (r : Settled Task) (now : Z)
| DeleteCalled (env : Env) (taskId : string)
| DeleteSettled (env : Env) (taskId : string) (r : Settled unit) (now : Z).

Definition hookStep (e : HookEvent) (w : World) : World :=
  match e with
  | Core e => step e w
  | EffectRun env now =>
      let '(s, m) := effectBody env now (hook w) in
      mkWorld s (inflight w ++ option_list (started m))
  | CallbackLoad env now =>
      let '(s, next) := loadIfMounted env now (hook w) in
      mkWorld s (inflight w ++ option_list next)
  | VisibilityChange env uid visible now =>
      let '(s, next) := handleVisibilityChange env uid visible now (hook w) in
      mkWorld s (inflight w ++ option_list next)
  | PollTick now => mkWorld (pollCheck now (hook w)) (inflight w)
  | CreateCalled env newTask sectionId =>
      mkWorld (handleCreateTask env newTask sectionId (hook w)).1 (inflight w)
  | CreateSettled uid r now =>
      mkWorld (createTaskSettled uid r now (hook w)).1 (inflight w)
  | UpdateCalled env taskId updates =>
      mkWorld (handleUpdateTask env taskId updates (hook w)).1 (inflight w)
  | UpdateSettled env taskId r now =>
      mkWorld (updateTaskSettled env taskId r now (hook w)).1 (inflight w)
  | DeleteCalled env taskId =>
      mkWorld (handleDeleteTask env taskId (hook w)).1 (inflight w)
  | DeleteSettled env taskId r now =>
      mkWorld (deleteTaskSettled env taskId r now (hook w)).1 (inflight w)
  end.

Definition hookRun (es : list HookEvent) (w : World) : World :=
  fold_left (fun w e => hookStep e w) es w.

(** The visible items are the ones cached for [uid]. *)
Definition inSync (uid : string) (s : State) : Prop :=
  exists c, tasksCache s !! uid = Some c /\ cachedTasks c = tasks s.

(** No entry of [tasksCache] has disappeared between two states. *)
Definition cacheKept (s s' : State) : Prop :=
  forall k, is_Some (tasksCache s !! k) -> is_Some (tasksCache s' !! k).

(** How a call that may run [loadTasks] moves the tokens: not at all, and
    then it suspends nothing; or it aborts the current controller and
    installs a new one, which is the token of whatever it suspends. *)
Definition tokenStep (s : State) (r : State * option Pending) : Prop :=
  (controllers r.1 = controllers s
   /\ abortControllerRef r.1 = abortControllerRef s /\ r.2 = None)
  \/ (controllers r.1 = controllers (abortCurrent s) ++ [false]
      /\ abortControllerRef r.1 = Some (length (controllers s))
      /\ forall p, r.2 = Some p -> psignal p = length (controllers s)).

(** At most one cancellation token is live: every controller other than the
    current one has been aborted, the current one exists, and every
    suspended call holds a token that exists. *)
Definition tokensOk (w : World) : Prop :=
  (forall c, (c < length (controllers (hook w)))%nat ->
             abortControllerRef (hook w) <> Some c ->
             aborted c (hook w) = true)
  /\ (forall c, abortControllerRef (hook w) = Some c ->
                (c < length (controllers (hook w)))%nat)
  /\ (forall p, p ∈ inflight w -> (psignal p < length (controllers (hook w)))%nat).

End Lifecycle.

(* ===================================================================== *)
(** * The service worker's caching decisions ([src/service-worker.ts])  *)
(* ===================================================================== *)

Module ServiceWorker.

Definition CACHE_NAME : string := "nt-app-v4".
Definition STATIC_CACHE : string := "nt-static-v4".
Definition IMG_CACHE : string := "nt-img-v4".
Definition API_CACHE : string := "nt-api-v4".
Definition FONT_CACHE : string := "nt-font-v4".
Definition METADATA_CACHE : string := "nt-meta-v4".

Definition NEVER_CACHE_ROUTES : list string :=
  ["/auth"; "/login"; "/signup"; "/reset-password"]%string.

(** [s.includes(sub)]. *)
Fixpoint includes (sub s : string) : bool :=
  String.prefix sub s
  || match s with
     | EmptyString => false
     | String _ rest => includes sub rest
     end.

(** The components of a parsed [URL] that the worker inspects. *)
Record URL : Type := mkURL {
  protocol : string;
  hostname : string;
  pathname : string;
  origin : string
}.

(** [NEVER_CACHE_ROUTES.some(route => pathname === route ||
    pathname.startsWith(`${route}/`))]. *)
Definition isNeverCacheRoute (path : string) : bool :=
  existsb
    (fun route => String.eqb path route || String.prefix (route +:+ "/") path)
    NEVER_CACHE_ROUTES.

(** [isValidCacheURL(url)]; the argument is the outcome of [new URL(url)],
    [None] when the constructor throws. *)
Definition isValidCacheURL (parsed : option URL) : bool :=
  match parsed with
  | None => false
  | Some urlObj =>
      if negb (existsb (String.eqb (protocol urlObj)) ["http:"; "https:"]%string)
      then false
      else if includes "supabase.co" (hostname urlObj) then false
      else if includes "_vercel/insights" (pathname urlObj) then false
      else if isNeverCacheRoute (pathname urlObj) then false
      else true
  end.

(** What the handlers read of a [Request]; its [url] always parses. *)
Record Request : Type := mkRequest {
  method : string;
  mode : string;
  destination : string;
  url : URL
}.

Inductive Strategy : Type :=
| CacheFirst (cacheName : string)
| StaleWhileRevalidate (cacheName : string).

(** The three match callbacks handed to [registerRoute], in order. *)
Definition matchImage (r : Request) : bool :=
  if negb (isValidCacheURL (Some (url r))) then false
  else String.eqb (destination r) "image"
       && (includes "/icons/" (pathname (url r))
           || includes "/images/ui/" (pathname (url r))).

Definition matchScriptOrStyle (r : Request) : bool :=
  if negb (isValidCacheURL (Some (url r))) then false
  else String.eqb (destination r) "script" || String.eqb (destination r) "style".

Definition matchFont (r : Request) : bool :=
  if negb (isValidCacheURL (Some (url r))) then false
  else String.eqb (destination r) "font"
       || includes "fonts.googleapis.com" (origin (url r))
       || includes "fonts.gstatic.com" (origin (url r)).

(** The strategy of the first route of this file whose callback matches. *)
Definition runtimeRoute (r : Request) : option Strategy :=
  if matchImage r then Some (CacheFirst IMG_CACHE)
  else if matchScriptOrStyle r then Some (StaleWhileRevalidate STATIC_CACHE)
  else if matchFont r then Some (CacheFirst FONT_CACHE)
  else None.

(** What the [fetch] listener does with a request. *)
Inductive FetchAction : Type :=
| Ignored                      (* returns before touching anything *)
| NetworkThenOfflinePage       (* [respondWith(fetch(request).catch(...))] *)
| BrowserDefault.              (* activity stamped, no [respondWith] *)

Definition onFetch (r : Request) : FetchAction :=
  if negb (String.eqb (method r) "GET") then Ignored
  else if negb (isValidCacheURL (Some (url r))) then Ignored
  else if String.eqb (mode r) "navigate" then NetworkThenOfflinePage
  else BrowserDefault.

End ServiceWorker.

(* ===================================================================== *)
(** * Prefetching into the memory cache ([src/utils/prefetch.ts])       *)
(* ===================================================================== *)

Module Prefetch.
Import Cache.

Definition MAX_CACHE_AGE : Z := 10 * 60 * 1000.

(** The module state: the two tracking sets and the memory cache, with two
    ghost logs of what was actually requested. *)
Record State : Type := mkState {
  prefetchedRoutes : gset string;
  prefetchedQueries : gset string;
  memoryCache : Store;
  preloads : list string;   (* route keys handed to [preloadComponent] *)
  queries : list string     (* cache keys whose query was started *)
}.

Definition initialState : State := mkState ∅ ∅ emptyCache [] [].

(** [prefetchRoute(importFn, routeKey)]; [onLine] is [navigator.onLine]. *)
Definition prefetchRoute (onLine : bool) (routeKey : string) (s : State) : State :=
  if bool_decide (routeKey ∈ prefetchedRoutes s) || negb onLine then s
  else
    mkState ({[routeKey]} ∪ prefetchedRoutes s) (prefetchedQueries s)
      (memoryCache s) (preloads s ++ [routeKey]) (queries s).

(** [prefetchApiData(tableName, queryFn, cacheKey, options)] up to its
    [await]: [true] when the query was started. *)
Definition prefetchApiData (onLine : bool) (cacheKey : string) (s : State)
    : State * bool :=
  if bool_decide (cacheKey ∈ prefetchedQueries s) || negb onLine then (s, false)
  else
    (mkState (prefetchedRoutes s) ({[cacheKey]} ∪ prefetchedQueries s)
       (memoryCache s) (preloads s) (queries s ++ [cacheKey]),
     true).

(** How the awaited query ends: it throws (or building it threw), or it
    resolves to [{ data, error }] with [error] truthy or not. *)
Inductive QueryOutcome : Type :=
| Threw
| Failed
| Answered (data : JsValue).

Definition forget (cacheKey : string) (s : State) : State :=
  mkState (prefetchedRoutes s) (prefetchedQueries s ∖ {[cacheKey]})
    (memoryCache s) (preloads s) (queries s).

(** Resumption of [prefetchApiData] when the query settles. *)
Definition prefetchSettled (cacheKey : string) (r : QueryOutcome) (now : Z)
    (s : State) : State :=
  match r with
  | Threw => forget cacheKey s
  | Failed => forget cacheKey s
  | Answered data =>
      if truthy data then
        mkState (prefetchedRoutes s) (prefetchedQueries s)
          (setCache now cacheKey data (memoryCache s)) (preloads s) (queries s)
      else s
  end.

(** [getCachedData(cacheKey)]. *)
Definition getCachedData (cacheKey : string) (s : State) : JsValue :=
  getCache cacheKey (memoryCache s).

(** [clearPrefetchCache()]. *)
Definition clearPrefetchCache (s : State) : State :=
  mkState ∅ ∅ (memoryCache s) (preloads s) (queries s).

(** A sequence of module calls. *)
Inductive Call : Type :=
| PrefetchRoute (onLine : bool) (routeKey : string)
| PrefetchApiData (onLine : bool) (cacheKey : string)
| QuerySettled (cacheKey : string) (r : QueryOutcome) (now : Z).

Definition call (c : Call) (s : State) : State :=
  match c with
  | PrefetchRoute onLine routeKey => prefetchRoute onLine routeKey s
  | PrefetchApiData onLine cacheKey => (prefetchApiData onLine cacheKey s).1
  | QuerySettled cacheKey r now => prefetchSettled cacheKey r now s
  end.

Definition calls (cs : list Call) (s : State) : State :=
  fold_left (fun s c => call c s) cs s.

(** Settlements of the query for [cacheKey] that make the key eligible
    again: the query threw or answered with an error. *)
Definition isFailureOf (cacheKey : string) (c : Call) : bool :=
  match c with
  | QuerySettled k Threw _ | QuerySettled k Failed _ => String.eqb k cacheKey
  | _ => false
  end.

Definition failuresOf (cacheKey : string) (cs : list Call) : nat :=
  length (List.filter (isFailureOf cacheKey) cs).

(** How often the query for [cacheKey] was started. *)
Definition queriesOf (cacheKey : string) (s : State) : nat :=
  length (List.filter (String.eqb cacheKey) (queries s)).

End Prefetch.

(* ===================================================================== *)
(** * Properties of the memory cache                                     *)
(* ===================================================================== *)

Section CacheFacts.
Import Cache.

(** ** Reading a key *)


Lemma property_own key (m : Store) e :
  own m !! key = Some e -> property key m = EntryObject e.
Proof. intros He. unfold property. by rewrite He. Qed.

Lemma property_absent key (m : Store) :
  own m !! key = None -> proto m = None -> property key m = inherited key.
Proof. intros Ho Hp. unfold property, fromPrototype. by rewrite Ho, Hp. Qed.

Lemma inherited_ordinary key :
  key ∉ OBJECT_PROTOTYPE -> inherited key = PlainValue JUndefined.
Proof. intros Hk. unfold inherited. by rewrite bool_decide_eq_false_2. Qed.


(** After [setCache], the key resolves to the entry just written, also
    under [__proto__], where the entry has become the prototype. *)
Lemma property_setCache_eq now key d (m : Store) :
  property key (setCache now key d m) = EntryObject (mkEntry d now).
Proof.
  unfold setCache, assign, property, fromPrototype.
  destruct (String.eqb_spec key "__proto__") as [->|Hne]; cbn [andb].
  - case_bool_decide as Ho; cbn [own proto].
    + by rewrite Ho.
    + by rewrite lookup_insert_eq.
  - cbn [own]. by rewrite lookup_insert_eq.
Qed.

Lemma own_setCache_ne now key key' d (m : Store) :
  key ≠ key' -> own (setCache now key d m) !! key' = own m !! key'.
Proof.
  intros Hne. unfold setCache, assign.
  destruct (_ && _); cbn [own]; [done | by rewrite lookup_insert_ne].
Qed.

Lemma setCache_own now key d (m : Store) e :
  own m !! key = Some e ->
  setCache now key d m = mkStore (<[key := mkEntry d now]> (own m)) (proto m).
Proof.
  intros He. unfold setCache, assign.
  rewrite (bool_decide_eq_false_2 (own m !! key = None)) by congruence.
  by rewrite andb_false_r.
Qed.




Lemma property_invalidate_eq key (m : Store) :
  property key (invalidateCache key m) = fromPrototype key m.
Proof.
  unfold property, invalidateCache, deleteProperty. cbn [own].
  by rewrite lookup_delete_eq.
Qed.

Lemma getCache_entry key (m : Store) e :
  property key m = EntryObject e -> getCache key m = data e.
Proof. intros He. unfold getCache. by rewrite He. Qed.

Lemma isCacheValid_entry now key maxAge (m : Store) e :
  property key m = EntryObject e ->
  isCacheValid now key maxAge m
  = if maxAge_given maxAge then now - timestamp e <? default 0 maxAge else true.
Proof.
  intros He. unfold isCacheValid. rewrite He. cbn.
  destruct maxAge as [a|]; cbn; [| done]. by destruct (a =? 0).
Qed.

Lemma getCache_setCache now key d (m : Store) :
  getCache key (setCache now key d m) = d.
Proof. by rewrite (getCache_entry _ _ _ (property_setCache_eq now key d m)). Qed.

Lemma isCacheValid_lookup now key maxAge (m : Store) e :
  own m !! key = Some e ->
  isCacheValid now key maxAge m
  = if maxAge_given maxAge then now - timestamp e <? default 0 maxAge else true.
Proof. intros He. by apply isCacheValid_entry, property_own. Qed.

(** A key that is neither stored nor a member of [Object.prototype]. *)
Lemma isCacheValid_absent now key maxAge (m : Store) :
  own m !! key = None -> proto m = None -> key ∉ OBJECT_PROTOTYPE ->
  isCacheValid now key maxAge m = false.
Proof.
  intros Ho Hp Hk. unfold isCacheValid.
  by rewrite (property_absent _ _ Ho Hp), (inherited_ordinary _ Hk).
Qed.


(** A member of [Object.prototype] has no [timestamp]: against a nonzero
    [maxAge] its age is [NaN] and the comparison fails. *)
Lemma isCacheValid_absent_nonzero now key a (m : Store) :
  own m !! key = None -> proto m = None -> a <> 0 ->
  isCacheValid now key (Some a) m = false.
Proof.
  intros Ho Hp Ha. unfold isCacheValid, inherited.
  rewrite (property_absent _ _ Ho Hp). unfold inherited.
  case_bool_decide; cbn; [| done].
  apply Z.eqb_neq in Ha. by rewrite Ha.
Qed.

(** ** Deleting keys *)







(** [key.startsWith(prefix)] holds exactly when [key] is [prefix] followed by
    some rest. *)
Lemma prefix_startsWith (prefix key : string) :
  String.prefix prefix key = true <-> exists rest, key = (prefix +:+ rest)%string.
Proof.
  revert key. induction prefix as [|c prefix IH]; intros [|c' key]; cbn.
  - split; [intros _; by exists EmptyString | done].
  - split; [intros _; by eexists | done].
  - split; [done | intros [rest Hrest]; discriminate].
  - destruct (Ascii.ascii_dec c c') as [->|Hne].
    + rewrite IH. split; intros [rest Hrest]; exists rest.
      * by rewrite Hrest.
      * by injection Hrest.
    + split; [done | intros [rest Hrest]; by injection Hrest].
Qed.

(** ** Validity against a maximum age *)

(** C3, as amended.  In a store whose prototype has not been replaced, for
    every key and every _nonzero_ [maxAge], [isCacheValid key maxAge] is
    true iff an entry exists for the key and
    [now - entry.timestamp < maxAge]; and in every store, after
    [setCache k v] at time [T], the check is true at every query time
    strictly before [T + maxAge] and false at every query time at or after
    it. *)
Theorem isCacheValid_nonzero_maxAge (m : Store) (now : Z) (key : string) (maxAge : Z) :
  maxAge <> 0 ->
  (proto m = None ->
     (isCacheValid now key (Some maxAge) m = true
        <-> exists e, own m !! key = Some e /\ now - timestamp e < maxAge))
  /\ (forall T v,
        (now < T + maxAge ->
           isCacheValid now key (Some maxAge) (setCache T key v m) = true)
        /\ (T + maxAge <= now ->
              isCacheValid now key (Some maxAge) (setCache T key v m) = false)).
Proof.
  intros Hnz. pose proof Hnz as Hnzb. apply Z.eqb_neq in Hnzb. split.
  - intros Hp. destruct (own m !! key) as [e|] eqn:He.
    + rewrite (isCacheValid_lookup _ _ _ _ e He). simpl. rewrite Hnzb. simpl.
      rewrite Z.ltb_lt. split; [intros Hlt; by exists e |].
      intros [e' [[= <-] Hlt]]. exact Hlt.
    + rewrite (isCacheValid_absent_nonzero _ _ _ _ He Hp Hnz). split; [done |].
      intros [e [Habs _]]. discriminate.
  - intros T v.
    rewrite (isCacheValid_entry _ _ _ _ _ (property_setCache_eq T key v m)).
    simpl. rewrite Hnzb. simpl. split; intros Hcmp.
    + apply Z.ltb_lt. lia.
    + apply Z.ltb_ge. lia.
Qed.

Lemma isCacheValid_nonzero_maxAge_witness :
  isCacheValid 1999 "tasks:u1" (Some 1000) (setCache 1000 "tasks:u1" JNull emptyCache)
  = true
  /\ isCacheValid 2000 "tasks:u1" (Some 1000) (setCache 1000 "tasks:u1" JNull emptyCache)
     = false.
Proof.
  split.
  - apply (isCacheValid_nonzero_maxAge emptyCache 1999 "tasks:u1" 1000); lia.
  - apply (isCacheValid_nonzero_maxAge emptyCache 2000 "tasks:u1" 1000); lia.
Defined.

(** C3 as written quantifies over every [maxAge] and every store.  It fails
    at [maxAge = 0]: an entry written at time 0 is reported valid at time 5
    although [5 - 0 < 0] is false.  For a nonzero [maxAge] it fails once the
    prototype has been replaced: after a write under [__proto__] of an
    object that has a [timestamp] field, the key [data], for which no entry
    exists, resolves to that object and is reported valid. *)
Lemma isCacheValid_every_maxAge_counterexample :
  ~ (forall (m : Store) (now : Z) (key : string) (maxAge : Z),
       isCacheValid now key (Some maxAge) m = true
       <-> exists e, own m !! key = Some e /\ now - timestamp e < maxAge)
  /\ ~ (forall (m : Store) (now : Z) (key : string) (maxAge : Z),
          maxAge <> 0 ->
          (isCacheValid now key (Some maxAge) m = true
           <-> exists e, own m !! key = Some e /\ now - timestamp e < maxAge)).
Proof.
  split; intros Hspec.
  - destruct (Hspec (setCache 0 "k" JNull emptyCache) 5 "k"%string 0) as [Hvalid _].
    destruct Hvalid as [e [He Hlt]]; [reflexivity |].
    cbn in He. rewrite lookup_insert_eq in He. injection He as <-. simpl in Hlt. lia.
  - destruct (Hspec (setCache 0 "__proto__" (JObj {["timestamp"%string := JNum 0]})
                       emptyCache) 5 "data"%string 10) as [Hvalid _]; [lia |].
    destruct Hvalid as [e [He _]]; [by vm_compute |].
    vm_compute in He. discriminate.
Qed.

(** C9.  With [maxAge] omitted or equal to 0 the check is true whenever an
    entry exists, whatever its age; for a key that is not a member of
    [Object.prototype], in a store whose prototype has not been replaced,
    it is true only then; the age is compared with [maxAge] only when
    [maxAge] is nonzero. *)
Theorem isCacheValid_maxAge_omitted_or_zero (m : Store) (now : Z) (key : string) :
  (is_Some (own m !! key) ->
     isCacheValid now key None m = true /\ isCacheValid now key (Some 0) m = true)
  /\ (proto m = None -> key ∉ OBJECT_PROTOTYPE ->
        (isCacheValid now key None m = true <-> is_Some (own m !! key))
        /\ (isCacheValid now key (Some 0) m = true <-> is_Some (own m !! key)))
  /\ (forall T v, isCacheValid now key None (setCache T key v m) = true
                  /\ isCacheValid now key (Some 0) (setCache T key v m) = true)
  /\ (forall e a, own m !! key = Some e ->
        isCacheValid now key (Some a) m
        = if a =? 0 then true else now - timestamp e <? a).
Proof.
  split; [| split; [| split]].
  - intros [e He]. by rewrite !(isCacheValid_lookup _ _ _ _ e He).
  - intros Hp Hk. split.
    + split; [| intros [e He]; by rewrite (isCacheValid_lookup _ _ _ _ e He)].
      destruct (own m !! key) as [e|] eqn:He; [by eexists |].
      by rewrite (isCacheValid_absent _ _ _ _ He Hp Hk).
    + split; [| intros [e He]; by rewrite (isCacheValid_lookup _ _ _ _ e He)].
      destruct (own m !! key) as [e|] eqn:He; [by eexists |].
      by rewrite (isCacheValid_absent _ _ _ _ He Hp Hk).
  - intros T v.
    by rewrite !(isCacheValid_entry _ _ _ _ _ (property_setCache_eq T key v m)).
  - intros e a He. rewrite (isCacheValid_lookup _ _ _ _ e He). simpl.
    by destruct (a =? 0).
Qed.

Lemma isCacheValid_maxAge_omitted_or_zero_witness :
  isCacheValid 1000000000 "k" (Some 0) (setCache 0 "k" JNull emptyCache) = true.
Proof.
  destruct (isCacheValid_maxAge_omitted_or_zero (setCache 0 "k" JNull emptyCache)
              1000000000 "k") as [Hexists _].
  apply Hexists. by eexists.
Defined.

(** ** Bulk invalidation *)



(** ** Patching one field *)

(** Falsy cached data ([null], [0], the empty string, [false]) is not
    patched: the [if (cached)] guard leaves the store alone. *)
Lemma updateCachedField_falsy now key field value (m : Store) e :
  own m !! key = Some e -> truthy (data e) = false ->
  updateCachedField now key field value m = m.
Proof.
  intros He Hf. unfold updateCachedField.
  by rewrite (getCache_entry _ _ _ (property_own _ _ _ He)), Hf.
Qed.

Lemma updateCachedField_truthy now key field value (m : Store) e :
  own m !! key = Some e -> truthy (data e) = true ->
  updateCachedField now key field value m
  = mkStore (<[key := mkEntry (JObj (<[field := value]> (spread (data e)))) now]> (own m))
      (proto m).
Proof.
  intros He Ht. unfold updateCachedField.
  rewrite (getCache_entry _ _ _ (property_own _ _ _ He)), Ht.
  by apply (setCache_own _ _ _ _ e).
Qed.

(** With no entry and an untouched prototype, [getCache] answers [null] or,
    under a member name of [Object.prototype], [undefined]: falsy both. *)
Lemma updateCachedField_absent now key field value (m : Store) :
  own m !! key = None -> proto m = None ->
  updateCachedField now key field value m = m.
Proof.
  intros Ho Hp. unfold updateCachedField, getCache.
  rewrite (property_absent _ _ Ho Hp). unfold inherited.
  by case_bool_decide.
Qed.

(** C10, as amended.  When an entry exists for [key] and the data it holds
    is truthy, [updateCachedField key field value] replaces the entry by
    [{...data, [field]: value}] stamped with the current time: for an
    object this is a copy in which [field] is [value] and every other field
    is as before, and the entry is valid again for every positive [maxAge]
    however stale it was.  Entries under other keys are untouched.  When the
    entry holds falsy data, or when no entry exists for [key] (in a store
    whose prototype has not been replaced), the store is unchanged. *)
Theorem updateCachedField_patches_and_refreshes
    (m : Store) (now : Z) (key field : string) (value : JsValue) :
  (forall e props, own m !! key = Some e -> data e = JObj props ->
     exists props',
       own (updateCachedField now key field value m) !! key
         = Some (mkEntry (JObj props') now)
       /\ props' !! field = Some value
       /\ (forall f, f <> field -> props' !! f = props !! f)
       /\ (forall maxAge, 0 < maxAge ->
             isCacheValid now key (Some maxAge)
               (updateCachedField now key field value m) = true))
  /\ (forall e, own m !! key = Some e -> truthy (data e) = true ->
        own (updateCachedField now key field value m) !! key
        = Some (mkEntry (JObj (<[field := value]> (spread (data e)))) now))
  /\ (forall e, own m !! key = Some e -> truthy (data e) = false ->
        updateCachedField now key field value m = m)
  /\ (forall k, k <> key ->
        own (updateCachedField now key field value m) !! k = own m !! k)
  /\ (own m !! key = None -> proto m = None ->
        updateCachedField now key field value m = m).
Proof.
  split; [| split; [| split; [| split]]].
  - intros e props He Hd.
    assert (truthy (data e) = true) as Ht by (by rewrite Hd).
    rewrite (updateCachedField_truthy _ _ _ _ _ e He Ht), Hd. simpl.
    exists (<[field := value]> props). repeat split.
    + apply lookup_insert_eq.
    + apply lookup_insert_eq.
    + intros f Hf. by apply lookup_insert_ne.
    + intros maxAge Hpos.
      erewrite isCacheValid_lookup; [| apply lookup_insert_eq]. simpl.
      destruct (maxAge =? 0) eqn:Hz; [done |]. simpl. apply Z.ltb_lt. lia.
  - intros e He Ht. rewrite (updateCachedField_truthy _ _ _ _ _ e He Ht).
    apply lookup_insert_eq.
  - intros e He Hf. by apply (updateCachedField_falsy _ _ _ _ _ e).
  - intros k Hk. unfold updateCachedField.
    destruct (truthy _); [by apply own_setCache_ne | done].
  - apply updateCachedField_absent.
Qed.

Lemma updateCachedField_patches_and_refreshes_witness :
  let stored := JObj (<["title" := JStr "old"]> (<["done" := JBool false]> ∅)) in
  let m := setCache 0 "task:1" stored emptyCache in
  isCacheValid 900000 "task:1" (Some 300000) m = false
  /\ isCacheValid 900000 "task:1" (Some 300000)
       (updateCachedField 900000 "task:1" "done" (JBool true) m) = true.
Proof.
  intros stored m. split; [reflexivity |].
  destruct (updateCachedField_patches_and_refreshes m 900000 "task:1" "done" (JBool true))
    as [Hpatch _].
  destruct (Hpatch (mkEntry stored 0)
              (<["title" := JStr "old"]> (<["done" := JBool false]> ∅)))
    as [props' [_ [_ [_ Hfresh]]]]; [reflexivity | reflexivity |].
  apply Hfresh. lia.
Defined.

(** C10 as written promises the patch whenever an entry exists.  It fails
    for an entry that holds [null]: [getCache] returns the stored [null],
    the guard [if (cached)] takes it for a missing entry, and the entry
    keeps its data and its old timestamp. *)
Lemma updateCachedField_falsy_data_counterexample :
  ~ (forall (m : Store) (now : Z) (key field : string) (value : JsValue) (e : Entry),
       own m !! key = Some e ->
       exists props',
         own (updateCachedField now key field value m) !! key
           = Some (mkEntry (JObj props') now)
         /\ props' !! field = Some value).
Proof.
  intros Hspec.
  destruct (Hspec (setCache 0 "k" JNull emptyCache) 9 "k"%string "f"%string (JNum 1)
              (mkEntry JNull 0)) as (props' & Hk & _); [reflexivity |].
  vm_compute in Hk. discriminate.
Qed.

End CacheFacts.

(* ===================================================================== *)
(** * Properties of the task synchronisation hook                        *)
(* ===================================================================== *)

Section MutationFacts.
Import Cache UseTasks.

(** ** Offline precondition *)

(** C5.  While the connectivity signal reports offline, each of
    create/update/delete throws before its [await], with an error message of
    its own; the hook state (items, cache, error and all the rest) is
    returned unchanged and no call is added to the log of remote calls. *)
Theorem mutations_rejected_while_offline
    (env : Env) (s : State) (newTask : Task) (sectionId : option string)
    (taskId : string) (updates : Task) :
  isOffline env = true ->
  handleCreateTask env newTask sectionId s
    = (s, Threw (Some "Cannot create tasks while offline"%string))
  /\ handleUpdateTask env taskId updates s
       = (s, Threw (Some "Cannot update tasks while offline"%string))
  /\ handleDeleteTask env taskId s
       = (s, Threw (Some "Cannot delete tasks while offline"%string))
  /\ remoteCalls (handleCreateTask env newTask sectionId s).1 = remoteCalls s
  /\ remoteCalls (handleUpdateTask env taskId updates s).1 = remoteCalls s
  /\ remoteCalls (handleDeleteTask env taskId s).1 = remoteCalls s
  /\ NoDup ["Cannot create tasks while offline"%string;
            "Cannot update tasks while offline"%string;
            "Cannot delete tasks while offline"%string;
            "User ID is required"%string].
Proof.
  intros Hoff. unfold handleCreateTask, handleUpdateTask, handleDeleteTask.
  rewrite Hoff. simpl. repeat split; try reflexivity.
  apply (bool_decide_unpack _). by vm_compute.
Qed.

Lemma mutations_rejected_while_offline_witness :
  let env := mkEnv (Some "u1"%string) 0 true false in
  handleDeleteTask env "t1" (initialState ∅)
  = (initialState ∅, Threw (Some "Cannot delete tasks while offline"%string)).
Proof.
  intros env.
  apply (mutations_rejected_while_offline env (initialState ∅) ∅ None "t1" ∅).
  reflexivity.
Defined.

(** ** Confirm, then apply *)

Lemma handleCreateTask_keeps_view env newTask sectionId s :
  tasks (handleCreateTask env newTask sectionId s).1 = tasks s
  /\ tasksCache (handleCreateTask env newTask sectionId s).1 = tasksCache s.
Proof.
  unfold handleCreateTask.
  destruct (isOffline env); [done |]. by destruct (truthyUserId env).
Qed.

Lemma handleUpdateTask_keeps_view env taskId updates s :
  tasks (handleUpdateTask env taskId updates s).1 = tasks s
  /\ tasksCache (handleUpdateTask env taskId updates s).1 = tasksCache s.
Proof. unfold handleUpdateTask. by destruct (isOffline env). Qed.

Lemma handleDeleteTask_keeps_view env taskId s :
  tasks (handleDeleteTask env taskId s).1 = tasks s
  /\ tasksCache (handleDeleteTask env taskId s).1 = tasksCache s.
Proof. unfold handleDeleteTask. by destruct (isOffline env). Qed.

(** C6.  A create/update/delete leaves the item list and the cache as they
    are until the remote call has settled, and changes them only when it
    was fulfilled: if it is rejected, the same error is rethrown to the
    caller and the whole hook state is returned unchanged. *)
Theorem mutations_confirm_then_apply (env : Env) (s : State) (now : Z) :
  (forall newTask sectionId,
      tasks (handleCreateTask env newTask sectionId s).1 = tasks s
      /\ tasksCache (handleCreateTask env newTask sectionId s).1 = tasksCache s)
  /\ (forall taskId updates,
        tasks (handleUpdateTask env taskId updates s).1 = tasks s
        /\ tasksCache (handleUpdateTask env taskId updates s).1 = tasksCache s)
  /\ (forall taskId,
        tasks (handleDeleteTask env taskId s).1 = tasks s
        /\ tasksCache (handleDeleteTask env taskId s).1 = tasksCache s)
  /\ (forall uid err, createTaskSettled uid (Rejected err) now s = (s, Rejected err))
  /\ (forall taskId err,
        updateTaskSettled env taskId (Rejected err) now s = (s, Rejected err))
  /\ (forall taskId err,
        deleteTaskSettled env taskId (Rejected err) now s = (s, Rejected err))
  /\ (forall uid r,
        tasks (createTaskSettled uid r now s).1 <> tasks s
        \/ tasksCache (createTaskSettled uid r now s).1 <> tasksCache s ->
        exists createdTask, r = Fulfilled createdTask)
  /\ (forall taskId r,
        tasks (updateTaskSettled env taskId r now s).1 <> tasks s
        \/ tasksCache (updateTaskSettled env taskId r now s).1 <> tasksCache s ->
        exists updatedTask, r = Fulfilled updatedTask)
  /\ (forall taskId r,
        tasks (deleteTaskSettled env taskId r now s).1 <> tasks s
        \/ tasksCache (deleteTaskSettled env taskId r now s).1 <> tasksCache s ->
        exists u, r = Fulfilled u).
Proof.
  repeat apply conj.
  - intros. apply handleCreateTask_keeps_view.
  - intros. apply handleUpdateTask_keeps_view.
  - intros. apply handleDeleteTask_keeps_view.
  - reflexivity.
  - reflexivity.
  - reflexivity.
  - intros uid [v|err] Hchg; [by exists v | simpl in Hchg; tauto].
  - intros taskId [v|err] Hchg; [by exists v | simpl in Hchg; tauto].
  - intros taskId [v|err] Hchg; [by exists v | simpl in Hchg; tauto].
Qed.

Lemma mutations_confirm_then_apply_witness :
  let env := mkEnv (Some "u1"%string) 0 false false in
  let t1 : Task := <["id"%string := JStr "t1"]> ∅ in
  let s := setTasks [t1] (initialState (<["u1"%string := mkCachedData [t1] 10]> ∅)) in
  updateTaskSettled env "t1" (Rejected (Some "row level security"%string)) 20 s
  = (s, Rejected (Some "row level security"%string)).
Proof.
  intros env t1 s. apply (mutations_confirm_then_apply env s 20).
Defined.

End MutationFacts.

Section LoadFacts.
Import Cache UseTasks.

(** ** Scenarios *)

(** Empty cache, user "u1", the data source answers with one task: after
    the load the task is shown, nothing is loading, there is no error, and
    the cache holds the answer stamped with the time of arrival. *)
Example scenario_first_load :
  let env := mkEnv (Some "u1"%string) 0 false true in
  let t1 : Task := <["id"%string := JStr "t1"]> ∅ in
  let w := run [LoadTasks env false 100000; RaceSettled 0 (Fulfilled [t1]) 100300 0]
               (mkWorld (initialState ∅) []) in
  tasks (hook w) = [t1] /\ loading (hook w) = false /\ error (hook w) = None
  /\ tasksCache (hook w) !! "u1"%string = Some (mkCachedData [t1] 100300)
  /\ remoteCalls (hook w) = [FetchTasks "u1" 0] /\ inflight w = [].
Proof. repeat split. Qed.

(** A six-minute-old cache entry is shown at once and refreshed in the
    background; the answer replaces both the items and the entry. *)
Example scenario_stale_cache_refreshed :
  let env := mkEnv (Some "u1"%string) 0 false true in
  let t1 : Task := <["id"%string := JStr "t1"]> ∅ in
  let t2 : Task := <["id"%string := JStr "t2"]> ∅ in
  let w0 := mkWorld (initialState (<["u1"%string := mkCachedData [t1] 1000000]> ∅)) [] in
  let w1 := run [LoadTasks env false 1360000] w0 in
  let w2 := run [RaceSettled 0 (Fulfilled [t1; t2]) 1360400 0] w1 in
  tasks (hook w1) = [t1] /\ remoteCalls (hook w1) = [FetchTasks "u1" 0]
  /\ tasks (hook w2) = [t1; t2]
  /\ tasksCache (hook w2) !! "u1"%string = Some (mkCachedData [t1; t2] 1360400).
Proof. repeat split. Qed.

(** A fresh cache entry is served without any remote call. *)
Example scenario_fresh_cache_no_fetch :
  let env := mkEnv (Some "u1"%string) 0 false true in
  let t1 : Task := <["id"%string := JStr "t1"]> ∅ in
  let w0 := mkWorld (initialState (<["u1"%string := mkCachedData [t1] 1000000]> ∅)) [] in
  let w1 := run [LoadTasks env false 1200000] w0 in
  tasks (hook w1) = [t1] /\ loading (hook w1) = false
  /\ remoteCalls (hook w1) = [] /\ inflight w1 = [].
Proof. repeat split. Qed.

(** The race times out with an empty cache at [retryCount = 0]: the error
    names the timeout, a retry is scheduled after 1000 ms plus the jitter,
    and [retryCount] becomes 1 when that timer fires. *)
Example scenario_timeout_schedules_retry :
  let env := mkEnv (Some "u1"%string) 0 false true in
  let w1 := run [LoadTasks env false 100000; RaceSettled 0 timedOut 145000 617]
                (mkWorld (initialState ∅) []) in
  let w2 := run [TimerFired 0] w1 in
  error (hook w1) = Some "Task fetch timeout"%string
  /\ timers (hook w1) = [(1617, BumpRetryCount); (100, ClearLoadingRef)]
  /\ retryCount (hook w1) = 0%nat /\ retryCount (hook w2) = 1%nat.
Proof. repeat split. Qed.

(** In a production build the fetch follows the three preliminary awaits. *)
Example scenario_production_preflight :
  let env := mkEnv (Some "u1"%string) 0 false false in
  let w := run [LoadTasks env false 100000; GetUserSettled 0 (Fulfilled ()) 0;
                TestConnectionSettled 0 (Fulfilled true) 0;
                GetSessionSettled 0 (Fulfilled true) 0]
               (mkWorld (initialState ∅) []) in
  remoteCalls (hook w) = [GetUser; TestConnection; GetSession; FetchTasks "u1" 0]
  /\ fetchesToCome w = 0%nat /\ loadingRef (hook w) = true.
Proof. repeat split. Qed.

(** ** Projections through the blocks of [loadTasks] *)

Lemma finallyBlock_frame s :
  tasks (finallyBlock s) = tasks s
  /\ error (finallyBlock s) = error s
  /\ retryCount (finallyBlock s) = retryCount s
  /\ tasksCache (finallyBlock s) = tasksCache s
  /\ loadingRef (finallyBlock s) = loadingRef s
  /\ remoteCalls (finallyBlock s) = remoteCalls s
  /\ isMountedRef (finallyBlock s) = isMountedRef s
  /\ abortControllerRef (finallyBlock s) = abortControllerRef s
  /\ controllers (finallyBlock s) = controllers s.
Proof.
  unfold finallyBlock, whenMounted. destruct s as [? ? ? ? ? ? [] ? ? ? ? ? ? ?]; cbn.
  all: repeat split.
Qed.

Lemma catchBlock_frame env uid err rnd s :
  retryCount (catchBlock env uid err rnd s) = retryCount s
  /\ tasksCache (catchBlock env uid err rnd s) = tasksCache s
  /\ loadingRef (catchBlock env uid err rnd s) = loadingRef s
  /\ remoteCalls (catchBlock env uid err rnd s) = remoteCalls s
  /\ isMountedRef (catchBlock env uid err rnd s) = isMountedRef s
  /\ abortControllerRef (catchBlock env uid err rnd s) = abortControllerRef s
  /\ controllers (catchBlock env uid err rnd s) = controllers s.
Proof.
  unfold catchBlock.
  destruct (isMountedRef s && currentNotAborted s); [| repeat split].
  destruct (tasksCache s !! uid); [repeat split |]. cbn.
  destruct (negb (isOffline env) && _); [repeat split |].
  destruct (_ <=? _)%nat; repeat split.
Qed.

(** ** Stale data on failure *)



(** ** Retry back-off *)

Lemma retryDelay_cap n rnd : retryDelay n rnd <= 15000.
Proof. unfold retryDelay. apply Z.le_min_r. Qed.

(** A later attempt never waits less than an earlier one: the jitter is
    below the step 1000, which the doubling always covers. *)
Lemma retryDelay_mono (n m : nat) (r1 r2 : Z) :
  (n < m)%nat -> r1 < 1000 -> 0 <= r2 -> retryDelay n r1 <= retryDelay m r2.
Proof.
  intros Hnm Hr1 Hr2. unfold retryDelay.
  apply Z.min_le_compat_r.
  assert (2 ^ Z.of_nat (S n) <= 2 ^ Z.of_nat m) as Hpow
    by (apply Z.pow_le_mono_r; lia).
  rewrite Nat2Z.inj_succ, Z.pow_succ_r in Hpow by lia.
  assert (0 < 2 ^ Z.of_nat n) by (apply Z.pow_pos_nonneg; lia).
  lia.
Qed.

Lemma maxRetries_le err : (maxRetries err <= MAX_RETRIES_TIMEOUT)%nat.
Proof. unfold maxRetries. destruct (isTimeout err); cbv; lia. Qed.

Lemma maxRetries_other err :
  isTimeout err = false -> maxRetries err = MAX_RETRIES_OTHER.
Proof. intros H. unfold maxRetries. by rewrite H. Qed.

(** What the [catch] block schedules: nothing, or exactly one back-off
    timer, and the latter only while the closure's [retryCount] is below
    the budget of the failure's kind. *)
Lemma newTimers_catchBlock env uid err rnd s :
  newTimers s (catchBlock env uid err rnd s) = []
  \/ (newTimers s (catchBlock env uid err rnd s)
        = [(retryDelay (closureRetryCount env) rnd, BumpRetryCount)]
      /\ (closureRetryCount env < maxRetries err)%nat
      /\ isMountedRef s = true).
Proof.
  unfold newTimers, catchBlock.
  destruct (isMountedRef s) eqn:Hm; simpl; [| left; apply drop_all].
  destruct (currentNotAborted s); simpl; [| left; apply drop_all].
  destruct (tasksCache s !! uid); [left; apply drop_all |].
  destruct (negb (isOffline env)); simpl.
  - destruct (closureRetryCount env <? maxRetries err)%nat eqn:Hlt.
    + right. apply Nat.ltb_lt in Hlt. split; [| done].
      cbn. by rewrite drop_app_length.
    + left. destruct (_ <=? _)%nat; apply drop_all.
  - left. destruct (_ <=? _)%nat; apply drop_all.
Qed.

(** With no cached fallback, online, mounted and not aborted, a failure
    below the budget schedules the retry after [retryDelay]. *)
Lemma catchBlock_schedules env uid err rnd s :
  isMountedRef s = true -> currentNotAborted s = true ->
  tasksCache s !! uid = None -> isOffline env = false ->
  (closureRetryCount env < maxRetries err)%nat ->
  timers (catchBlock env uid err rnd s)
  = timers s ++ [(retryDelay (closureRetryCount env) rnd, BumpRetryCount)].
Proof.
  intros Hm Hc Hcache Hon Hlt. unfold catchBlock.
  rewrite Hm, Hc, Hcache, Hon. apply Nat.ltb_lt in Hlt. rewrite Hlt. reflexivity.
Qed.

(** Every delay of a chain of failed attempts is the [retryDelay] of its
    position, and was scheduled below the budget. *)
Lemma retryChain_lookup uid failures :
  forall env s i d,
    retryCount s = closureRetryCount env ->
    retryChain failures env uid s !! i = Some d ->
    exists err rnd,
      failures !! i = Some (err, rnd)
      /\ d = retryDelay (closureRetryCount env + i) rnd
      /\ (closureRetryCount env + i < maxRetries err)%nat.
Proof.
  induction failures as [|[err rnd] rest IH]; intros env s i d Hrc Hd.
  - discriminate.
  - cbn [retryChain] in Hd.
    destruct (newTimers_catchBlock env uid err rnd s) as [Hnil|(Hone & Hlt & Hm)].
    + rewrite Hnil in Hd. discriminate.
    + rewrite Hone in Hd.
      set (s1 := catchBlock env uid err rnd s) in *.
      set (s2 := fire BumpRetryCount (set_timers (timers s) s1)) in *.
      destruct i as [|i]; simpl in Hd.
      * injection Hd as <-. exists err, rnd. rewrite Nat.add_0_r. done.
      * assert (retryCount s2 = S (closureRetryCount env)) as Hrc2.
        { destruct (catchBlock_frame env uid err rnd s) as (Hr & _ & _ & _ & Hm1 & _).
          subst s2 s1. unfold fire, whenMounted. cbn. rewrite Hm1, Hm. cbn.
          by rewrite Hr, Hrc. }
        destruct (IH (rerender env s2) s2 i d eq_refl Hd) as (err' & rnd' & Hf & -> & Hlt').
        assert (closureRetryCount (rerender env s2) + i
                = closureRetryCount env + S i)%nat as Heq
          by (unfold rerender; cbn [closureRetryCount]; rewrite Hrc2; lia).
        rewrite Heq in Hlt' |- *. by exists err', rnd'.
Qed.

(** The intended path of the back-off.  With no cached fallback, online,
    mounted and not aborted, a failure below the retry budget schedules the
    retry after [min(1000 * 2^retryCount + jitter, 15000)] ms.  Along a
    chain in which every back-off timer fires, and the hook re-renders,
    before the next attempt fails, with every jitter in [[0, 1000)], the
    [i]-th delay is that formula at [retryCount + i], never exceeds 15000,
    the delays are non-decreasing, and at most 5 retries are scheduled (at
    most 3 when no failure is a timeout). *)
Lemma backoff_bounds
    (failures : list (ErrorValue * Z)) (env : Env) (uid : string) (s : State) :
  retryCount s = closureRetryCount env ->
  (forall err rnd, (err, rnd) ∈ failures -> 0 <= rnd < 1000) ->
  let delays := retryChain failures env uid s in
  (forall err rnd,
      isMountedRef s = true -> currentNotAborted s = true ->
      tasksCache s !! uid = None -> isOffline env = false ->
      (closureRetryCount env < maxRetries err)%nat ->
      timers (catchBlock env uid err rnd s)
      = timers s ++
          [(Z.min (1000 * 2 ^ Z.of_nat (closureRetryCount env) + rnd) 15000,
            BumpRetryCount)])
  /\ (forall i d, delays !! i = Some d ->
        exists err rnd,
          failures !! i = Some (err, rnd)
          /\ d = Z.min (1000 * 2 ^ Z.of_nat (closureRetryCount env + i) + rnd) 15000
          /\ d <= 15000)
  /\ (forall i j di dj, (i <= j)%nat ->
        delays !! i = Some di -> delays !! j = Some dj -> di <= dj)
  /\ (length delays <= MAX_RETRIES_TIMEOUT)%nat
  /\ ((forall err rnd, (err, rnd) ∈ failures -> isTimeout err = false) ->
      (length delays <= MAX_RETRIES_OTHER)%nat).
Proof.
  intros Hrc Hjit delays. subst delays.
  pose proof (retryChain_lookup uid failures env s) as Hlook.
  repeat apply conj.
  - intros err rnd Hm Hc Hcache Hon Hlt.
    by apply catchBlock_schedules.
  - intros i d Hd.
    destruct (Hlook i d Hrc Hd) as (err & rnd & Hf & -> & _).
    exists err, rnd. split; [done |]. split; [done | apply retryDelay_cap].
  - intros i j di dj Hij Hi Hj.
    destruct (Hlook i di Hrc Hi) as (ei & ri & Hfi & -> & _).
    destruct (Hlook j dj Hrc Hj) as (ej & rj & Hfj & -> & _).
    destruct (decide (i = j)) as [->|Hne].
    + rewrite Hfi in Hfj. injection Hfj as _ ->. lia.
    + apply list_elem_of_lookup_2, Hjit in Hfi.
      apply list_elem_of_lookup_2, Hjit in Hfj.
      apply retryDelay_mono; lia.
  - destruct (decide (length (retryChain failures env uid s) <= MAX_RETRIES_TIMEOUT)%nat)
      as [|Hgt]; [done | exfalso].
    destruct (lookup_lt_is_Some_2 (retryChain failures env uid s) MAX_RETRIES_TIMEOUT)
      as [d Hd]; [lia |].
    destruct (Hlook _ d Hrc Hd) as (err & rnd & _ & _ & Hlt).
    pose proof (maxRetries_le err). lia.
  - intros Hother.
    destruct (decide (length (retryChain failures env uid s) <= MAX_RETRIES_OTHER)%nat)
      as [|Hgt]; [done | exfalso].
    destruct (lookup_lt_is_Some_2 (retryChain failures env uid s) MAX_RETRIES_OTHER)
      as [d Hd]; [lia |].
    destruct (Hlook _ d Hrc Hd) as (err & rnd & Hf & _ & Hlt).
    apply list_elem_of_lookup_2, Hother in Hf.
    rewrite (maxRetries_other err Hf) in Hlt. lia.
Qed.

(** Six timeouts in a row from a fresh hook: five retries are scheduled,
    after 1005, 2999, 4000, 8500 and 15000 ms. *)
Lemma backoff_bounds_witness :
  let failures : list (ErrorValue * Z) :=
    [(Some "Task fetch timeout"%string, 5); (Some "Task fetch timeout"%string, 999);
     (Some "Task fetch timeout"%string, 0); (Some "Task fetch timeout"%string, 500);
     (Some "Task fetch timeout"%string, 123); (Some "Task fetch timeout"%string, 7)] in
  let env := mkEnv (Some "u1"%string) 0 false true in
  retryChain failures env "u1" (initialState ∅) = [1005; 2999; 4000; 8500; 15000]
  /\ (length (retryChain failures env "u1" (initialState ∅)) <= MAX_RETRIES_TIMEOUT)%nat.
Proof.
  intros failures env. split; [reflexivity |].
  apply (backoff_bounds failures env "u1" (initialState ∅)); [reflexivity |].
  intros err rnd Hin. subst failures.
  repeat (apply elem_of_cons in Hin as [[= _ ->] | Hin]; [lia |]).
  by apply elem_of_nil in Hin.
Defined.

(** C4 does not hold when several loads fail under one render.  User "u1",
    empty cache, online, [retryCount = 0].  Four non-forced loads are
    issued 200 ms apart; each one fails with an error that is not a timeout
    40 ms after it started, and the 100 ms timer of its [finally] block
    clears the in-flight marker before the next load.  No back-off timer
    has fired yet (the shortest waits 1000 ms), so the hook has not
    re-rendered and every [catch] block reads the same [retryCount = 0]:
    each failure passes the test [retryCount < maxRetries] and schedules a
    retry.  Four retries are pending where the budget for such failures is
    three, their delays 1999, 1500, 1300 and 1000 ms decrease, and when the
    four timers have fired [retryCount] is 4. *)
Theorem overlapping_failures_exceed_retry_budget :
  let env := mkEnv (Some "u1"%string) 0 false true in
  let err : ErrorValue := Some "Failed to fetch"%string in
  let failing (now rnd : Z) (marker : nat) :=
    [LoadTasks env false now; RaceSettled 0 (Rejected err) (now + 40) rnd;
     TimerFired marker] in
  let w := run (failing 100000 999 1%nat ++ failing 100200 500 2%nat
                ++ failing 100400 300 3%nat ++ failing 100600 0 4%nat)
               (mkWorld (initialState ∅) []) in
  let w' := run [TimerFired 0; TimerFired 0; TimerFired 0; TimerFired 0] w in
  maxRetries err = MAX_RETRIES_OTHER
  /\ fetchCount (hook w) = 4%nat
  /\ retryCount (hook w) = closureRetryCount env
  /\ timers (hook w)
     = [(1999, BumpRetryCount); (1500, BumpRetryCount);
        (1300, BumpRetryCount); (1000, BumpRetryCount)]
  /\ (MAX_RETRIES_OTHER < length (timers (hook w)))%nat
  /\ retryCount (hook w') = 4%nat
  /\ (MAX_RETRIES_OTHER < retryCount (hook w'))%nat.
Proof.
  intros env err failing w w'. split_and!; try reflexivity; vm_compute; lia.
Qed.

(** ** De-duplication and throttling of loads *)










(** Replacing the cancellation token touches nothing but the controllers. *)
Lemma fresh_token_frame s :
  let s0 := (newAbortController (abortCurrent s)).1 in
  tasks s0 = tasks s /\ loading s0 = loading s /\ error s0 = error s
  /\ retryCount s0 = retryCount s /\ loadingRef s0 = loadingRef s
  /\ lastLoadTimeRef s0 = lastLoadTimeRef s /\ isMountedRef s0 = isMountedRef s
  /\ tabSwitchRecoveryRef s0 = tabSwitchRecoveryRef s
  /\ tasksCache s0 = tasksCache s /\ timers s0 = timers s
  /\ remoteCalls s0 = remoteCalls s.
Proof.
  unfold newAbortController, abortCurrent.
  destruct (abortControllerRef s); cbn; repeat split.
Qed.









(** A non-forced call made while the in-flight marker is set, or inside the
    throttle window, returns at once: it issues no remote call and changes
    neither the React state, nor the cache, the timers, the marker or the
    last-load time (it only replaces the cancellation token). *)
Lemma loadTasks_skips env now s :
  loadingRef s = true
  \/ now - lastLoadTimeRef s < (if tabSwitchRecoveryRef s then 1000 else 3000) ->
  let r := loadTasks env false now s in
  r.2 = None /\ remoteCalls r.1 = remoteCalls s
  /\ tasks r.1 = tasks s /\ loading r.1 = loading s /\ error r.1 = error s
  /\ retryCount r.1 = retryCount s /\ tasksCache r.1 = tasksCache s
  /\ timers r.1 = timers s /\ loadingRef r.1 = loadingRef s
  /\ lastLoadTimeRef r.1 = lastLoadTimeRef s.
Proof.
  intros Hskip r. subst r. unfold loadTasks.
  destruct (truthyUserId env) as [uid|]; [| cbn; repeat split].
  pose proof (fresh_token_frame s) as Hfr. cbn zeta in Hfr.
  destruct (newAbortController (abortCurrent s)) as [s0 sig]. cbn [fst] in Hfr.
  destruct Hfr as (Ht & Hlo & He & Hr & Hl & Hlast & _ & Hrec & Hca & Hti & Hc).
  rewrite Hl, Hlast, Hrec.
  destruct (loadingRef s) eqn:Hlr; cbn [andb negb fst snd]; [by repeat split |].
  destruct Hskip as [|Hthr]; [discriminate |].
  apply Z.ltb_lt in Hthr. rewrite Hthr. cbn [fst snd]. by repeat split.
Qed.







(** ** Cancelled and superseded loads *)

(** The success branch tests the call's own [signal]: a fulfilled race whose
    token was aborted only runs the [finally] block. *)
Lemma aborted_success_only_finally p data now rnd s :
  aborted (psignal p) s = true ->
  afterRace p (Fulfilled data) now rnd s = finallyBlock s.
Proof. intros Ha. unfold afterRace. by rewrite Ha, andb_false_r. Qed.

(** After unmount no branch touches the React state or the cache; only the
    timer that clears the in-flight marker is scheduled. *)
Lemma unmounted_settle_only_timer p r now rnd s :
  isMountedRef s = false ->
  afterRace p r now rnd s = addTimer 100 ClearLoadingRef s.
Proof.
  intros Hm. unfold afterRace, catchBlock, finallyBlock, whenMounted.
  destruct r; rewrite Hm; cbn [andb]; by rewrite Hm.
Qed.

(** C2 does not hold on the failure path of a superseded load.  A load is
    in flight for user "u1" with an empty cache; a forced load starts and
    aborts the first call's token; then the first call's race rejects.  Its
    [catch] block tests the _current_ controller, which is the new, not
    aborted one, so the superseded call sets the error, schedules a retry
    timer, and its [finally] block clears the loading flag while the forced
    load is still in flight. *)
Theorem superseded_failure_mutates_state :
  let env := mkEnv (Some "u1"%string) 0 false true in
  let w1 := run [LoadTasks env false 100000; LoadTasks env true 100500]
                (mkWorld (initialState ∅) []) in
  let w2 := step (RaceSettled 0 (Rejected (Some "The user aborted a request."%string))
                    100501 250) w1 in
  (exists p, inflight w1 !! 0%nat = Some p /\ aborted (psignal p) (hook w1) = true)
  /\ isMountedRef (hook w1) = true
  /\ error (hook w1) = None /\ loading (hook w1) = true /\ timers (hook w1) = []
  /\ length (inflight w2) = 1%nat
  /\ error (hook w2) = Some "The user aborted a request."%string
  /\ loading (hook w2) = false
  /\ timers (hook w2) = [(1250, BumpRetryCount); (100, ClearLoadingRef)].
Proof.
  intros env w1 w2. split.
  - eexists. split; reflexivity.
  - repeat split.
Qed.

End LoadFacts.

(* ===================================================================== *)
(** * Further properties of the memory cache                            *)
(* ===================================================================== *)

Section CacheMore.
Import Cache.









(** The index-keyed view of a list has exactly the entries ["i" := vs[i]]. *)
Lemma indexed_lookup_Some (vs : list JsValue) (f : string) (v : JsValue) :
  indexed vs !! f = Some v <-> exists i : nat, f = pretty i /\ vs !! i = Some v.
Proof.
  unfold indexed. rewrite <- elem_of_list_to_map.
  - rewrite elem_of_lookup_imap. split.
    + intros (i & x & [= -> ->] & Hx). by exists i.
    + intros (i & -> & Hi). by exists i, v.
  - rewrite fmap_imap.
    rewrite (imap_ext _ (fun (j : nat) (_ : JsValue) => pretty j)) by done.
    rewrite (imap_seq_0 vs (fun i : nat => pretty i)).
    apply NoDup_fmap_2; [apply _ | apply NoDup_seq].
Qed.

Lemma indexed_lookup (vs : list JsValue) (i : nat) :
  indexed vs !! pretty i = vs !! i.
Proof.
  destruct (vs !! i) as [v|] eqn:Hi.
  - apply indexed_lookup_Some. by exists i.
  - destruct (indexed vs !! pretty i) as [v|] eqn:Hv; [| done].
    apply indexed_lookup_Some in Hv as (j & Hj & Hjv).
    apply (inj pretty) in Hj as ->. congruence.
Qed.

(** X4.  What [updateCachedField] does to cached data that is not a plain
    object.  Falsy data ([null], [undefined], [0], the empty string,
    [false]) is left alone, timestamp included.  A cached array is replaced
    by a plain object: its elements are kept under their decimal indices,
    the patched field is added, and no other property (such as [length])
    exists.  A cached nonzero number or [true] is replaced by an object that
    holds the patched field only. *)
Theorem updateCachedField_non_object
    (m : Store) (now : Z) (key field : string) (value : JsValue) (e : Entry) :
  own m !! key = Some e ->
  (truthy (data e) = false -> updateCachedField now key field value m = m)
  /\ (forall elems, data e = JArr elems ->
        exists props',
          own (updateCachedField now key field value m) !! key
            = Some (mkEntry (JObj props') now)
          /\ props' !! field = Some value
          /\ (forall i : nat, pretty i <> field -> props' !! pretty i = elems !! i)
          /\ (forall f, f <> field -> (forall i : nat, f <> pretty i) ->
                props' !! f = None))
  /\ (forall n, data e = JNum n -> n <> 0 ->
        own (updateCachedField now key field value m) !! key
          = Some (mkEntry (JObj {[field := value]}) now))
  /\ (data e = JBool true ->
        own (updateCachedField now key field value m) !! key
          = Some (mkEntry (JObj {[field := value]}) now)).
Proof.
  intros He. split; [| split; [| split]].
  - intros Hf. by apply (updateCachedField_falsy _ _ _ _ _ e).
  - intros elems Hd.
    rewrite (updateCachedField_truthy _ _ _ _ _ e He) by (by rewrite Hd).
    cbn [own]. rewrite Hd, lookup_insert_eq. cbn [spread].
    exists (<[field := value]> (indexed elems)). repeat split.
    + apply lookup_insert_eq.
    + intros i Hi. rewrite lookup_insert_ne by done. apply indexed_lookup.
    + intros f Hf Hidx. rewrite lookup_insert_ne by done.
      destruct (indexed elems !! f) as [v|] eqn:Hv; [| done].
      apply indexed_lookup_Some in Hv as (i & -> & _). by destruct (Hidx i).
  - intros n Hd Hn.
    rewrite (updateCachedField_truthy _ _ _ _ _ e He).
    + cbn [own]. by rewrite Hd, lookup_insert_eq.
    + rewrite Hd. cbn. by apply negb_true_iff, Z.eqb_neq.
  - intros Hd.
    rewrite (updateCachedField_truthy _ _ _ _ _ e He) by (by rewrite Hd).
    cbn [own]. by rewrite Hd, lookup_insert_eq.
Qed.

Lemma updateCachedField_non_object_witness :
  let m := setCache 0 "courses" (JArr [JStr "c1"; JStr "c2"]) emptyCache in
  exists props',
    own (updateCachedField 9 "courses" "length" (JNum 0) m) !! "courses"%string
      = Some (mkEntry (JObj props') 9)
    /\ props' !! "length"%string = Some (JNum 0)
    /\ props' !! "1"%string = Some (JStr "c2").
Proof.
  intros m.
  assert (own m !! "courses"%string = Some (mkEntry (JArr [JStr "c1"; JStr "c2"]) 0))
    as Hm by reflexivity.
  destruct (updateCachedField_non_object m 9 "courses" "length" (JNum 0)
              (mkEntry (JArr [JStr "c1"; JStr "c2"]) 0) Hm)
    as (_ & Harr & _).
  destruct (Harr [JStr "c1"; JStr "c2"] eq_refl) as (props' & Hk & Hf & Hidx & _).
  exists props'. split; [exact Hk |]. split; [exact Hf |].
  apply (Hidx 1%nat). discriminate.
Defined.

End CacheMore.

(* ===================================================================== *)
(** * Further properties of the task synchronisation hook               *)
(* ===================================================================== *)

Section LoadMore.
Import Cache UseTasks Lifecycle.

(** ** The cancellation token of a call *)

Lemma aborted_fresh (l : list bool) s :
  controllers s = l ++ [false] -> aborted (length l) s = false.
Proof.
  intros Hc. unfold aborted. rewrite Hc.
  by rewrite lookup_app_r, Nat.sub_diag by lia.
Qed.

(** A call with a user id replaces the token: the previous controller, if
    any, is aborted, a new one is appended and becomes current. *)
Lemma fresh_token_tokens s :
  let s0 := (newAbortController (abortCurrent s)).1 in
  controllers s0 = controllers (abortCurrent s) ++ [false]
  /\ length (controllers (abortCurrent s)) = length (controllers s)
  /\ abortControllerRef s0 = Some (length (controllers s))
  /\ (newAbortController (abortCurrent s)).2 = length (controllers s)
  /\ (forall c, abortControllerRef s = Some c ->
        controllers (abortCurrent s) = <[c := true]> (controllers s))
  /\ (abortControllerRef s = None -> controllers (abortCurrent s) = controllers s).
Proof.
  unfold newAbortController, abortCurrent.
  destruct (abortControllerRef s) as [c|]; cbn.
  - rewrite length_insert. repeat split; [by intros ? [= ->] | done].
  - repeat split; done.
Qed.

(** After its token has been installed, [loadTasks] does not touch the
    controllers any more. *)
Lemma startFetch_tokens env uid sig s :
  controllers (startFetch env uid sig s).1 = controllers s
  /\ abortControllerRef (startFetch env uid sig s).1 = abortControllerRef s
  /\ (forall p, (startFetch env uid sig s).2 = Some p -> psignal p = sig).
Proof.
  unfold startFetch. destruct (aborted sig s); cbn [fst snd].
  - destruct (finallyBlock_frame s) as (_ & _ & _ & _ & _ & _ & _ & -> & ->). done.
  - repeat split. by intros p [= <-].
Qed.

Lemma enterTry_tokens env uid force sig s :
  controllers (enterTry env uid force sig s).1 = controllers s
  /\ abortControllerRef (enterTry env uid force sig s).1 = abortControllerRef s
  /\ (forall p, (enterTry env uid force sig s).2 = Some p -> psignal p = sig).
Proof.
  unfold enterTry.
  set (s1 := if (negb (cacheHas uid s) || force) && isMountedRef s
             then setLoading true s else s).
  set (s3 := whenMounted (setError None) (set_loadingRef true s1)).
  assert (controllers s3 = controllers s /\ abortControllerRef s3 = abortControllerRef s)
    as [Hc Hr].
  { subst s3 s1. unfold whenMounted.
    destruct ((negb (cacheHas uid s) || force) && isMountedRef s);
      cbn; destruct (isMountedRef s); done. }
  destruct (development env).
  - destruct (startFetch_tokens env uid sig s3) as (-> & -> & Hp). done.
  - cbn [fst snd]. repeat split; [done | done |]. by intros p [= <-].
Qed.

Lemma loadTasks_tokens env force now s :
  (truthyUserId env = None -> loadTasks env force now s = (s, None))
  /\ (forall uid, truthyUserId env = Some uid ->
        controllers (loadTasks env force now s).1
          = controllers (abortCurrent s) ++ [false]
        /\ abortControllerRef (loadTasks env force now s).1
           = Some (length (controllers s))
        /\ (forall p, (loadTasks env force now s).2 = Some p ->
              psignal p = length (controllers s))).
Proof.
  unfold loadTasks. split; [by intros -> |]. intros uid ->.
  pose proof (fresh_token_tokens s) as Hfr. cbn zeta in Hfr.
  destruct (newAbortController (abortCurrent s)) as [s0 sig]. cbn [fst snd] in Hfr.
  destruct Hfr as (Hc & _ & Hr & -> & _).
  set (s1 := if force then _ else s0).
  assert (controllers s1 = controllers s0 /\ abortControllerRef s1 = abortControllerRef s0)
    as [Hc1 Hr1].
  { subst s1. destruct force; [| done]. unfold whenMounted. cbn.
    by destruct (isMountedRef s0). }
  rewrite <- Hc, <- Hr, <- Hc1, <- Hr1.
  destruct (loadingRef s1 && negb force); [done |].
  destruct (negb force && _); [done |].
  destruct (if force then None else tasksCache s1 !! uid) as [cachedData|];
    [| apply enterTry_tokens].
  destruct (now - cachedTimestamp cachedData <? CACHE_TTL).
  - cbn [fst snd]. unfold whenMounted. by destruct (isMountedRef s1).
  - destruct (enterTry_tokens env uid force (length (controllers s))
                (whenMounted (setTasks (cachedTasks cachedData)) s1)) as (-> & -> & Hp).
    split; [| split; [| exact Hp]]; unfold whenMounted; by destruct (isMountedRef s1).
Qed.

(** ** Forced loads *)

Lemma enterTry_proceeds env uid force sig s :
  aborted sig s = false ->
  let s3 := whenMounted (setError None)
              (set_loadingRef true
                 (if (negb (cacheHas uid s) || force) && isMountedRef s
                  then setLoading true s else s)) in
  enterTry env uid force sig s
  = if development env
    then (logCall (FetchTasks uid sig) s3, Some (mkPending env uid sig AwaitRace))
    else (logCall GetUser s3, Some (mkPending env uid sig AwaitGetUser)).
Proof.
  intros Ha s3. unfold enterTry. fold s3.
  destruct (development env); [| done].
  unfold startFetch.
  assert (aborted sig s3 = false) as ->; [| done].
  rewrite <- Ha. subst s3. unfold aborted, whenMounted.
  destruct ((negb (cacheHas uid s) || force) && isMountedRef s);
    cbn; by destruct (isMountedRef s).
Qed.

Lemma loadTasks_forced_eq env uid now s :
  truthyUserId env = Some uid ->
  loadTasks env true now s
  = enterTry env uid true (length (controllers s))
      (whenMounted (setRetryCount 0%nat)
         (set_tabSwitchRecoveryRef true (newAbortController (abortCurrent s)).1)).
Proof.
  intros Huid. unfold loadTasks. rewrite Huid.
  destruct (fresh_token_tokens s) as (_ & _ & _ & Hsig & _).
  destruct (newAbortController (abortCurrent s)) as [s0 sig]. cbn [fst snd] in *.
  subst sig. by rewrite andb_false_r.
Qed.

Lemma loadTasks_forced
    (env : Env) (uid : string) (now : Z) (s : State) :
  truthyUserId env = Some uid ->
  let r := loadTasks env true now s in
  let sig := length (controllers s) in
  remoteCalls r.1
    = remoteCalls s ++ [if development env then FetchTasks uid sig else GetUser]
  /\ r.2 = Some (mkPending env uid sig
                   (if development env then AwaitRace else AwaitGetUser))
  /\ aborted sig r.1 = false
  /\ abortControllerRef r.1 = Some sig
  /\ loadingRef r.1 = true
  /\ tabSwitchRecoveryRef r.1 = true
  /\ tasks r.1 = tasks s
  /\ tasksCache r.1 = tasksCache s
  /\ (isMountedRef s = true ->
      retryCount r.1 = 0%nat /\ loading r.1 = true /\ error r.1 = None)
  /\ (isMountedRef s = false ->
      retryCount r.1 = retryCount s /\ loading r.1 = loading s
      /\ error r.1 = error s).
Proof.
  intros Huid r sig.
  destruct (loadTasks_tokens env true now s) as [_ Htok].
  destruct (Htok uid Huid) as (Hctl & Href & _). fold r in Hctl, Href.
  destruct (fresh_token_tokens s) as (Hc0 & Hlen & _). cbn zeta in Hc0.
  assert (aborted sig r.1 = false) as Hfresh.
  { apply (aborted_fresh (controllers (abortCurrent s))) in Hctl.
    by rewrite Hlen in Hctl. }
  split; [| split; [| split; [exact Hfresh | split; [exact Href |]]]].
  all: clear Htok Hctl Href Hfresh; subst r sig;
    rewrite (loadTasks_forced_eq env uid now s Huid);
    pose proof (fresh_token_frame s) as Hfr; cbn zeta in Hfr;
    destruct Hfr as (Ht & Hlo & He & Hr & Hl & _ & Hm & _ & Hca & _ & Hc);
    set (s0 := (newAbortController (abortCurrent s)).1) in *; clearbody s0;
    set (s1 := whenMounted (setRetryCount 0%nat) (set_tabSwitchRecoveryRef true s0));
    assert (aborted (length (controllers s)) s1 = false) as Ha1
      by (apply (aborted_fresh (controllers (abortCurrent s))) in Hc0;
          rewrite Hlen in Hc0; rewrite <- Hc0;
          subst s1; unfold aborted, whenMounted; cbn; by destruct (isMountedRef s0));
    rewrite (enterTry_proceeds env uid true _ s1 Ha1);
    rewrite orb_true_r; cbn [andb];
    assert (isMountedRef s1 = isMountedRef s) as Hm1
      by (subst s1; unfold whenMounted; cbn; rewrite <- Hm;
          destruct (isMountedRef s0) eqn:E; cbn; exact E);
    rewrite Hm1; subst s1; unfold whenMounted; cbn; rewrite ?Hm;
    destruct (isMountedRef s) eqn:Hms; cbn; rewrite ?Hm, ?Hms; cbn.
  - destruct (development env); cbn; by rewrite Hc.
  - destruct (development env); cbn; by rewrite Hc.
  - by destruct (development env).
  - by destruct (development env).
  - destruct (development env); cbn; rewrite ?Ht, ?Hca, ?Hr, ?Hlo, ?He;
      repeat split; done.
  - destruct (development env); cbn; rewrite ?Ht, ?Hca, ?Hr, ?Hlo, ?He;
      repeat split; done.
Qed.

(** X5.  A forced load is never skipped: whatever the in-flight marker, the
    throttle window and the cache say, a call with a user id and
    [force = true] installs a new token and issues a remote call with it
    ([fetchTasks] in a development build, the [getUser] pre-flight
    otherwise), sets the in-flight marker and the recovery flag, and, when
    mounted, resets [retryCount] to 0, shows the spinner and clears the
    error.  Items and cache are not touched. *)
Theorem forced_load_always_proceeds
    (env : Env) (uid : string) (now : Z) (s : State) :
  truthyUserId env = Some uid ->
  let r := loadTasks env true now s in
  let sig := length (controllers s) in
  remoteCalls r.1
    = remoteCalls s ++ [if development env then FetchTasks uid sig else GetUser]
  /\ r.2 = Some (mkPending env uid sig
                   (if development env then AwaitRace else AwaitGetUser))
  /\ aborted sig r.1 = false
  /\ abortControllerRef r.1 = Some sig
  /\ loadingRef r.1 = true
  /\ tabSwitchRecoveryRef r.1 = true
  /\ tasks r.1 = tasks s
  /\ tasksCache r.1 = tasksCache s
  /\ (isMountedRef s = true ->
      retryCount r.1 = 0%nat /\ loading r.1 = true /\ error r.1 = None)
  /\ (isMountedRef s = false ->
      retryCount r.1 = retryCount s /\ loading r.1 = loading s
      /\ error r.1 = error s).
Proof. exact (loadTasks_forced env uid now s). Qed.

Lemma forced_load_always_proceeds_witness :
  let env := mkEnv (Some "u1"%string) 2 true true in
  let s := set_loadingRef true (set_lastLoadTimeRef 1000 (initialState ∅)) in
  remoteCalls (loadTasks env true 1001 s).1 = [FetchTasks "u1" 0].
Proof.
  intros env s.
  apply (forced_load_always_proceeds env "u1" 1001 s). reflexivity.
Defined.

(** ** Non-forced loads and the cache *)

Lemma loadTasks_nonforced_eq env uid now s :
  truthyUserId env = Some uid ->
  let s0 := (newAbortController (abortCurrent s)).1 in
  loadTasks env false now s
  = if loadingRef s then (s0, None)
    else if now - lastLoadTimeRef s <? (if tabSwitchRecoveryRef s then 1000 else 3000)
    then (s0, None)
    else
      match tasksCache s !! uid with
      | Some cachedData =>
          if now - cachedTimestamp cachedData <? CACHE_TTL then
            (whenMounted
               (fun s => setError None
                           (setLoading false (setTasks (cachedTasks cachedData) s))) s0,
             None)
          else
            enterTry env uid false (length (controllers s))
              (whenMounted (setTasks (cachedTasks cachedData)) s0)
      | None => enterTry env uid false (length (controllers s)) s0
      end.
Proof.
  intros Huid s0. subst s0. unfold loadTasks. rewrite Huid.
  pose proof (fresh_token_frame s) as Hfr. cbn zeta in Hfr.
  destruct (fresh_token_tokens s) as (_ & _ & _ & Hsig & _).
  destruct (newAbortController (abortCurrent s)) as [s0 sig]. cbn [fst snd] in *.
  destruct Hfr as (_ & _ & _ & _ & -> & -> & _ & -> & -> & _).
  subst sig. rewrite andb_true_r. cbn [negb andb]. done.
Qed.

Lemma loadTasks_fresh_cache
    (env : Env) (uid : string) (now : Z) (s : State) (c : CachedData) :
  truthyUserId env = Some uid ->
  tasksCache s !! uid = Some c ->
  now - cachedTimestamp c < CACHE_TTL ->
  let r := loadTasks env false now s in
  r.2 = None
  /\ remoteCalls r.1 = remoteCalls s
  /\ tasksCache r.1 = tasksCache s
  /\ timers r.1 = timers s
  /\ isMountedRef r.1 = isMountedRef s
  /\ (tasks r.1 = tasks s \/ tasks r.1 = cachedTasks c)
  /\ (loadingRef s = false ->
      (if tabSwitchRecoveryRef s then 1000 else 3000) <= now - lastLoadTimeRef s ->
      isMountedRef s = true ->
      tasks r.1 = cachedTasks c /\ loading r.1 = false /\ error r.1 = None
      /\ loadingRef r.1 = false).
Proof.
  intros Huid Hc Hfresh r. subst r.
  rewrite (loadTasks_nonforced_eq env uid now s Huid). cbn zeta.
  pose proof (fresh_token_frame s) as Hfr. cbn zeta in Hfr.
  set (s0 := (newAbortController (abortCurrent s)).1) in *. clearbody s0.
  destruct Hfr as (Ht & Hlo & He & Hr & Hl & Hla & Hm & Hre & Hca & Hti & Hcalls).
  rewrite Hc. apply Z.ltb_lt in Hfresh. rewrite Hfresh.
  destruct (loadingRef s) eqn:Hlr; cbn [fst snd].
  { split_and!; try done; by left. }
  destruct (now - lastLoadTimeRef s <? _) eqn:Hthr; cbn [fst snd].
  { apply Z.ltb_lt in Hthr. split_and!; try done; [by left | intros; lia]. }
  unfold whenMounted. rewrite Hm. destruct (isMountedRef s) eqn:Hms; cbn.
  - rewrite Hl. split_and!; try done. by right.
  - split_and!; try done. by left.
Qed.

(** X6.  While the cache entry of the user is younger than five minutes, a
    non-forced load issues no remote call, schedules no timer and leaves
    the cache alone; unless it is skipped by the in-flight marker or the
    throttle, it shows the cached items, with the spinner off and the error
    cleared (when mounted). *)
Theorem fresh_cache_needs_no_fetch
    (env : Env) (uid : string) (now : Z) (s : State) (c : CachedData) :
  truthyUserId env = Some uid ->
  tasksCache s !! uid = Some c ->
  now - cachedTimestamp c < CACHE_TTL ->
  let r := loadTasks env false now s in
  r.2 = None
  /\ remoteCalls r.1 = remoteCalls s
  /\ tasksCache r.1 = tasksCache s
  /\ timers r.1 = timers s
  /\ isMountedRef r.1 = isMountedRef s
  /\ (tasks r.1 = tasks s \/ tasks r.1 = cachedTasks c)
  /\ (loadingRef s = false ->
      (if tabSwitchRecoveryRef s then 1000 else 3000) <= now - lastLoadTimeRef s ->
      isMountedRef s = true ->
      tasks r.1 = cachedTasks c /\ loading r.1 = false /\ error r.1 = None
      /\ loadingRef r.1 = false).
Proof. exact (loadTasks_fresh_cache env uid now s c). Qed.

Lemma fresh_cache_needs_no_fetch_witness :
  let env := mkEnv (Some "u1"%string) 0 false false in
  let t1 : Task := <["id"%string := JStr "t1"]> ∅ in
  let s := initialState (<["u1"%string := mkCachedData [t1] 1000000]> ∅) in
  remoteCalls (loadTasks env false 1299999 s).1 = []
  /\ tasks (loadTasks env false 1299999 s).1 = [t1].
Proof.
  intros env t1 s.
  destruct (fresh_cache_needs_no_fetch env "u1" 1299999 s (mkCachedData [t1] 1000000))
    as (_ & Hcalls & _ & _ & _ & _ & Hshown); [reflexivity | reflexivity | by vm_compute |].
  split; [exact Hcalls |]. apply Hshown; [reflexivity | by vm_compute | reflexivity].
Defined.

(** X7.  A successful load of a mounted hook with a live token shows the
    fetched items, clears the error, resets [retryCount], stops the spinner
    and stamps the cache entry and the last-load time with the time of
    arrival; for the following five minutes no non-forced load of that user
    reaches the data source, and the items stay the fetched ones. *)
Theorem successful_load_then_served_from_cache
    (p : Pending) (data : list Task) (T rnd : Z) (s : State) (env : Env) :
  isMountedRef s = true ->
  aborted (psignal p) s = false ->
  truthyUserId env = Some (puid p) ->
  let s1 := afterRace p (Fulfilled data) T rnd s in
  tasks s1 = data /\ error s1 = None /\ retryCount s1 = 0%nat /\ loading s1 = false
  /\ tasksCache s1 !! puid p = Some (mkCachedData data T)
  /\ lastLoadTimeRef s1 = T
  /\ (forall now, now - T < CACHE_TTL ->
        (loadTasks env false now s1).2 = None
        /\ remoteCalls (loadTasks env false now s1).1 = remoteCalls s
        /\ tasks (loadTasks env false now s1).1 = data).
Proof.
  intros Hm Ha Huid s1.
  assert (tasks s1 = data /\ error s1 = None /\ retryCount s1 = 0%nat
          /\ loading s1 = false
          /\ tasksCache s1 !! puid p = Some (mkCachedData data T)
          /\ lastLoadTimeRef s1 = T /\ remoteCalls s1 = remoteCalls s)
    as (Ht & He & Hr & Hlo & Hca & Hla & Hcalls).
  { subst s1. unfold afterRace, finallyBlock, whenMounted, cacheSet.
    rewrite Hm, Ha. cbn. rewrite Hm. cbn. rewrite lookup_insert_eq. done. }
  repeat split; try done.
  - destruct (loadTasks_fresh_cache env (puid p) now s1 (mkCachedData data T)
                Huid Hca H) as (Hn & _). exact Hn.
  - destruct (loadTasks_fresh_cache env (puid p) now s1 (mkCachedData data T)
                Huid Hca H) as (_ & Hc & _). by rewrite Hc.
  - destruct (loadTasks_fresh_cache env (puid p) now s1 (mkCachedData data T)
                Huid Hca H) as (_ & _ & _ & _ & _ & [Hk|Hk] & _); by rewrite Hk.
Qed.

Lemma successful_load_then_served_from_cache_witness :
  let env := mkEnv (Some "u1"%string) 0 false true in
  let t1 : Task := <["id"%string := JStr "t1"]> ∅ in
  let p := mkPending env "u1" 0 AwaitRace in
  let s := (loadTasks env false 100000 (initialState ∅)).1 in
  remoteCalls (loadTasks env false 399999 (afterRace p (Fulfilled [t1]) 100000 0 s)).1
  = remoteCalls s.
Proof.
  intros env t1 p s.
  destruct (successful_load_then_served_from_cache p [t1] 100000 0 s env)
    as (_ & _ & _ & _ & _ & _ & Hnext); [reflexivity | reflexivity | reflexivity |].
  apply (Hnext 399999). by vm_compute.
Defined.

(** ** Every call cancels the previous token *)

Lemma finallyBlock_lastLoad s :
  lastLoadTimeRef (finallyBlock s) = lastLoadTimeRef s
  /\ timers (finallyBlock s) = timers s ++ [(100, ClearLoadingRef)].
Proof.
  unfold finallyBlock, whenMounted. destruct (isMountedRef s); cbn; done.
Qed.

(** X8.  Every [loadTasks] call made with a user id aborts the token that
    was current before it, also when the call itself is then skipped
    because a request is in flight or the throttle applies.  A call
    suspended on that earlier token can no longer publish a successful
    result: when its race is fulfilled, items, cache, error, [retryCount]
    and the last-load time stay as they are. *)
Theorem loadTasks_cancels_previous
    (env : Env) (uid : string) (force : bool) (now : Z) (s : State) (c : nat) :
  truthyUserId env = Some uid ->
  abortControllerRef s = Some c ->
  (c < length (controllers s))%nat ->
  let s' := (loadTasks env force now s).1 in
  aborted c s' = true
  /\ (loadingRef s = true -> force = false ->
      (loadTasks env force now s).2 = None /\ remoteCalls s' = remoteCalls s)
  /\ (forall p data now' rnd,
        psignal p = c ->
        let s'' := afterRace p (Fulfilled data) now' rnd s' in
        tasks s'' = tasks s' /\ tasksCache s'' = tasksCache s'
        /\ error s'' = error s' /\ retryCount s'' = retryCount s'
        /\ lastLoadTimeRef s'' = lastLoadTimeRef s').
Proof.
  intros Huid Href Hlt s'.
  assert (aborted c s' = true) as Hab.
  { destruct (loadTasks_tokens env force now s) as [_ Htok].
    destruct (Htok uid Huid) as (Hctl & _). fold s' in Hctl.
    destruct (fresh_token_tokens s) as (_ & _ & _ & _ & Hins & _).
    rewrite (Hins c Href) in Hctl. unfold aborted. rewrite Hctl.
    rewrite lookup_app_l by (by rewrite length_insert).
    by rewrite list_lookup_insert_eq. }
  split; [exact Hab |]. split.
  - intros Hl ->.
    destruct (loadTasks_skips env now s (or_introl Hl)) as (H1 & H2 & _). done.
  - intros p data now' rnd Hp s''. subst s''.
    rewrite aborted_success_only_finally by (by rewrite Hp).
    destruct (finallyBlock_frame s') as (-> & -> & -> & -> & _).
    destruct (finallyBlock_lastLoad s') as [-> _]. done.
Qed.

(** A second, non-forced call arrives while the first fetch is in flight:
    it is skipped, and the first call's answer is dropped. *)
Lemma loadTasks_cancels_previous_witness :
  let env := mkEnv (Some "u1"%string) 0 false true in
  let t1 : Task := <["id"%string := JStr "t1"]> ∅ in
  let s := (loadTasks env false 100000 (initialState ∅)).1 in
  let s' := (loadTasks env false 100050 s).1 in
  (loadTasks env false 100050 s).2 = None
  /\ tasks (afterRace (mkPending env "u1" 0 AwaitRace) (Fulfilled [t1]) 100300 0 s') = [].
Proof.
  intros env t1 s s'.
  destruct (loadTasks_cancels_previous env "u1" false 100050 s 0%nat)
    as (_ & Hskip & Hdrop); [reflexivity | reflexivity | vm_compute; lia |].
  split; [by apply Hskip |].
  destruct (Hdrop (mkPending env "u1" 0 AwaitRace) [t1] 100300 0 eq_refl)
    as (Ht & _). exact Ht.
Defined.

(** ** Offline reads, exhausted retries, and the range of the back-off *)

(** X9.  In a production build an offline load ends at the first await:
    whatever [getUser] answers, no further remote call is made, nothing is
    written to the cache and no retry is scheduled (only the timer that
    clears the in-flight marker).  When [getUser] resolves and the hook is
    mounted, the cached items are shown with the error "Using cached tasks
    while offline", or, without a cache entry, the list is emptied with the
    error "Cannot fetch tasks while offline"; the spinner is off. *)
Theorem offline_load_serves_cache_only
    (p : Pending) (r : Settled unit) (rnd : Z) (s : State) :
  isOffline (penv p) = true ->
  let res := afterGetUser p r rnd s in
  res.2 = None
  /\ remoteCalls res.1 = remoteCalls s
  /\ tasksCache res.1 = tasksCache s
  /\ timers res.1 = timers s ++ [(100, ClearLoadingRef)]
  /\ (isMountedRef s = true -> r = Fulfilled () ->
      loading res.1 = false
      /\ match tasksCache s !! puid p with
         | Some c =>
             tasks res.1 = cachedTasks c
             /\ error res.1 = Some "Using cached tasks while offline"%string
         | None =>
             tasks res.1 = []
             /\ error res.1 = Some "Cannot fetch tasks while offline"%string
         end).
Proof.
  intros Hoff res. subst res. unfold afterGetUser. rewrite Hoff.
  destruct r as [[]|err].
  - destruct (tasksCache s !! puid p) as [c|] eqn:Hc; cbn [fst snd];
      unfold finallyBlock, whenMounted;
      destruct (isMountedRef s) eqn:Hm; cbn; rewrite ?Hm; cbn; rewrite ?Hc;
      split_and!; done.
  - cbn [fst snd].
    destruct (finallyBlock_frame (catchBlock (penv p) (puid p) err rnd s))
      as (_ & _ & _ & -> & _ & -> & _).
    destruct (finallyBlock_lastLoad (catchBlock (penv p) (puid p) err rnd s))
      as [_ ->].
    destruct (catchBlock_frame (penv p) (puid p) err rnd s)
      as (_ & -> & _ & -> & _).
    assert (timers (catchBlock (penv p) (puid p) err rnd s) = timers s) as ->.
    { unfold catchBlock. rewrite Hoff.
      destruct (isMountedRef s && currentNotAborted s); [| done].
      destruct (tasksCache s !! puid p); [done |]. cbn.
      by destruct (_ <=? _)%nat. }
    split_and!; done.
Qed.

Lemma offline_load_serves_cache_only_witness :
  let env := mkEnv (Some "u1"%string) 0 true false in
  let p := mkPending env "u1" 0 AwaitGetUser in
  let s := (loadTasks env false 100000 (initialState ∅)).1 in
  (afterGetUser p (Fulfilled ()) 0 s).2 = None
  /\ remoteCalls (afterGetUser p (Fulfilled ()) 0 s).1 = [GetUser].
Proof.
  intros env p s.
  destruct (offline_load_serves_cache_only p (Fulfilled ()) 0 s eq_refl)
    as (Hn & Hc & _).
  split; [exact Hn | exact Hc].
Defined.

(** X10.  When a load fails with no cached fallback and the retry budget of
    the failure's kind is used up, no retry is scheduled; the error is
    shown and the recovery flag is set, so that the next change of the tab
    to visible runs a forced load, which issues a remote call.  When the
    failure happens offline below the budget, neither a retry is scheduled
    nor the recovery flag touched. *)
Theorem exhausted_retries_force_refresh
    (env : Env) (uid : string) (err : ErrorValue) (rnd : Z) (s : State) :
  isMountedRef s = true ->
  currentNotAborted s = true ->
  tasksCache s !! uid = None ->
  let s1 := catchBlock env uid err rnd s in
  error s1 = Some (messageOr err "Failed to load tasks")
  /\ tasks s1 = tasks s
  /\ ((maxRetries err <= closureRetryCount env)%nat ->
      timers s1 = timers s
      /\ tabSwitchRecoveryRef s1 = true
      /\ forall env' now,
           truthyUserId env' = Some uid ->
           let r := handleVisibilityChange env' uid true now s1 in
           remoteCalls r.1
             = remoteCalls s ++
                 [if development env' then FetchTasks uid (length (controllers s))
                  else GetUser]
           /\ is_Some r.2)
  /\ (isOffline env = true -> (closureRetryCount env < maxRetries err)%nat ->
      timers s1 = timers s /\ tabSwitchRecoveryRef s1 = tabSwitchRecoveryRef s).
Proof.
  intros Hm Hc Hcache s1. subst s1. unfold catchBlock.
  rewrite Hm, Hc, Hcache. cbn [andb].
  split_and!.
  - destruct (negb (isOffline env) && _); [done |]. by destruct (_ <=? _)%nat.
  - destruct (negb (isOffline env) && _); [done |]. by destruct (_ <=? _)%nat.
  - intros Hex.
    assert ((closureRetryCount env <? maxRetries err)%nat = false) as ->
      by (apply Nat.ltb_ge; lia).
    assert ((maxRetries err <=? closureRetryCount env)%nat = true) as ->
      by (apply Nat.leb_le; lia).
    rewrite andb_false_r.
    set (s1 := set_tabSwitchRecoveryRef true _).
    split_and!; [done | done |].
    intros env' now Huid. unfold handleVisibilityChange.
    set (s2 := if loadingRef s1 then set_loadingRef false s1 else s1).
    assert (tabSwitchRecoveryRef s2 = true /\ remoteCalls s2 = remoteCalls s
            /\ controllers s2 = controllers s) as (Hrec & Hcalls & Hctl).
    { subst s2. by destruct (loadingRef s1). }
    rewrite Hrec, orb_true_r.
    destruct (loadTasks_forced env' uid now s2 Huid) as (Hr & Hp & _).
    rewrite Hr, Hp, Hcalls, Hctl. split; [done | by eexists].
  - intros Hoff Hlt. rewrite Hoff. cbn [negb andb].
    assert ((maxRetries err <=? closureRetryCount env)%nat = false) as ->
      by (apply Nat.leb_gt; lia).
    done.
Qed.

Lemma exhausted_retries_force_refresh_witness :
  let env := mkEnv (Some "u1"%string) 3 false true in
  let s1 := catchBlock env "u1" (Some "boom"%string) 0 (initialState ∅) in
  timers s1 = [] /\ tabSwitchRecoveryRef s1 = true
  /\ remoteCalls (handleVisibilityChange env "u1" true 50000 s1).1
     = [FetchTasks "u1" 0].
Proof.
  intros env s1.
  destruct (exhausted_retries_force_refresh env "u1" (Some "boom"%string) 0
              (initialState ∅))
    as (_ & _ & Hex & _); [reflexivity | reflexivity | reflexivity |].
  destruct Hex as (Ht & Hr & Hv); [vm_compute; lia |].
  split; [exact Ht |]. split; [exact Hr |].
  destruct (Hv env 50000 eq_refl) as [Hcalls _]. exact Hcalls.
Defined.

(** X11.  The range of the back-off with a jitter in [[0, 1000)]: a retry
    never comes sooner than one second or later than fifteen; up to the
    fourth retry the delay is [1000 * 2^retryCount] plus the jitter, below
    nine seconds; from the fifth on it is exactly the cap.  Failures other
    than timeouts, whose budget is three, are therefore retried within five
    seconds. *)
Theorem retryDelay_range (n : nat) (rnd : Z) :
  0 <= rnd < 1000 ->
  1000 <= retryDelay n rnd <= 15000
  /\ ((n < 4)%nat ->
      retryDelay n rnd = 1000 * 2 ^ Z.of_nat n + rnd /\ retryDelay n rnd < 9000)
  /\ ((4 <= n)%nat -> retryDelay n rnd = 15000)
  /\ (forall err, isTimeout err = false -> (n < maxRetries err)%nat ->
        retryDelay n rnd < 5000).
Proof.
  intros Hrnd. unfold retryDelay.
  assert (1 <= 2 ^ Z.of_nat n) as Hpos by (apply Z.pow_le_mono_r with (b := 0); lia).
  assert ((n < 4)%nat -> 2 ^ Z.of_nat n <= 8) as Hsmall.
  { intros Hn. change 8 with (2 ^ 3). apply Z.pow_le_mono_r; lia. }
  assert ((n < 3)%nat -> 2 ^ Z.of_nat n <= 4) as Hsmaller.
  { intros Hn. change 4 with (2 ^ 2). apply Z.pow_le_mono_r; lia. }
  assert ((4 <= n)%nat -> 16 <= 2 ^ Z.of_nat n) as Hbig.
  { intros Hn. change 16 with (2 ^ 4). apply Z.pow_le_mono_r; lia. }
  split_and!.
  - lia.
  - lia.
  - intros Hn. specialize (Hsmall Hn). lia.
  - intros Hn. specialize (Hbig Hn). lia.
  - intros err Hnt Hn. rewrite (maxRetries_other err Hnt) in Hn.
    specialize (Hsmaller Hn). lia.
Qed.

Lemma retryDelay_range_witness :
  retryDelay 4 0 = 15000 /\ retryDelay 2 999 < 5000.
Proof.
  split.
  - apply (retryDelay_range 4 0); lia.
  - destruct (retryDelay_range 2 999) as (_ & _ & _ & Hother); [lia |].
    apply (Hother None); [reflexivity | cbv; lia].
Defined.

(** ** Recovery handlers and the effect *)

Lemma handleVisibilityChange_cases
    (env : Env) (uid : string) (now : Z) (s : State) :
  handleVisibilityChange env uid false now s = (s, None)
  /\ (truthyUserId env = Some uid ->
      20000 < now - lastLoadTimeRef s \/ tabSwitchRecoveryRef s = true ->
      let r := handleVisibilityChange env uid true now s in
      remoteCalls r.1
        = remoteCalls s ++
            [if development env then FetchTasks uid (length (controllers s))
             else GetUser]
      /\ is_Some r.2 /\ loadingRef r.1 = true /\ tabSwitchRecoveryRef r.1 = true)
  /\ (forall c,
        now - lastLoadTimeRef s <= 20000 -> tabSwitchRecoveryRef s = false ->
        tasksCache s !! uid = Some c -> now - cachedTimestamp c <= CACHE_TTL ->
        handleVisibilityChange env uid true now s
        = (if loadingRef s then set_loadingRef false s else s, None)).
Proof.
  split_and!; [done | |].
  - intros Huid Hstuck. unfold handleVisibilityChange.
    set (s2 := if loadingRef s then set_loadingRef false s else s).
    assert (tabSwitchRecoveryRef s2 = tabSwitchRecoveryRef s
            /\ lastLoadTimeRef s2 = lastLoadTimeRef s
            /\ remoteCalls s2 = remoteCalls s
            /\ controllers s2 = controllers s) as (Hrec & Hla & Hcalls & Hctl).
    { subst s2. by destruct (loadingRef s). }
    rewrite Hrec, Hla.
    assert ((20000 <? now - lastLoadTimeRef s) || tabSwitchRecoveryRef s = true) as ->.
    { destruct Hstuck as [Hgt| ->]; [| apply orb_true_r].
      apply Z.ltb_lt in Hgt. by rewrite Hgt. }
    destruct (loadTasks_forced env uid now s2 Huid)
      as (Hr & Hp & _ & _ & Hl & Ht & _).
    rewrite Hr, Hp, Hcalls, Hctl. split_and!; done || by eexists.
  - intros c Hns Hrec Hc Hage. unfold handleVisibilityChange.
    set (s2 := if loadingRef s then set_loadingRef false s else s).
    assert (tabSwitchRecoveryRef s2 = tabSwitchRecoveryRef s
            /\ lastLoadTimeRef s2 = lastLoadTimeRef s
            /\ tasksCache s2 = tasksCache s) as (-> & -> & ->).
    { subst s2. by destruct (loadingRef s). }
    rewrite Hrec, Hc.
    assert ((20000 <? now - lastLoadTimeRef s) = false) as -> by (apply Z.ltb_ge; lia).
    assert ((CACHE_TTL <? now - cachedTimestamp c) = false) as ->
      by (apply Z.ltb_ge; lia).
    done.
Qed.

(** X12.  The visibility handler.  A change to hidden does nothing.  A
    change to visible clears the in-flight marker; if more than 20 s have
    passed since the last successful load, or the recovery flag is set, it
    runs a forced load, which issues a remote call; otherwise, with a cache
    entry that is not older than five minutes, it does nothing else. *)
Theorem visibility_change_recovery
    (env : Env) (uid : string) (now : Z) (s : State) :
  handleVisibilityChange env uid false now s = (s, None)
  /\ (truthyUserId env = Some uid ->
      20000 < now - lastLoadTimeRef s \/ tabSwitchRecoveryRef s = true ->
      let r := handleVisibilityChange env uid true now s in
      remoteCalls r.1
        = remoteCalls s ++
            [if development env then FetchTasks uid (length (controllers s))
             else GetUser]
      /\ is_Some r.2 /\ loadingRef r.1 = true /\ tabSwitchRecoveryRef r.1 = true)
  /\ (forall c,
        now - lastLoadTimeRef s <= 20000 -> tabSwitchRecoveryRef s = false ->
        tasksCache s !! uid = Some c -> now - cachedTimestamp c <= CACHE_TTL ->
        handleVisibilityChange env uid true now s
        = (if loadingRef s then set_loadingRef false s else s, None)).
Proof. exact (handleVisibilityChange_cases env uid now s). Qed.

Lemma visibility_change_recovery_witness :
  let env := mkEnv (Some "u1"%string) 0 false true in
  let t1 : Task := <["id"%string := JStr "t1"]> ∅ in
  let s := set_lastLoadTimeRef 1000000
             (initialState (<["u1"%string := mkCachedData [t1] 1000000]> ∅)) in
  remoteCalls (handleVisibilityChange env "u1" true 1020001 s).1 = [FetchTasks "u1" 0]
  /\ handleVisibilityChange env "u1" true 1020000 s = (s, None).
Proof.
  intros env t1 s.
  destruct (visibility_change_recovery env "u1" 1020001 s) as (_ & Hforce & _).
  destruct (visibility_change_recovery env "u1" 1020000 s) as (_ & _ & Hquiet).
  split.
  - apply Hforce; [reflexivity | left; by vm_compute].
  - apply (Hquiet (mkCachedData [t1] 1000000));
      [by vm_compute | reflexivity | reflexivity | by vm_compute].
Defined.

(** X13.  The poll.  It never touches items, error, [retryCount], cache,
    timers or the data source.  It acts only when the in-flight marker is
    set and more than 50 s have passed since the last successful load: then
    it clears the marker and, when mounted, stops the spinner and sets the
    recovery flag, so that the next change to visible runs a forced load.
    For a hook that has never loaded successfully ([lastLoadTimeRef = 0])
    this holds at every tick after time 50000.  Polling twice at the same
    instant is polling once. *)
Theorem poll_clears_stuck_marker (now : Z) (s : State) :
  let s' := pollCheck now s in
  tasks s' = tasks s /\ error s' = error s /\ retryCount s' = retryCount s
  /\ tasksCache s' = tasksCache s /\ timers s' = timers s
  /\ remoteCalls s' = remoteCalls s
  /\ (loadingRef s = false \/ now - lastLoadTimeRef s <= 50000 -> s' = s)
  /\ (loadingRef s = true -> 50000 < now - lastLoadTimeRef s ->
      loadingRef s' = false
      /\ (isMountedRef s = true ->
          loading s' = false /\ tabSwitchRecoveryRef s' = true
          /\ forall env uid now',
               truthyUserId env = Some uid ->
               is_Some (handleVisibilityChange env uid true now' s').2))
  /\ (lastLoadTimeRef s = 0 -> 50000 < now -> loadingRef s' = false)
  /\ pollCheck now s' = s'.
Proof.
  intros s'.
  set (fired := whenMounted
                  (fun s => set_tabSwitchRecoveryRef true (setLoading false s))
                  (set_loadingRef false s)).
  assert (s' = if loadingRef s && (50000 <? now - lastLoadTimeRef s)
               then fired else s) as Hs' by done.
  assert (tasks fired = tasks s /\ error fired = error s
          /\ retryCount fired = retryCount s /\ tasksCache fired = tasksCache s
          /\ timers fired = timers s /\ remoteCalls fired = remoteCalls s
          /\ loadingRef fired = false /\ lastLoadTimeRef fired = lastLoadTimeRef s
          /\ (isMountedRef s = true ->
              loading fired = false /\ tabSwitchRecoveryRef fired = true))
    as (Ht & He & Hr & Hca & Hti & Hcalls & Hlf & Hla & Hmf).
  { subst fired. unfold whenMounted. cbn.
    destruct (isMountedRef s); cbn; split_and!; done. }
  assert (pollCheck now fired = fired) as Hidem.
  { unfold pollCheck. by rewrite Hlf. }
  destruct (loadingRef s && (50000 <? now - lastLoadTimeRef s)) eqn:Hcond;
    rewrite Hs'; clear Hs' s'.
  - apply andb_true_iff in Hcond as [Hl Hgt]. apply Z.ltb_lt in Hgt.
    split_and!; try done.
    + intros [Hl'|Hle]; [congruence | lia].
    + intros _ _. split; [done |]. intros Hm.
      destruct (Hmf Hm) as [Hlo Hrec]. split_and!; try done.
      intros env uid now' Huid.
      destruct (handleVisibilityChange_cases env uid now' fired) as (_ & Hf & _).
      destruct (Hf Huid (or_intror Hrec)) as (_ & Hsome & _). exact Hsome.
  - split_and!; try done.
    + intros Hl Hgt. apply Z.ltb_lt in Hgt. by rewrite Hl, Hgt in Hcond.
    + intros Hz Hn. destruct (loadingRef s) eqn:Hl; [| done].
      rewrite Hz in Hcond. cbn in Hcond. apply Z.ltb_ge in Hcond. lia.
    + unfold pollCheck. change (TASK_FETCH_TIMEOUT + 5000) with 50000.
      by rewrite Hcond.
Qed.

Lemma poll_clears_stuck_marker_witness :
  let env := mkEnv (Some "u1"%string) 0 false true in
  let s := (loadTasks env false 1000000 (initialState ∅)).1 in
  loadingRef s = true /\ loadingRef (pollCheck 1005000 s) = false.
Proof.
  intros env s. split; [reflexivity |].
  apply (poll_clears_stuck_marker 1005000 s); [reflexivity | by vm_compute].
Defined.

(** X14.  The effect.  Without a user id it empties the list, stops the
    spinner and starts nothing.  With a cache entry for the user, whatever
    its age, it shows the cached items at once with the spinner off, issues
    no remote call and leaves the refresh to the 100 ms timer; when that
    timer runs on a mounted hook and the entry is younger than five
    minutes, the refresh issues no remote call either.  Without a cache
    entry it calls [loadTasks] at once.  Handlers and cleanup are registered
    only when not offline. *)
Theorem effect_shows_cache_first (env : Env) (now : Z) (s : State) :
  let r := effectBody env now s in
  (truthyUserId env = None ->
     tasks r.1 = [] /\ loading r.1 = false /\ remoteCalls r.1 = remoteCalls s
     /\ r.2 = mkMounted None false false)
  /\ (forall uid c,
        truthyUserId env = Some uid -> tasksCache s !! uid = Some c ->
        tasks r.1 = cachedTasks c /\ loading r.1 = false
        /\ isMountedRef r.1 = true /\ remoteCalls r.1 = remoteCalls s
        /\ r.2 = mkMounted None true (negb (isOffline env))
        /\ forall later,
             later - cachedTimestamp c < CACHE_TTL ->
             (loadIfMounted env later r.1).2 = None
             /\ remoteCalls (loadIfMounted env later r.1).1 = remoteCalls s
             /\ tasks (loadIfMounted env later r.1).1 = cachedTasks c)
  /\ (forall uid,
        truthyUserId env = Some uid -> tasksCache s !! uid = None ->
        r.1 = (loadTasks env false now (set_isMountedRef true s)).1
        /\ started r.2 = (loadTasks env false now (set_isMountedRef true s)).2
        /\ deferred r.2 = false /\ registered r.2 = negb (isOffline env)).
Proof.
  intros r. subst r. unfold effectBody. split_and!.
  - by intros ->.
  - intros uid c Huid Hc. rewrite Huid. cbn. rewrite Hc. cbn [fst snd].
    split_and!; try done.
    intros later Hfresh. unfold loadIfMounted.
    set (s1 := setLoading false _).
    assert (isMountedRef s1 = true) as -> by done.
    assert (remoteCalls s1 = remoteCalls s /\ tasks s1 = cachedTasks c
            /\ tasksCache s1 !! uid = Some c) as (Hc1 & Ht1 & Hca1) by done.
    destruct (loadTasks_fresh_cache env uid later s1 c)
      as (Hn & Hcalls & _ & _ & _ & Hk & _); [done | done | done |].
    split_and!; [done | by rewrite Hcalls |]. by destruct Hk as [-> | ->].
  - intros uid -> Hc. cbn. rewrite Hc.
    by destruct (loadTasks env false now (set_isMountedRef true s)).
Qed.

Lemma effect_shows_cache_first_witness :
  let env := mkEnv (Some "u1"%string) 0 false true in
  let t1 : Task := <["id"%string := JStr "t1"]> ∅ in
  let s := initialState (<["u1"%string := mkCachedData [t1] 1000000]> ∅) in
  tasks (effectBody env 1000500 s).1 = [t1]
  /\ remoteCalls (loadIfMounted env 1000600 (effectBody env 1000500 s).1).1 = [].
Proof.
  intros env t1 s.
  destruct (effect_shows_cache_first env 1000500 s) as (_ & Hcached & _).
  destruct (Hcached "u1"%string (mkCachedData [t1] 1000000))
    as (Ht & _ & _ & _ & _ & Hlater); [reflexivity | reflexivity |].
  split; [exact Ht |].
  destruct (Hlater 1000600) as (_ & Hcalls & _); [by vm_compute | exact Hcalls].
Defined.

(** ** Invariants of the event loop *)

Lemma loadTasks_tokenStep env force now s :
  tokenStep s (loadTasks env force now s).
Proof.
  destruct (loadTasks_tokens env force now s) as [Hnone Hsome].
  destruct (truthyUserId env) as [uid|].
  - right. by apply (Hsome uid).
  - left. by rewrite Hnone.
Qed.

Lemma tokenStep_same s s0 r :
  controllers s0 = controllers s -> abortControllerRef s0 = abortControllerRef s ->
  tokenStep s0 r -> tokenStep s r.
Proof.
  intros Hc Hr [(H1 & H2 & H3)|(H1 & H2 & H3)]; [left | right].
  - by rewrite H1, H2, Hc, Hr.
  - assert (controllers (abortCurrent s0) = controllers (abortCurrent s)) as Hab.
    { unfold abortCurrent. rewrite Hr.
      destruct (abortControllerRef s); cbn; by rewrite Hc. }
    rewrite Hab, Hc in *. done.
Qed.

Lemma tokensOk_same w s' l' :
  tokensOk w ->
  controllers s' = controllers (hook w) ->
  abortControllerRef s' = abortControllerRef (hook w) ->
  (forall p, p ∈ l' -> (psignal p < length (controllers (hook w)))%nat) ->
  tokensOk (mkWorld s' l').
Proof.
  intros (Hab & Hcur & Hin) Hc Hr Hl'. unfold tokensOk, aborted in *. cbn.
  rewrite Hc, Hr. done.
Qed.

Lemma tokensOk_tokenStep w r :
  tokensOk w -> tokenStep (hook w) r ->
  tokensOk (mkWorld r.1 (inflight w ++ option_list r.2)).
Proof.
  intros Hok [(Hc & Hr & Hn)|(Hc & Hr & Hp)].
  - apply (tokensOk_same w); [done | done | done |].
    rewrite Hn, app_nil_r. by destruct Hok as (_ & _ & Hin).
  - destruct Hok as (Hab & Hcur & Hin). unfold tokensOk, aborted in *. cbn.
    set (l := controllers (hook w)) in *.
    assert (length (controllers (abortCurrent (hook w))) = length l) as Hlen.
    { unfold abortCurrent. destruct (abortControllerRef (hook w)); [| done].
      cbn. apply length_insert. }
    rewrite Hc, Hr, length_app, Hlen. cbn [length]. split_and!.
    + intros c Hlt Hne. assert (c < length l)%nat as Hc' by (intros; destruct (decide (c = length l)); [congruence | lia]).
      rewrite lookup_app_l by lia.
      unfold abortCurrent. destruct (abortControllerRef (hook w)) as [c0|] eqn:Hr0.
      * cbn. destruct (decide (c0 = c)) as [->|Hne0].
        -- by rewrite list_lookup_insert_eq.
        -- rewrite list_lookup_insert_ne by done. apply Hab; [done | congruence].
      * by apply Hab.
    + intros c [= <-]. lia.
    + intros p [Hp'|Hp']%elem_of_app.
      * specialize (Hin p Hp'). lia.
      * destruct r.2 as [q|] eqn:Hq; [| by apply elem_of_nil in Hp'].
        apply list_elem_of_singleton in Hp' as ->. rewrite (Hp q eq_refl). lia.
Qed.

Lemma afterGetUser_tokens p r rnd s :
  controllers (afterGetUser p r rnd s).1 = controllers s
  /\ abortControllerRef (afterGetUser p r rnd s).1 = abortControllerRef s
  /\ tasksCache (afterGetUser p r rnd s).1 = tasksCache s
  /\ (forall q, (afterGetUser p r rnd s).2 = Some q -> psignal q = psignal p).
Proof.
  unfold afterGetUser. destruct r as [[]|err].
  - destruct (isOffline (penv p)).
    + destruct (tasksCache s !! puid p); cbn [fst snd];
        unfold finallyBlock, whenMounted;
        destruct (isMountedRef s) eqn:Hm; cbn; rewrite ?Hm; cbn; done.
    + cbn. split_and!; try done. by intros q [= <-].
  - cbn [fst snd].
    destruct (finallyBlock_frame (catchBlock (penv p) (puid p) err rnd s))
      as (_ & _ & _ & -> & _ & _ & _ & -> & ->).
    destruct (catchBlock_frame (penv p) (puid p) err rnd s)
      as (_ & -> & _ & _ & _ & -> & ->). done.
Qed.

Lemma afterTestConnection_tokens p r rnd s :
  controllers (afterTestConnection p r rnd s).1 = controllers s
  /\ abortControllerRef (afterTestConnection p r rnd s).1 = abortControllerRef s
  /\ tasksCache (afterTestConnection p r rnd s).1 = tasksCache s
  /\ (forall q, (afterTestConnection p r rnd s).2 = Some q -> psignal q = psignal p).
Proof.
  unfold afterTestConnection.
  assert (forall err,
            controllers (finallyBlock (catchBlock (penv p) (puid p) err rnd s))
              = controllers s
            /\ abortControllerRef (finallyBlock (catchBlock (penv p) (puid p) err rnd s))
               = abortControllerRef s
            /\ tasksCache (finallyBlock (catchBlock (penv p) (puid p) err rnd s))
               = tasksCache s) as Hfail.
  { intros err.
    destruct (finallyBlock_frame (catchBlock (penv p) (puid p) err rnd s))
      as (_ & _ & _ & -> & _ & _ & _ & -> & ->).
    destruct (catchBlock_frame (penv p) (puid p) err rnd s)
      as (_ & -> & _ & _ & _ & -> & ->). done. }
  destruct r as [[]|err]; cbn [fst snd].
  - split_and!; try done. by intros q [= <-].
  - destruct (Hfail (Some "Unable to connect to database"%string)) as (-> & -> & ->).
    done.
  - destruct (Hfail err) as (-> & -> & ->). done.
Qed.

Lemma afterGetSession_tokens p r rnd s :
  controllers (afterGetSession p r rnd s).1 = controllers s
  /\ abortControllerRef (afterGetSession p r rnd s).1 = abortControllerRef s
  /\ tasksCache (afterGetSession p r rnd s).1 = tasksCache s
  /\ (forall q, (afterGetSession p r rnd s).2 = Some q -> psignal q = psignal p).
Proof.
  unfold afterGetSession. destruct r as [[]|err]; cbn [fst snd].
  - destruct (startFetch_tokens (penv p) (puid p) (psignal p) s) as (-> & -> & Hq).
    split_and!; try done.
    unfold startFetch. destruct (aborted (psignal p) s); [| done]. cbn [fst].
    by destruct (finallyBlock_frame s) as (_ & _ & _ & -> & _).
  - destruct (finallyBlock_frame (set_reloaded true s))
      as (_ & _ & _ & -> & _ & _ & _ & -> & ->). done.
  - destruct (finallyBlock_frame (catchBlock (penv p) (puid p) err rnd s))
      as (_ & _ & _ & -> & _ & _ & _ & -> & ->).
    destruct (catchBlock_frame (penv p) (puid p) err rnd s)
      as (_ & -> & _ & _ & _ & -> & ->). done.
Qed.

Lemma afterRace_tokens p r now rnd s :
  controllers (afterRace p r now rnd s) = controllers s
  /\ abortControllerRef (afterRace p r now rnd s) = abortControllerRef s
  /\ cacheKept s (afterRace p r now rnd s).
Proof.
  unfold afterRace. destruct r as [data|err].
  - match goal with |- context [finallyBlock ?x] =>
      destruct (finallyBlock_frame x) as (_ & _ & _ & Hca & _ & _ & _ & -> & ->) end.
    unfold cacheKept. rewrite Hca.
    destruct (isMountedRef s && negb (aborted (psignal p) s)); [| done].
    cbn. split_and!; [done | done |]. intros k Hk.
    destruct (decide (puid p = k)) as [->|Hne].
    + rewrite lookup_insert_eq. by eexists.
    + by rewrite lookup_insert_ne.
  - destruct (finallyBlock_frame (catchBlock (penv p) (puid p) err rnd s))
      as (_ & _ & _ & Hca & _ & _ & _ & -> & ->).
    destruct (catchBlock_frame (penv p) (puid p) err rnd s)
      as (_ & Hca' & _ & _ & _ & -> & ->).
    unfold cacheKept. rewrite Hca, Hca'. done.
Qed.

Lemma loadTasks_cache env force now s :
  tasksCache (loadTasks env force now s).1 = tasksCache s.
Proof.
  assert (forall uid sig s1, tasksCache (startFetch env uid sig s1).1 = tasksCache s1)
    as Hstart.
  { intros uid sig s1. unfold startFetch. destruct (aborted sig s1); [| done].
    cbn [fst]. by destruct (finallyBlock_frame s1) as (_ & _ & _ & -> & _). }
  assert (forall uid f sig s1, tasksCache (enterTry env uid f sig s1).1 = tasksCache s1)
    as Htry.
  { intros uid f sig s1. unfold enterTry.
    set (s3 := whenMounted _ _).
    assert (tasksCache s3 = tasksCache s1) as <-.
    { subst s3. unfold whenMounted.
      destruct ((negb (cacheHas uid s1) || f) && isMountedRef s1);
        cbn; by destruct (isMountedRef s1). }
    destruct (development env); [apply Hstart | done]. }
  unfold loadTasks. destruct (truthyUserId env) as [uid|]; [| done].
  pose proof (fresh_token_frame s) as Hfr. cbn zeta in Hfr.
  destruct (newAbortController (abortCurrent s)) as [s0 sig]. cbn [fst] in Hfr.
  destruct Hfr as (_ & _ & _ & _ & _ & _ & _ & _ & <- & _).
  set (s1 := if force then _ else s0).
  assert (tasksCache s1 = tasksCache s0) as <-.
  { subst s1. destruct force; [| done]. unfold whenMounted. cbn.
    by destruct (isMountedRef s0). }
  destruct (loadingRef s1 && negb force); [done |].
  destruct (negb force && _); [done |].
  destruct (if force then None else tasksCache s1 !! uid) as [cachedData|];
    [| apply Htry].
  destruct (now - cachedTimestamp cachedData <? CACHE_TTL).
  - cbn [fst]. unfold whenMounted. by destruct (isMountedRef s1).
  - rewrite Htry. unfold whenMounted. by destruct (isMountedRef s1).
Qed.

Lemma cacheKept_refl s s' : tasksCache s' = tasksCache s -> cacheKept s s'.
Proof. intros H k. by rewrite H. Qed.

Lemma cacheKept_trans s1 s2 s3 : cacheKept s1 s2 -> cacheKept s2 s3 -> cacheKept s1 s3.
Proof. intros H12 H23 k Hk. by apply H23, H12. Qed.

Lemma cacheKept_cacheSet uid ts now s s' :
  tasksCache s' = tasksCache s -> cacheKept s (cacheSet uid ts now s').
Proof.
  intros H k Hk. unfold cacheSet. cbn. rewrite H.
  destruct (decide (uid = k)) as [->|Hne];
    [rewrite lookup_insert_eq; by eexists | by rewrite lookup_insert_ne].
Qed.

(** The mutations keep the tokens and never drop a cache entry. *)
Lemma mutations_frame env (s : State) :
  (forall newTask sectionId,
      let s' := (handleCreateTask env newTask sectionId s).1 in
      controllers s' = controllers s /\ abortControllerRef s' = abortControllerRef s
      /\ cacheKept s s')
  /\ (forall taskId updates,
        let s' := (handleUpdateTask env taskId updates s).1 in
        controllers s' = controllers s /\ abortControllerRef s' = abortControllerRef s
        /\ cacheKept s s')
  /\ (forall taskId,
        let s' := (handleDeleteTask env taskId s).1 in
        controllers s' = controllers s /\ abortControllerRef s' = abortControllerRef s
        /\ cacheKept s s')
  /\ (forall uid r now,
        let s' := (createTaskSettled uid r now s).1 in
        controllers s' = controllers s /\ abortControllerRef s' = abortControllerRef s
        /\ cacheKept s s')
  /\ (forall taskId r now,
        let s' := (updateTaskSettled env taskId r now s).1 in
        controllers s' = controllers s /\ abortControllerRef s' = abortControllerRef s
        /\ cacheKept s s')
  /\ (forall taskId r now,
        let s' := (deleteTaskSettled env taskId r now s).1 in
        controllers s' = controllers s /\ abortControllerRef s' = abortControllerRef s
        /\ cacheKept s s').
Proof.
  split_and!.
  - intros newTask sectionId. unfold handleCreateTask.
    destruct (isOffline env); [by split_and!; try apply cacheKept_refl |].
    destruct (truthyUserId env); by split_and!; try apply cacheKept_refl.
  - intros taskId updates. unfold handleUpdateTask.
    destruct (isOffline env); by split_and!; try apply cacheKept_refl.
  - intros taskId. unfold handleDeleteTask.
    destruct (isOffline env); by split_and!; try apply cacheKept_refl.
  - intros uid [v|err] now; cbn; [| by split_and!; try apply cacheKept_refl].
    unfold whenMounted. destruct (isMountedRef s);
      [| by split_and!; try apply cacheKept_refl].
    cbn. destruct (tasksCache s !! uid);
      split_and!; try done; by apply cacheKept_cacheSet || apply cacheKept_refl.
  - intros taskId [v|err] now; cbn; [| by split_and!; try apply cacheKept_refl].
    unfold whenMounted. destruct (isMountedRef s);
      [| by split_and!; try apply cacheKept_refl].
    cbn. destruct (truthyUserId env) as [uid|];
      [| by split_and!; try apply cacheKept_refl].
    destruct (tasksCache s !! uid);
      split_and!; try done; by apply cacheKept_cacheSet || apply cacheKept_refl.
  - intros taskId [v|err] now; cbn; [| by split_and!; try apply cacheKept_refl].
    unfold whenMounted. destruct (isMountedRef s);
      [| by split_and!; try apply cacheKept_refl].
    cbn. destruct (truthyUserId env) as [uid|];
      [| by split_and!; try apply cacheKept_refl].
    destruct (tasksCache s !! uid);
      split_and!; try done; by apply cacheKept_cacheSet || apply cacheKept_refl.
Qed.

Lemma resume_invariants expected i k w :
  (forall p s,
      controllers (k p s).1 = controllers s
      /\ abortControllerRef (k p s).1 = abortControllerRef s
      /\ cacheKept s (k p s).1
      /\ (forall q, (k p s).2 = Some q -> psignal q = psignal p)) ->
  (tokensOk w -> tokensOk (resume expected i k w))
  /\ cacheKept (hook w) (hook (resume expected i k w)).
Proof.
  intros Hk. unfold resume.
  destruct (inflight w !! i) as [p|] eqn:Hi; [| by split; [| apply cacheKept_refl]].
  destruct (stage_eqb (pstage p) expected); [| by split; [| apply cacheKept_refl]].
  destruct (Hk p (hook w)) as (Hc & Hr & Hca & Hq).
  destruct (k p (hook w)) as [s next]. cbn [fst snd hook] in *.
  split; [| done]. intros Hok. apply (tokensOk_same w); [done | done | done |].
  destruct Hok as (_ & _ & Hin).
  intros q [Hq'|Hq']%elem_of_app.
  - apply Hin. by eapply list_elem_of_delete_inv.
  - destruct next as [q'|]; [| by apply elem_of_nil in Hq'].
    apply list_elem_of_singleton in Hq' as ->. rewrite (Hq q' eq_refl).
    apply Hin. by eapply list_elem_of_lookup_2.
Qed.

Lemma step_invariants e w :
  (tokensOk w -> tokensOk (step e w))
  /\ cacheKept (hook w) (hook (step e w)).
Proof.
  destruct e as [env force now|i r rnd|i r rnd|i r rnd|i r now rnd|i|]; cbn [step].
  - pose proof (loadTasks_tokenStep env force now (hook w)) as Hts.
    pose proof (loadTasks_cache env force now (hook w)) as Hca.
    destruct (loadTasks env force now (hook w)) as [s next] eqn:Hr. split.
    + intros Hok. by apply (tokensOk_tokenStep w (s, next)).
    + by apply cacheKept_refl.
  - apply resume_invariants. intros p s.
    destruct (afterGetUser_tokens p r rnd s) as (? & ? & ? & ?).
    split_and!; try done. by apply cacheKept_refl.
  - apply resume_invariants. intros p s.
    destruct (afterTestConnection_tokens p r rnd s) as (? & ? & ? & ?).
    split_and!; try done. by apply cacheKept_refl.
  - apply resume_invariants. intros p s.
    destruct (afterGetSession_tokens p r rnd s) as (? & ? & ? & ?).
    split_and!; try done. by apply cacheKept_refl.
  - apply resume_invariants. intros p s. cbn [fst snd].
    destruct (afterRace_tokens p r now rnd s) as (? & ? & ?). done.
  - destruct (timers (hook w) !! i) as [[d a]|]; [| by split; [| apply cacheKept_refl]].
    assert (controllers (fire a (set_timers (delete i (timers (hook w))) (hook w)))
              = controllers (hook w)
            /\ abortControllerRef (fire a (set_timers (delete i (timers (hook w))) (hook w)))
               = abortControllerRef (hook w)
            /\ tasksCache (fire a (set_timers (delete i (timers (hook w))) (hook w)))
               = tasksCache (hook w)) as (Hc & Hr & Hca).
    { destruct a; cbn; [done |]. unfold whenMounted. cbn.
      by destruct (isMountedRef (hook w)). }
    split; [| by apply cacheKept_refl].
    intros Hok. apply (tokensOk_same w); try done. by destruct Hok as (_ & _ & Hin).
  - split; [| apply cacheKept_refl; unfold cleanup, abortCurrent; cbn;
               by destruct (abortControllerRef (hook w))].
    intros (Hab & Hcur & Hin). unfold tokensOk, aborted, cleanup, abortCurrent in *.
    cbn. destruct (abortControllerRef (hook w)) as [c0|] eqn:Hr0; cbn;
      rewrite ?Hr0, ?length_insert; [| done].
    split_and!; [| done | done].
    intros c Hlt Hne. rewrite list_lookup_insert_ne by congruence. by apply Hab.
Qed.

Lemma hookStep_invariants e w :
  (tokensOk w -> tokensOk (hookStep e w))
  /\ cacheKept (hook w) (hook (hookStep e w)).
Proof.
  destruct e as [e|env now|env now|env uid visible now|now
                 |env newTask sectionId|uid r now|env taskId updates
                 |env taskId r now|env taskId|env taskId r now]; cbn [hookStep].
  - apply step_invariants.
  - (* effect *)
    assert (tokenStep (hook w) ((effectBody env now (hook w)).1,
                                started (effectBody env now (hook w)).2)
            /\ tasksCache (effectBody env now (hook w)).1 = tasksCache (hook w))
      as [Hts Hca].
    { unfold effectBody. destruct (truthyUserId env) as [uid|]; [| split; [by left | done]].
      cbn [tasksCache set_isMountedRef].
      destruct (tasksCache (hook w) !! uid); [split; [by left | done] |].
      pose proof (loadTasks_tokenStep env false now (set_isMountedRef true (hook w))) as Hts.
      pose proof (loadTasks_cache env false now (set_isMountedRef true (hook w))) as Hca.
      destruct (loadTasks env false now (set_isMountedRef true (hook w))) as [s next].
      split; [| done]. by apply (tokenStep_same _ (set_isMountedRef true (hook w))). }
    destruct (effectBody env now (hook w)) as [s m]. cbn [fst snd] in *.
    split; [| by apply cacheKept_refl].
    intros Hok. by apply (tokensOk_tokenStep w (s, started m)).
  - (* deferred or realtime load *)
    assert (tokenStep (hook w) (loadIfMounted env now (hook w))
            /\ tasksCache (loadIfMounted env now (hook w)).1 = tasksCache (hook w))
      as [Hts Hca].
    { unfold loadIfMounted. destruct (isMountedRef (hook w)); [| split; [by left | done]].
      split; [apply loadTasks_tokenStep | apply loadTasks_cache]. }
    destruct (loadIfMounted env now (hook w)) as [s next]. cbn [fst snd] in *.
    split; [| by apply cacheKept_refl].
    intros Hok. by apply (tokensOk_tokenStep w (s, next)).
  - (* visibility *)
    assert (tokenStep (hook w) (handleVisibilityChange env uid visible now (hook w))
            /\ tasksCache (handleVisibilityChange env uid visible now (hook w)).1
               = tasksCache (hook w))
      as [Hts Hca].
    { unfold handleVisibilityChange. destruct visible; [| split; [by left | done]].
      set (s2 := if loadingRef (hook w) then set_loadingRef false (hook w) else hook w).
      assert (controllers s2 = controllers (hook w)
              /\ abortControllerRef s2 = abortControllerRef (hook w)
              /\ tasksCache s2 = tasksCache (hook w)) as (Hc & Hr & Hca).
      { subst s2. by destruct (loadingRef (hook w)). }
      rewrite <- Hca.
      destruct (_ || _).
      { split; [apply (tokenStep_same _ s2); try done; apply loadTasks_tokenStep
               | apply loadTasks_cache]. }
      destruct (tasksCache s2 !! uid) as [c|].
      - destruct (CACHE_TTL <? _).
        + split; [apply (tokenStep_same _ s2); try done; apply loadTasks_tokenStep
                 | apply loadTasks_cache].
        + split; [by left | done].
      - split; [apply (tokenStep_same _ s2); try done; apply loadTasks_tokenStep
               | apply loadTasks_cache]. }
    destruct (handleVisibilityChange env uid visible now (hook w)) as [s next].
    cbn [fst snd] in *. split; [| by apply cacheKept_refl].
    intros Hok. by apply (tokensOk_tokenStep w (s, next)).
  - (* poll *)
    assert (controllers (pollCheck now (hook w)) = controllers (hook w)
            /\ abortControllerRef (pollCheck now (hook w)) = abortControllerRef (hook w)
            /\ tasksCache (pollCheck now (hook w)) = tasksCache (hook w))
      as (Hc & Hr & Hca).
    { unfold pollCheck, whenMounted. destruct (_ && _); [| done]. cbn.
      by destruct (isMountedRef (hook w)). }
    split; [| by apply cacheKept_refl].
    intros Hok. apply (tokensOk_same w); try done. by destruct Hok as (_ & _ & Hin).
  - destruct (mutations_frame env (hook w)) as (H & _).
    destruct (H newTask sectionId) as (Hc & Hr & Hca). split; [| done].
    intros Hok. apply (tokensOk_same w); try done. by destruct Hok as (_ & _ & Hin).
  - destruct (mutations_frame (mkEnv None 0 false false) (hook w)) as (_ & _ & _ & H & _).
    destruct (H uid r now) as (Hc & Hr & Hca). split; [| done].
    intros Hok. apply (tokensOk_same w); try done. by destruct Hok as (_ & _ & Hin).
  - destruct (mutations_frame env (hook w)) as (_ & H & _).
    destruct (H taskId updates) as (Hc & Hr & Hca). split; [| done].
    intros Hok. apply (tokensOk_same w); try done. by destruct Hok as (_ & _ & Hin).
  - destruct (mutations_frame env (hook w)) as (_ & _ & _ & _ & H & _).
    destruct (H taskId r now) as (Hc & Hr & Hca). split; [| done].
    intros Hok. apply (tokensOk_same w); try done. by destruct Hok as (_ & _ & Hin).
  - destruct (mutations_frame env (hook w)) as (_ & _ & H & _).
    destruct (H taskId) as (Hc & Hr & Hca). split; [| done].
    intros Hok. apply (tokensOk_same w); try done. by destruct Hok as (_ & _ & Hin).
  - destruct (mutations_frame env (hook w)) as (_ & _ & _ & _ & _ & H).
    destruct (H taskId r now) as (Hc & Hr & Hca). split; [| done].
    intros Hok. apply (tokensOk_same w); try done. by destruct Hok as (_ & _ & Hin).
Qed.

Lemma hookRun_invariants es : forall w,
  (tokensOk w -> tokensOk (hookRun es w))
  /\ cacheKept (hook w) (hook (hookRun es w)).
Proof.
  induction es as [|e es IH]; intros w.
  - split; [done | by apply cacheKept_refl].
  - change (hookRun (e :: es) w) with (hookRun es (hookStep e w)).
    destruct (hookStep_invariants e w) as [Ht Hc].
    destruct (IH (hookStep e w)) as [Ht' Hc'].
    split; [by auto | by eapply cacheKept_trans].
Qed.

(** X15.  From a freshly mounted hook, after any sequence of events (loads,
    settlements, timers, effect runs, visibility changes, poll ticks,
    mutations, cleanups), at most one cancellation token is live: every
    controller but the current one is aborted, and every suspended call
    holds an existing token.  Hence only the call that holds the current
    token can publish a fetched result: for every other suspended call a
    fulfilled race runs the [finally] block and nothing else. *)
Theorem one_live_token (es : list HookEvent) (cache : gmap string CachedData) :
  let w := hookRun es (mkWorld (initialState cache) []) in
  tokensOk w
  /\ (forall p data now rnd,
        p ∈ inflight w ->
        abortControllerRef (hook w) <> Some (psignal p) ->
        afterRace p (Fulfilled data) now rnd (hook w) = finallyBlock (hook w)).
Proof.
  intros w.
  assert (tokensOk w) as Hok.
  { apply hookRun_invariants. unfold tokensOk. cbn. split_and!.
    - intros c Hc. lia.
    - intros c [=].
    - intros p Hp. by apply elem_of_nil in Hp. }
  split; [exact Hok |].
  intros p data now rnd Hp Hne. destruct Hok as (Hab & _ & Hin).
  apply aborted_success_only_finally. apply Hab; [by apply Hin | done].
Qed.

(** X16.  No event of the hook ever removes an entry of [tasksCache]: a
    user id that has cached tasks keeps having some, whatever happens. *)
Theorem cache_entries_never_removed (es : list HookEvent) (w : World) (uid : string) :
  is_Some (tasksCache (hook w) !! uid) ->
  is_Some (tasksCache (hook (hookRun es w)) !! uid).
Proof. apply hookRun_invariants. Qed.

Lemma cache_entries_never_removed_witness :
  let env := mkEnv (Some "u1"%string) 0 false true in
  let t1 : Task := <["id"%string := JStr "t1"]> ∅ in
  let w := mkWorld (initialState (<["u1"%string := mkCachedData [t1] 0]> ∅)) [] in
  is_Some (tasksCache (hook (hookRun [VisibilityChange env "u1" true 900000;
                                      Core (RaceSettled 0 timedOut 945000 3);
                                      Core Cleanup] w)) !! "u1"%string).
Proof.
  intros env t1 w. apply (cache_entries_never_removed _ w "u1"). by eexists.
Defined.

End LoadMore.

Section MutationMore.
Import Cache UseTasks Lifecycle.

(** ** What a fulfilled mutation does to items and cache *)

Lemma dropTask_elem_of taskId (ts : list Task) t :
  t ∈ dropTask taskId ts <-> t ∈ ts /\ hasId taskId t = false.
Proof.
  unfold dropTask. rewrite !list_elem_of_In, List.filter_In.
  by rewrite negb_true_iff.
Qed.

Lemma dropTask_sublist taskId (ts : list Task) : dropTask taskId ts `sublist_of` ts.
Proof.
  induction ts as [|t ts IH]; cbn; [constructor |].
  destruct (negb (hasId taskId t)); by constructor.
Qed.

Lemma dropTask_absent taskId (ts : list Task) :
  (forall t, t ∈ ts -> hasId taskId t = false) -> dropTask taskId ts = ts.
Proof.
  induction ts as [|t ts IH]; intros Hall; cbn; [done |].
  rewrite (Hall t) by (by left). cbn. f_equal. apply IH.
  intros t' Ht'. apply Hall. by right.
Qed.

Lemma patchTasks_lookup taskId updatedTask (ts : list Task) i :
  patchTasks taskId updatedTask ts !! i
  = (fun task => if hasId taskId task then mergeTask task updatedTask else task)
      <$> ts !! i.
Proof. unfold patchTasks. apply list_lookup_fmap. Qed.

Lemma patchTasks_absent taskId updatedTask (ts : list Task) :
  (forall t, t ∈ ts -> hasId taskId t = false) -> patchTasks taskId updatedTask ts = ts.
Proof.
  induction ts as [|t ts IH]; intros Hall; cbn; [done |].
  rewrite (Hall t) by (by left). f_equal. apply IH.
  intros t' Ht'. apply Hall. by right.
Qed.

(** X17.  A fulfilled delete on a mounted hook removes from the items every
    task whose [id] is the given one and nothing else, keeping the order of
    the rest; deleting an id that no item carries leaves the list as it is,
    and so does deleting the same id again.  The cache entry of the user,
    when there is one, gets the same treatment and the current time. *)
Theorem delete_removes_exactly_the_task
    (env : Env) (taskId : string) (now : Z) (s : State) :
  isMountedRef s = true ->
  let s' := (deleteTaskSettled env taskId (Fulfilled ()) now s).1 in
  (forall t, t ∈ tasks s' <-> t ∈ tasks s /\ hasId taskId t = false)
  /\ tasks s' `sublist_of` tasks s
  /\ ((forall t, t ∈ tasks s -> hasId taskId t = false) -> tasks s' = tasks s)
  /\ tasks (deleteTaskSettled env taskId (Fulfilled ()) now s').1 = tasks s'
  /\ (forall uid c, truthyUserId env = Some uid -> tasksCache s !! uid = Some c ->
        tasksCache s' !! uid
        = Some (mkCachedData (dropTask taskId (cachedTasks c)) now)).
Proof.
  intros Hm s'.
  assert (tasks s' = dropTask taskId (tasks s) /\ isMountedRef s' = true) as [Ht Hm'].
  { subst s'. unfold deleteTaskSettled, whenMounted. rewrite Hm. cbn [fst].
    destruct (truthyUserId env) as [uid|]; [| done].
    cbn. by destruct (tasksCache s !! uid). }
  assert (forall uid c, truthyUserId env = Some uid -> tasksCache s !! uid = Some c ->
            tasksCache s' !! uid
            = Some (mkCachedData (dropTask taskId (cachedTasks c)) now)) as Hcache.
  { intros uid c Huid Hc. subst s'. unfold deleteTaskSettled, whenMounted.
    rewrite Hm, Huid. cbn. rewrite Hc. cbn. by rewrite lookup_insert_eq. }
  clearbody s'. split_and!; [| | | | exact Hcache].
  - intros t. rewrite Ht. apply dropTask_elem_of.
  - rewrite Ht. apply dropTask_sublist.
  - intros Hall. rewrite Ht. by apply dropTask_absent.
  - assert (tasks (deleteTaskSettled env taskId (Fulfilled ()) now s').1
            = dropTask taskId (tasks s')) as ->.
    { unfold deleteTaskSettled, whenMounted. rewrite Hm'. cbn [fst].
      destruct (truthyUserId env) as [uid|]; [| done].
      cbn. by destruct (tasksCache s' !! uid). }
    apply dropTask_absent. intros t Hin. rewrite Ht in Hin.
    by apply dropTask_elem_of in Hin as [_ ?].
Qed.

Lemma delete_removes_exactly_the_task_witness :
  let env := mkEnv (Some "u1"%string) 0 false true in
  let t1 : Task := <["id"%string := JStr "t1"]> ∅ in
  let t2 : Task := <["id"%string := JStr "t2"]> ∅ in
  let s := setTasks [t1; t2; t1] (initialState ∅) in
  tasks (deleteTaskSettled env "t9" (Fulfilled ()) 5 s).1 = [t1; t2; t1].
Proof.
  intros env t1 t2 s.
  destruct (delete_removes_exactly_the_task env "t9" 5 s eq_refl)
    as (_ & _ & Habsent & _).
  apply Habsent. intros t Hin.
  repeat (apply elem_of_cons in Hin as [-> | Hin]; [reflexivity |]).
  by apply elem_of_nil in Hin.
Defined.

(** X18.  A fulfilled update on a mounted hook keeps the number and the
    order of the items; the item at each position is replaced by its merge
    with the returned task exactly when its [id] is the given one.  In a
    merged task every property of the returned task wins and every other
    property is kept.  An id that no item carries leaves the list as it is. *)
Theorem update_patches_exactly_the_task
    (env : Env) (taskId : string) (updatedTask : Task) (now : Z) (s : State) :
  isMountedRef s = true ->
  let s' := (updateTaskSettled env taskId (Fulfilled updatedTask) now s).1 in
  length (tasks s') = length (tasks s)
  /\ (forall i, tasks s' !! i
                = (fun task => if hasId taskId task
                               then mergeTask task updatedTask else task)
                    <$> tasks s !! i)
  /\ (forall task field,
        mergeTask task updatedTask !! field
        = match updatedTask !! field with
          | Some v => Some v
          | None => task !! field
          end)
  /\ ((forall t, t ∈ tasks s -> hasId taskId t = false) -> tasks s' = tasks s)
  /\ (forall uid c, truthyUserId env = Some uid -> tasksCache s !! uid = Some c ->
        tasksCache s' !! uid
        = Some (mkCachedData (patchTasks taskId updatedTask (cachedTasks c)) now)).
Proof.
  intros Hm s'.
  assert (tasks s' = patchTasks taskId updatedTask (tasks s)) as Ht.
  { subst s'. unfold updateTaskSettled, whenMounted. rewrite Hm. cbn [fst].
    destruct (truthyUserId env) as [uid|]; [| done].
    cbn. by destruct (tasksCache s !! uid). }
  split_and!.
  - rewrite Ht. unfold patchTasks. apply length_map.
  - intros i. rewrite Ht. apply patchTasks_lookup.
  - intros task field. unfold mergeTask. rewrite lookup_union.
    destruct (updatedTask !! field), (task !! field); done.
  - intros Hall. rewrite Ht. by apply patchTasks_absent.
  - intros uid c Huid Hc. subst s'. unfold updateTaskSettled, whenMounted.
    rewrite Hm, Huid. cbn. rewrite Hc. cbn. by rewrite lookup_insert_eq.
Qed.

Lemma update_patches_exactly_the_task_witness :
  let env := mkEnv (Some "u1"%string) 0 false true in
  let t1 : Task := <["id"%string := JStr "t1"]> (<["status"%string := JStr "open"]> ∅) in
  let t2 : Task := <["id"%string := JStr "t2"]> ∅ in
  let s := setTasks [t1; t2] (initialState ∅) in
  let upd : Task := <["status"%string := JStr "done"]> ∅ in
  length (tasks (updateTaskSettled env "t1" (Fulfilled upd) 5 s).1) = 2%nat.
Proof.
  intros env t1 t2 s upd.
  destruct (update_patches_exactly_the_task env "t1" upd 5 s eq_refl) as (Hlen & _).
  exact Hlen.
Defined.

(** X19.  Items and cache stay in step: if the visible items are the ones
    cached for the user, they still are after any settlement of a create,
    an update or a delete (fulfilled or rejected, mounted or not); and a
    successful load of a mounted hook with a live token makes them so. *)
Theorem mutations_keep_cache_in_sync
    (env : Env) (uid : string) (s : State) (now : Z) :
  truthyUserId env = Some uid ->
  inSync uid s ->
  (forall r, inSync uid (createTaskSettled uid r now s).1)
  /\ (forall taskId r, inSync uid (updateTaskSettled env taskId r now s).1)
  /\ (forall taskId r, inSync uid (deleteTaskSettled env taskId r now s).1)
  /\ (forall p data T rnd s0,
        isMountedRef s0 = true -> aborted (psignal p) s0 = false ->
        inSync (puid p) (afterRace p (Fulfilled data) T rnd s0)).
Proof.
  intros Huid (c & Hc & Hsync). unfold inSync. split_and!.
  - intros [v|err]; cbn; [| by exists c]. unfold whenMounted.
    destruct (isMountedRef s); [| by exists c].
    cbn. rewrite Hc. cbn. rewrite lookup_insert_eq. eexists. split; [done |].
    cbn. by rewrite Hsync.
  - intros taskId [v|err]; cbn; [| by exists c]. unfold whenMounted.
    destruct (isMountedRef s); [| by exists c].
    rewrite Huid. cbn. rewrite Hc. cbn. rewrite lookup_insert_eq.
    eexists. split; [done |]. cbn. by rewrite Hsync.
  - intros taskId [v|err]; cbn; [| by exists c]. unfold whenMounted.
    destruct (isMountedRef s); [| by exists c].
    rewrite Huid. cbn. rewrite Hc. cbn. rewrite lookup_insert_eq.
    eexists. split; [done |]. cbn. by rewrite Hsync.
  - intros p data T rnd s0 Hm Ha.
    unfold afterRace, finallyBlock, whenMounted, cacheSet. rewrite Hm, Ha. cbn.
    rewrite Hm. cbn. rewrite lookup_insert_eq. by eexists.
Qed.

Lemma mutations_keep_cache_in_sync_witness :
  let env := mkEnv (Some "u1"%string) 0 false true in
  let t1 : Task := <["id"%string := JStr "t1"]> ∅ in
  let s := setTasks [t1] (initialState (<["u1"%string := mkCachedData [t1] 7]> ∅)) in
  inSync "u1" (deleteTaskSettled env "t1" (Fulfilled ()) 9 s).1.
Proof.
  intros env t1 s.
  apply (mutations_keep_cache_in_sync env "u1" s 9); [reflexivity |].
  exists (mkCachedData [t1] 7). split; reflexivity.
Defined.

(** X20.  A fulfilled create on a mounted hook appends the new task to the
    items.  It appends it to the user's cache entry only if there is one,
    and never creates an entry.  The entry it writes carries the current
    time, so for the next five minutes a non-forced load is answered from
    the cache and issues no remote call, however old the entry was before
    the create. *)
Theorem create_restamps_cache_entry
    (env : Env) (uid : string) (createdTask : Task) (now : Z) (s : State) :
  truthyUserId env = Some uid ->
  isMountedRef s = true ->
  let s' := (createTaskSettled uid (Fulfilled createdTask) now s).1 in
  tasks s' = tasks s ++ [createdTask]
  /\ (tasksCache s !! uid = None -> tasksCache s' = tasksCache s)
  /\ (forall c, tasksCache s !! uid = Some c ->
        tasksCache s' !! uid
          = Some (mkCachedData (cachedTasks c ++ [createdTask]) now)
        /\ forall later, later - now < CACHE_TTL ->
             (loadTasks env false later s').2 = None
             /\ remoteCalls (loadTasks env false later s').1 = remoteCalls s).
Proof.
  intros Huid Hm s'.
  assert (tasks s' = tasks s ++ [createdTask] /\ remoteCalls s' = remoteCalls s
          /\ (tasksCache s !! uid = None -> tasksCache s' = tasksCache s)
          /\ (forall c, tasksCache s !! uid = Some c ->
                tasksCache s' !! uid
                = Some (mkCachedData (cachedTasks c ++ [createdTask]) now)))
    as (Ht & Hcalls & Hnone & Hsome).
  { subst s'. unfold createTaskSettled, whenMounted. rewrite Hm. cbn.
    destruct (tasksCache s !! uid) as [c|]; cbn; split_and!; try done.
    intros c' [= <-]. by rewrite lookup_insert_eq. }
  clearbody s'. split_and!; [done | done |].
  intros c Hc. split; [by apply Hsome |]. intros later Hfresh.
  destruct (loadTasks_fresh_cache env uid later s'
              (mkCachedData (cachedTasks c ++ [createdTask]) now) Huid (Hsome c Hc) Hfresh)
    as (Hn & Hcalls' & _). by rewrite Hcalls'.
Qed.

Lemma create_restamps_cache_entry_witness :
  let env := mkEnv (Some "u1"%string) 0 false true in
  let t1 : Task := <["id"%string := JStr "t1"]> ∅ in
  let t2 : Task := <["id"%string := JStr "t2"]> ∅ in
  let s := initialState (<["u1"%string := mkCachedData [t1] 0]> ∅) in
  let s' := (createTaskSettled "u1" (Fulfilled t2) 9000000 s).1 in
  remoteCalls (loadTasks env false 9100000 s').1 = [].
Proof.
  intros env t1 t2 s s'.
  destruct (create_restamps_cache_entry env "u1" t2 9000000 s)
    as (_ & _ & Hsome); [reflexivity | reflexivity |].
  destruct (Hsome (mkCachedData [t1] 0)) as [_ Hlater]; [reflexivity |].
  destruct (Hlater 9100000) as [_ Hcalls]; [by vm_compute | exact Hcalls].
Defined.

End MutationMore.

(* ===================================================================== *)
(** * Properties of the service worker's caching decisions              *)
(* ===================================================================== *)

Section ServiceWorkerFacts.
Import ServiceWorker.

Lemma includes_unfold sub s :
  includes sub s
  = String.prefix sub s
    || match s with
       | EmptyString => false
       | String _ rest => includes sub rest
       end.
Proof. by destruct s. Qed.

(** [s.includes(sub)] holds exactly when [sub] occurs somewhere in [s]. *)
Lemma includes_spec sub s :
  includes sub s = true <-> exists pre post, s = (pre +:+ sub +:+ post)%string.
Proof.
  split.
  - induction s as [|c s IH]; rewrite includes_unfold; intros H.
    + rewrite orb_false_r in H. apply prefix_startsWith in H as [rest ->].
      by exists EmptyString, rest.
    + apply orb_true_iff in H as [H|H].
      * apply prefix_startsWith in H as [rest ->]. by exists EmptyString, rest.
      * destruct (IH H) as (pre & post & ->). by exists (String c pre), post.
  - intros (pre & post & ->). induction pre as [|c pre IH].
    + change (EmptyString +:+ sub +:+ post)%string with (sub +:+ post)%string.
      rewrite includes_unfold.
      assert (String.prefix sub (sub +:+ post) = true) as ->
        by (apply prefix_startsWith; by exists post).
      done.
    + change (String c pre +:+ sub +:+ post)%string
        with (String c (pre +:+ sub +:+ post))%string.
      rewrite includes_unfold, IH. apply orb_true_r.
Qed.

Lemma string_append_assoc (a b c : string) :
  ((a +:+ b) +:+ c = a +:+ b +:+ c)%string.
Proof.
  induction a as [|x a IH]; [done |].
  change (String x ((a +:+ b) +:+ c) = String x (a +:+ b +:+ c))%string.
  by rewrite IH.
Qed.

Lemma isNeverCacheRoute_spec path :
  isNeverCacheRoute path = true
  <-> exists route, route ∈ NEVER_CACHE_ROUTES
        /\ (path = route \/ exists rest, path = (route +:+ "/" +:+ rest)%string).
Proof.
  unfold isNeverCacheRoute. rewrite existsb_exists. split.
  - intros (route & Hin & Hm). exists route. split; [by apply list_elem_of_In |].
    apply orb_true_iff in Hm as [Heq|Hpre].
    + left. by apply String.eqb_eq.
    + right. apply prefix_startsWith in Hpre as [rest ->]. exists rest.
      apply string_append_assoc.
  - intros (route & Hin & Hm). exists route. split; [by apply list_elem_of_In |].
    apply orb_true_iff. destruct Hm as [->|[rest ->]].
    + left. apply String.eqb_refl.
    + right. apply prefix_startsWith. exists rest.
      symmetry. apply string_append_assoc.
Qed.

Lemma isValidCacheURL_iff (parsed : option URL) :
  isValidCacheURL parsed = true
  <-> exists u,
        parsed = Some u
        /\ (protocol u = "http:"%string \/ protocol u = "https:"%string)
        /\ ~ (exists pre post, hostname u = (pre +:+ "supabase.co" +:+ post)%string)
        /\ ~ (exists pre post, pathname u = (pre +:+ "_vercel/insights" +:+ post)%string)
        /\ ~ (exists route, route ∈ NEVER_CACHE_ROUTES
                /\ (pathname u = route
                    \/ exists rest, pathname u = (route +:+ "/" +:+ rest)%string)).
Proof.
  unfold isValidCacheURL. destruct parsed as [u|];
    [| split; [done | by intros (u & [=] & _)]].
  assert (existsb (String.eqb (protocol u)) ["http:"%string; "https:"%string] = true
          <-> protocol u = "http:"%string \/ protocol u = "https:"%string) as Hproto.
  { cbn. rewrite orb_false_r, orb_true_iff, !String.eqb_eq. done. }
  split.
  - intros H. exists u.
    destruct (existsb _ _) eqn:Hp; cbn [negb] in H; [| done].
    destruct (includes "supabase.co" (hostname u)) eqn:Hh; [done |].
    destruct (includes "_vercel/insights" (pathname u)) eqn:Hv; [done |].
    destruct (isNeverCacheRoute (pathname u)) eqn:Hr; [done |].
    split_and!; [done | by apply Hproto | | |].
    + intros Hex. apply includes_spec in Hex. congruence.
    + intros Hex. apply includes_spec in Hex. congruence.
    + intros Hex. apply isNeverCacheRoute_spec in Hex. congruence.
  - intros (u' & [= <-] & Hpr & Hh & Hv & Hr).
    apply Hproto in Hpr. rewrite Hpr. cbn [negb].
    destruct (includes "supabase.co" (hostname u)) eqn:E1;
      [destruct Hh; by apply includes_spec |].
    destruct (includes "_vercel/insights" (pathname u)) eqn:E2;
      [destruct Hv; by apply includes_spec |].
    destruct (isNeverCacheRoute (pathname u)) eqn:E3;
      [destruct Hr; by apply isNeverCacheRoute_spec | done].
Qed.

(** X21.  [isValidCacheURL] accepts a URL exactly when it parses, its
    protocol is [http:] or [https:], its host does not contain
    "supabase.co", its path does not contain "_vercel/insights", and its
    path is none of /auth, /login, /signup, /reset-password nor below one
    of them (a path such as /authors is accepted). *)
Theorem isValidCacheURL_exact (parsed : option URL) :
  isValidCacheURL parsed = true
  <-> exists u,
        parsed = Some u
        /\ (protocol u = "http:"%string \/ protocol u = "https:"%string)
        /\ ~ (exists pre post, hostname u = (pre +:+ "supabase.co" +:+ post)%string)
        /\ ~ (exists pre post, pathname u = (pre +:+ "_vercel/insights" +:+ post)%string)
        /\ ~ (exists route, route ∈ NEVER_CACHE_ROUTES
                /\ (pathname u = route
                    \/ exists rest, pathname u = (route +:+ "/" +:+ rest)%string)).
Proof. exact (isValidCacheURL_iff parsed). Qed.

(** X22.  A request whose URL [isValidCacheURL] rejects is matched by none
    of the three runtime routes and is left alone by the [fetch] listener;
    in particular this holds for the authentication pages and for every
    host that contains "supabase.co".  The listener also ignores every
    request whose method is not GET. *)
Theorem rejected_urls_bypass_worker (r : Request) :
  (isValidCacheURL (Some (url r)) = false ->
     runtimeRoute r = None /\ onFetch r = Ignored)
  /\ (forall route rest,
        route ∈ NEVER_CACHE_ROUTES ->
        pathname (url r) = route \/ pathname (url r) = (route +:+ "/" +:+ rest)%string ->
        runtimeRoute r = None /\ onFetch r = Ignored)
  /\ (forall pre post,
        hostname (url r) = (pre +:+ "supabase.co" +:+ post)%string ->
        runtimeRoute r = None /\ onFetch r = Ignored)
  /\ (method r <> "GET"%string -> onFetch r = Ignored).
Proof.
  assert (isValidCacheURL (Some (url r)) = false ->
          runtimeRoute r = None /\ onFetch r = Ignored) as Hrej.
  { intros Hv. unfold runtimeRoute, matchImage, matchScriptOrStyle, matchFont, onFetch.
    rewrite Hv. cbn. by destruct (negb (method r =? "GET")%string). }
  split_and!; [exact Hrej | | |].
  - intros route rest Hin Hpath. apply Hrej.
    destruct (isValidCacheURL (Some (url r))) eqn:Hv; [| done].
    apply isValidCacheURL_iff in Hv as (u & [= <-] & _ & _ & _ & Hn).
    destruct Hn. exists route. split; [done |].
    destruct Hpath as [?|?]; [by left | right; by exists rest].
  - intros pre post Hhost. apply Hrej.
    destruct (isValidCacheURL (Some (url r))) eqn:Hv; [| done].
    apply isValidCacheURL_iff in Hv as (u & [= <-] & _ & Hn & _).
    destruct Hn. by exists pre, post.
  - intros Hm. unfold onFetch.
    destruct (method r =? "GET")%string eqn:He; [| done].
    by apply String.eqb_eq in He.
Qed.

Lemma rejected_urls_bypass_worker_witness :
  let login := mkRequest "GET" "navigate" "document"
                 (mkURL "https:" "nesttask.app" "/login/callback" "https://nesttask.app") in
  let authors := mkRequest "GET" "navigate" "document"
                   (mkURL "https:" "nesttask.app" "/authors" "https://nesttask.app") in
  onFetch login = Ignored /\ onFetch authors = NetworkThenOfflinePage.
Proof.
  intros login authors. split; [| reflexivity].
  destruct (rejected_urls_bypass_worker login) as (_ & Hroute & _).
  destruct (Hroute "/login"%string "callback"%string) as [_ Hf].
  - right; left.
  - by right.
  - exact Hf.
Defined.

End ServiceWorkerFacts.

(* ===================================================================== *)
(** * Properties of the prefetch module                                  *)
(* ===================================================================== *)

Section PrefetchFacts.
Import Cache Prefetch.

Lemma call_preloads c s :
  NoDup (preloads s) /\ (forall k, k ∈ preloads s -> k ∈ prefetchedRoutes s) ->
  NoDup (preloads (call c s))
  /\ (forall k, k ∈ preloads (call c s) -> k ∈ prefetchedRoutes (call c s)).
Proof.
  intros [Hnd Hsub]. destruct c as [onLine k|onLine k|k r now]; cbn [call].
  - unfold prefetchRoute. case_bool_decide as Hin; cbn [orb]; [done |].
    destruct onLine; cbn [negb]; [| done]. cbn. split.
    + apply NoDup_app. split_and!; [done | | apply NoDup_singleton].
      intros x Hx ->%list_elem_of_singleton. by apply Hin, Hsub.
    + intros x [Hx| ->%list_elem_of_singleton]%elem_of_app; set_solver.
  - unfold prefetchApiData. destruct (_ || _); done.
  - unfold prefetchSettled, forget. destruct r as [| |d]; try done.
    by destruct (truthy d).
Qed.

(** X23.  However [prefetchRoute], [prefetchApiData] and the settlements of
    its queries are interleaved, no route key is handed to the preloader
    twice.  A call made offline changes nothing, so the route can be
    prefetched later; an online call for a key not yet seen preloads it. *)
Theorem routes_preloaded_at_most_once (cs : list Call) :
  NoDup (preloads (calls cs initialState))
  /\ (forall k s, prefetchRoute false k s = s)
  /\ (forall k s, k ∉ prefetchedRoutes s ->
        preloads (prefetchRoute true k s) = preloads s ++ [k]
        /\ prefetchRoute true k (prefetchRoute true k s) = prefetchRoute true k s).
Proof.
  split_and!.
  - assert (forall s,
              NoDup (preloads s) /\ (forall k, k ∈ preloads s -> k ∈ prefetchedRoutes s) ->
              NoDup (preloads (calls cs s))) as Hgen.
    { induction cs as [|c cs IH]; intros s Hs; [by destruct Hs |].
      apply (IH (call c s)). by apply call_preloads. }
    apply Hgen. split; [apply NoDup_nil_2 | intros k Hk; by apply elem_of_nil in Hk].
  - intros k s. unfold prefetchRoute. by rewrite orb_true_r.
  - intros k s Hk. unfold prefetchRoute.
    rewrite (bool_decide_eq_false_2 _ Hk). cbn. split; [done |].
    rewrite bool_decide_eq_true_2; [done | set_solver].
Qed.

Lemma queriesOf_step k c s :
  (queriesOf k (call c s) + (if bool_decide (k ∈ prefetchedQueries (call c s)) then 0 else 1)
   <= queriesOf k s + (if bool_decide (k ∈ prefetchedQueries s) then 0 else 1)
      + (if isFailureOf k c then 1 else 0))%nat.
Proof.
  destruct c as [onLine k'|onLine k'|k' r now]; cbn [call isFailureOf].
  - unfold prefetchRoute. destruct (_ || _); [lia |].
    unfold queriesOf. cbn [queries prefetchedQueries]. lia.
  - unfold prefetchApiData. case_bool_decide as Hin; cbn [orb fst]; [lia |].
    destruct onLine; cbn [negb fst]; [| lia].
    unfold queriesOf. cbn [queries prefetchedQueries].
    rewrite List.filter_app, length_app. cbn [List.filter].
    destruct (String.eqb_spec k k') as [->|Hne].
    + rewrite (bool_decide_eq_false_2 _ Hin).
      rewrite bool_decide_eq_true_2 by set_solver. cbn. lia.
    + cbn [length].
      assert (bool_decide (k ∈ {[k']} ∪ prefetchedQueries s)
              = bool_decide (k ∈ prefetchedQueries s)) as ->
        by (apply bool_decide_ext; set_solver).
      lia.
  - unfold prefetchSettled, forget, queriesOf.
    destruct r as [| |d]; cbn [queries prefetchedQueries].
    + destruct (String.eqb_spec k' k) as [->|Hne].
      * rewrite (bool_decide_eq_false_2 (k ∈ prefetchedQueries s ∖ {[k]})) by set_solver.
        case_bool_decide; lia.
      * assert (bool_decide (k ∈ prefetchedQueries s ∖ {[k']})
                = bool_decide (k ∈ prefetchedQueries s)) as ->
          by (apply bool_decide_ext; set_solver).
        lia.
    + destruct (String.eqb_spec k' k) as [->|Hne].
      * rewrite (bool_decide_eq_false_2 (k ∈ prefetchedQueries s ∖ {[k]})) by set_solver.
        case_bool_decide; lia.
      * assert (bool_decide (k ∈ prefetchedQueries s ∖ {[k']})
                = bool_decide (k ∈ prefetchedQueries s)) as ->
          by (apply bool_decide_ext; set_solver).
        lia.
    + destruct (truthy d); cbn; lia.
Qed.

(** X24.  The query of a cache key is started once, and again only after a
    settlement that failed: over any sequence of calls, the number of
    queries started for a key is at most one more than the number of its
    queries that threw or answered with an error. *)
Theorem query_restarted_only_after_failure (cs : list Call) (cacheKey : string) :
  (queriesOf cacheKey (calls cs initialState) <= failuresOf cacheKey cs + 1)%nat.
Proof.
  assert (forall s,
            (queriesOf cacheKey (calls cs s)
             + (if bool_decide (cacheKey ∈ prefetchedQueries (calls cs s)) then 0 else 1)
             <= queriesOf cacheKey s
                + (if bool_decide (cacheKey ∈ prefetchedQueries s) then 0 else 1)
                + failuresOf cacheKey cs)%nat) as Hgen.
  { induction cs as [|c cs IH]; intros s; [cbn; lia |].
    change (calls (c :: cs) s) with (calls cs (call c s)).
    specialize (IH (call c s)). pose proof (queriesOf_step cacheKey c s) as Hstep.
    unfold failuresOf in *. cbn [List.filter]. revert Hstep IH.
    destruct (isFailureOf cacheKey c); cbn [length]; intros; lia. }
  specialize (Hgen initialState). cbn in Hgen.
  rewrite (bool_decide_eq_false_2 (cacheKey ∈ (∅ : gset string))) in Hgen by set_solver.
  destruct (bool_decide _) in Hgen; lia.
Qed.

(** X25.  What one prefetch of a key not yet seen leads to.  Online, the
    query is started.  If it answers truthy data, the data is stored under
    the key with the time of arrival and can be read back, and no later
    call queries the key again.  If it throws or answers with an error, the
    cache is untouched and the key is forgotten, so the next online call
    queries again.  If it answers without error but with falsy data (for
    instance [null]), nothing is stored and the key stays marked: no later
    call queries it again. *)
Theorem prefetch_outcomes (cacheKey : string) (now : Z) (s : State) :
  cacheKey ∉ prefetchedQueries s ->
  let s1 := (prefetchApiData true cacheKey s).1 in
  (prefetchApiData true cacheKey s).2 = true
  /\ prefetchApiData false cacheKey s = (s, false)
  /\ (forall data, truthy data = true ->
        let s2 := prefetchSettled cacheKey (Answered data) now s1 in
        getCachedData cacheKey s2 = data
        /\ property cacheKey (memoryCache s2) = EntryObject (mkEntry data now)
        /\ forall onLine, prefetchApiData onLine cacheKey s2 = (s2, false))
  /\ (forall r, r = Threw \/ r = Failed ->
        let s2 := prefetchSettled cacheKey r now s1 in
        memoryCache s2 = memoryCache s
        /\ (prefetchApiData true cacheKey s2).2 = true)
  /\ (forall data, truthy data = false ->
        let s2 := prefetchSettled cacheKey (Answered data) now s1 in
        memoryCache s2 = memoryCache s
        /\ forall onLine, prefetchApiData onLine cacheKey s2 = (s2, false)).
Proof.
  intros Hk s1.
  assert (prefetchApiData true cacheKey s
          = (mkState (prefetchedRoutes s) ({[cacheKey]} ∪ prefetchedQueries s)
               (memoryCache s) (preloads s) (queries s ++ [cacheKey]), true)) as Heq.
  { unfold prefetchApiData. by rewrite (bool_decide_eq_false_2 _ Hk). }
  subst s1. rewrite Heq. cbn [fst snd]. clear Heq.
  split_and!; [done | | | |].
  - unfold prefetchApiData. by rewrite orb_true_r.
  - intros data Ht. unfold prefetchSettled. rewrite Ht. cbn zeta.
    unfold getCachedData. cbn [memoryCache]. split_and!.
    + apply getCache_setCache.
    + apply property_setCache_eq.
    + intros onLine. unfold prefetchApiData. cbn [prefetchedQueries].
      rewrite bool_decide_eq_true_2; [done | set_solver].
  - intros r [-> | ->]; cbn zeta; unfold prefetchSettled, forget, prefetchApiData;
      cbn [prefetchedQueries memoryCache]; (split; [done |]);
      (rewrite bool_decide_eq_false_2; [done | set_solver]).
  - intros data Hf. unfold prefetchSettled. rewrite Hf. cbn zeta. split; [done |].
    intros onLine. unfold prefetchApiData. cbn [prefetchedQueries].
    rewrite bool_decide_eq_true_2; [done | set_solver].
Qed.

Lemma prefetch_outcomes_witness :
  let s1 := (prefetchApiData true "courses" initialState).1 in
  let s2 := prefetchSettled "courses" (Answered (JArr [])) 42 s1 in
  getCachedData "courses" s2 = JArr [].
Proof.
  intros s1 s2.
  destruct (prefetch_outcomes "courses" 42 initialState) as (_ & _ & Hok & _);
    [set_solver |].
  destruct (Hok (JArr []) eq_refl) as [Hget _]. exact Hget.
Defined.

End PrefetchFacts.
